(** * HayDay bot: path planning, template matching, location
      classification and the workflow engine

    A shallow embedding of the Python sources

    - [core/path_generator.py]  (PathGenerator.create_linear_path)
    - [core/template_manager.py] (TemplateManager.find_template)
    - [core/soil_detector.py]   (SoilDetector.detect_field)
    - [core/state.py], [config.py]
    - [bot/operations.py], [bot/market.py], [gui/bot_controller.py]

    Integers are [Z]; confidences, areas and durations (Python floats) are
    exact rationals [Q].  Calls into OpenCV are methods of the class
    [OpenCV]; everything else is translated from the Python text.

    The workflow task is written in a state monad [M] over a [World]:
    the shared [BotState] and [DetectionState], the stop signal, and the
    record of what the task did (pyautogui calls, sleeps, looks at the
    stop signal, writes to [BotState]).  What the other threads and the
    screen do is an arbitrary [Env]: the GUI thread may stop or start the
    bot before any look at the shared flags, the detection thread may
    store any snapshot before any read, a screen capture and any
    pyautogui call may raise.  Loops that have no bound of their own in the source
    ([bot_loop], the growth wait) take fuel; running out of it is the
    outcome [OutOfFuel], which the bounded procedures are proved never to
    reach. *)

From Stdlib Require Import ZArith QArith Qround Qminmax Lia Lqa Bool List String.
From stdpp Require Import base option gmap strings list fin_maps.
Import ListNotations.

Local Open Scope string_scope.
Local Open Scope list_scope.
Local Open Scope Z_scope.

(* ===================================================================== *)
(** ** Python helpers *)
(* ===================================================================== *)

(** [range(start, stop, step)] for a positive [step] (every call site in
    the sources passes a positive literal). *)
Definition py_range (start stop step : Z) : list Z :=
  map (fun i : nat => start + step * Z.of_nat i)
      (seq 0 (Z.to_nat ((stop - start + step - 1) / step))).

(** [min(l)] and [max(l)] of a list that the caller has checked to be
    non-empty. *)
Definition py_min (l : list Z) : Z := fold_right Z.min (hd 0 l) l.
Definition py_max (l : list Z) : Z := fold_right Z.max (hd 0 l) l.

(** Truthiness of an optional integer, as in [if silo_x and silo_y]: [None]
    and [0] are both falsy. *)
Definition truthy (o : option Z) : bool :=
  match o with
  | Some z => negb (z =? 0)
  | None => false
  end.

(** [int(q)]: truncation toward zero. *)
Definition py_int (q : Q) : Z := Z.quot (Qnum q) (Z.pos (Qden q)).

(** [a >= b], [a > b], [a < b] on floats. *)
Definition Qgeb (a b : Q) : bool := Qle_bool b a.
Definition Qgtb (a b : Q) : bool := negb (Qle_bool a b).
Definition Qltb (a b : Q) : bool := negb (Qle_bool b a).

(** [min(a, b)] on floats: [b] when it is strictly smaller, [a] otherwise. *)
Definition py_minQ (a b : Q) : Q := if Qltb b a then b else a.

(** [max(xs, key=key)]: the first element whose key is maximal. *)
Fixpoint py_max_by {A : Type} (key : A -> Q) (best : A) (l : list A) : A :=
  match l with
  | [] => best
  | y :: l' => py_max_by key (if Qgtb (key y) (key best) then y else best) l'
  end.

(** [s.lower()] on the ASCII letters; the strings the sources pass to it
    are ASCII. *)
Definition lower_ascii (c : Ascii.ascii) : Ascii.ascii :=
  let n := Ascii.nat_of_ascii c in
  if ((65 <=? n) && (n <=? 90))%nat then Ascii.ascii_of_nat (n + 32) else c.

Fixpoint py_lower (s : string) : string :=
  match s with
  | EmptyString => EmptyString
  | String c s' => String (lower_ascii c) (py_lower s')
  end.

(* ===================================================================== *)
(** ** Geometry and the OpenCV interface *)
(* ===================================================================== *)

Definition Point : Type := Z * Z.

(** A contour is the array of its points ([contour.reshape(-1, 2)]). *)
Definition Contour : Type := list Point.

(** The calls the sources make into [cv2] and [numpy] on pictures.  They
    are not part of the repository and stay abstract. *)
Class OpenCV := {
  Image : Type;
  ResultMap : Type;
  (** [img.shape[:2]], rows then columns *)
  shape : Image -> Z * Z;
  cvtColor_BGR2GRAY : Image -> Image;
  cvtColor_BGR2HSV : Image -> Image;
  (** [cv2.matchTemplate(img, tmpl, cv2.TM_CCOEFF_NORMED)] *)
  matchTemplate : Image -> Image -> ResultMap;
  (** [cv2.minMaxLoc(result)]: min_val, max_val, min_loc, max_loc *)
  minMaxLoc : ResultMap -> Q * Q * Point * Point;
  (** the (x, y) positions where [result >= threshold] ([np.where]) *)
  where_ge : ResultMap -> Q -> list Point;
  result_at : ResultMap -> Point -> Q;
  (** [cv2.pointPolygonTest(contour, (x, y), False)] *)
  pointPolygonTest : Contour -> Z -> Z -> Z;
  contourArea : Contour -> Q;
  (** [cv2.moments(contour)]: m00, m10, m01 *)
  moments : Contour -> Q * Q * Q;
  (** [cv2.findContours(mask, RETR_EXTERNAL, CHAIN_APPROX_SIMPLE)[0]] *)
  findContours : Image -> list Contour;
  (** [np.zeros((rows, cols), dtype=np.uint8)] *)
  zeros : Z -> Z -> Image;
  (** [cv2.rectangle(mask, p, q, 255, -1)] *)
  rectangle : Image -> Point -> Point -> Image;
  fillPoly : Image -> Contour -> Image;
  bitwise_or : Image -> Image -> Image;
  (** [cv2.inRange(hsv, lower, upper)] *)
  inRange : Image -> Z * Z * Z -> Z * Z * Z -> Image;
  morphologyEx_CLOSE : Image -> Image;
  morphologyEx_OPEN : Image -> Image
}.

(** The two further calls [count_wheat_coverage] makes on masks. *)
Class Pixels {cv : OpenCV} := {
  bitwise_and : Image -> Image -> Image;
  (** [np.sum(mask > 0)]: the number of pixels that are set *)
  count_nonzero : Image -> N
}.

(** The calls into [os.path] and [cv2.imread] that load the reference
    pictures. *)
Class FileSystem {cv : OpenCV} := {
  (** [os.path.join(a, b)] *)
  path_join : string -> string -> string;
  (** [os.path.exists(path)] *)
  path_exists : string -> bool;
  (** [cv2.imread(path)]; [None] when the file cannot be read as a picture *)
  imread : string -> option Image
}.

(* ===================================================================== *)
(** ** config.py *)
(* ===================================================================== *)

Module BotConfig.
Definition WHEAT_HARVEST_TIME : Q := 110.
Definition DEFAULT_CLICK_DELAY : Q := 2 # 10.
Definition DEFAULT_MOVEMENT_SPEED : Q := 5 # 100.
Definition SCREEN_CENTER_DELAY : Q := 2.
Definition CYCLE_PAUSE : Q := 3.

Definition MAIN_PAGE_THRESHOLD : Q := 7 # 10.
Definition MARKET_PAGE_THRESHOLD : Q := 7 # 10.
Definition OFFER_PAGE_THRESHOLD : Q := 5 # 10.
Definition SILO_POPUP_THRESHOLD : Q := 7 # 10.
Definition CLOSE_BUTTON_THRESHOLD : Q := 4 # 10.
Definition MARKET_BUTTON_THRESHOLD : Q := 7 # 10.
Definition WHEAT_MARKET_THRESHOLD : Q := 8 # 10.
Definition LOADING_SCREEN_THRESHOLD : Q := 7 # 10.
Definition CLICK_ESCAPE_THRESHOLD : Q := 8 # 10.

Definition COLLECT_BUTTON_THRESHOLD : Q := 7 # 10.
Definition SOLD_ITEMS_THRESHOLD : Q := 7 # 10.
Definition NEWSPAPER_THRESHOLD : Q := 6 # 10.
Definition NEW_OFFER_THRESHOLD : Q := 7 # 10.
Definition INSERT_BUTTON_THRESHOLD : Q := 7 # 10.
Definition PLUS_BUTTON_ACTIVE_THRESHOLD : Q := 7 # 10.
Definition PLUS_BUTTON_DEACTIVE_THRESHOLD : Q := 7 # 10.
Definition ARROW_BUTTON_ACTIVE_THRESHOLD : Q := 7 # 10.
Definition ARROW_BUTTON_DEACTIVE_THRESHOLD : Q := 7 # 10.

Definition PAPER_BUTTON_THRESHOLD : Q := 7 # 10.
Definition PAPER_CREATE_THRESHOLD : Q := 7 # 10.
Definition PAPER_PAGE_THRESHOLD : Q := 7 # 10.
Definition PAPER_COOLDOWN_THRESHOLD : Q := 8 # 10.
Definition CHECK_PAPER_THRESHOLD : Q := 6 # 10.

Definition OFFER_PAGE_PRIORITY_THRESHOLD : Q := 8 # 10.
Definition MARKET_PAGE_PRIORITY_THRESHOLD : Q := 7 # 10.

Definition ADVERT_OFFER_THRESHOLD : Q := 7 # 10.
Definition ADVERT_WHEAT_OFFER_THRESHOLD : Q := 7 # 10.
Definition ADVERT_NEW_OFFER_THRESHOLD : Q := 7 # 10.

Definition WHEAT_X_OFFSET : Z := -100.
Definition WHEAT_Y_OFFSET : Z := -150.
Definition HARVEST_X_OFFSET : Z := -260.
Definition HARVEST_Y_OFFSET : Z := -40.
Definition INITIAL_PLANT_X_OFFSET : Z := 25.
Definition INITIAL_PLANT_Y_OFFSET : Z := 80.
Definition INITIAL_HARVEST_X_OFFSET : Z := 15.
Definition INITIAL_HARVEST_Y_OFFSET : Z := 25.

Definition DETECTION_UPDATE_INTERVAL : Q := 3 # 10.
Definition STOP_CHECK_INTERVAL : Q := 1 # 10.
Definition MAX_SLEEP_CHUNK : Q := 1.

Definition MARKET_CHECK_INTERVAL : Z := 12.
Definition MARKET_STEP_DELAY : Q := 1 # 10.
Definition MARKET_UI_WAIT : Q := 4 # 10.
Definition MARKET_BUTTON_WAIT : Q := 2 # 10.
Definition ENABLE_GROWTH_MARKET_MANAGEMENT : bool := true.

Definition WHEAT_MIN_AREA : Q := 2000.

Definition TEMPLATE_1K_DIR : string := "templates/1ktemplates".
Definition TEMPLATE_2K_DIR : string := "templates/2ktemplates".
Definition TEMPLATE_DEFAULT_DIR : string := "templates".
Definition RESOLUTION_2K_WIDTH : Z := 2560.
Definition RESOLUTION_2K_HEIGHT : Z := 1440.
End BotConfig.

(* ===================================================================== *)
(** ** core/path_generator.py *)
(* ===================================================================== *)

Module PathGenerator.
Section WithCV.
Context {cv : OpenCV}.

  (** [np.min(contour_points, axis=0)] and [np.max(..., axis=0)]: numpy
      raises [ValueError] on an array without rows, which is [None] here. *)
Definition np_min_axis0 (pts : Contour) : option Point :=
    match pts with
    | [] => None
    | p :: rest =>
        Some (fold_left (fun acc q => (Z.min (fst acc) (fst q), Z.min (snd acc) (snd q))) rest p)
    end.

Definition np_max_axis0 (pts : Contour) : option Point :=
    match pts with
    | [] => None
    | p :: rest =>
        Some (fold_left (fun acc q => (Z.max (fst acc) (fst q), Z.max (snd acc) (snd q))) rest p)
    end.

  (** [cv2.pointPolygonTest(contour, (float(x), float(y)), False) >= 0] *)
Definition inside (contour : Contour) (x y : Z) : bool :=
    0 <=? pointPolygonTest contour x y.

  (** The body of [for y in y_positions]: the points one horizontal scan
      line appends to [path]. *)
Definition horizontal_line (contour : Contour) (min_x max_x line_step y : Z)
    : list Point :=
    let line_points :=
      filter (fun x => inside contour x y = true) (py_range min_x (max_x + 1) 10) in
    match line_points with
    | [] => []
    | _ =>
        let left_x := py_min line_points in
        let right_x := py_max line_points in
        map (fun x => (x, y))
            (filter (fun x => inside contour x y = true)
                    (py_range left_x (right_x + 1) line_step))
    end.

  (** The body of [for x in x_positions]. *)
Definition vertical_line (contour : Contour) (min_y max_y step_size x : Z)
    : list Point :=
    let line_points :=
      filter (fun y => inside contour x y = true) (py_range min_y (max_y + 1) 10) in
    match line_points with
    | [] => []
    | _ =>
        let top_y := py_min line_points in
        let bottom_y := py_max line_points in
        map (fun y => (x, y))
            (filter (fun y => inside contour x y = true)
                    (py_range top_y (bottom_y + 1) step_size))
    end.

  (** [PathGenerator.create_linear_path(cx, cy, contour, path_type)].
      [None] as a result stands for the exception numpy raises. *)
Definition create_linear_path (cx cy : Z) (contour : option Contour)
      (path_type : string) : option (list Point) :=
    match contour with
    | None => Some [(cx, cy)]
    | Some contour =>
        match np_min_axis0 contour, np_max_axis0 contour with
        | Some (min_x, min_y), Some (max_x, max_y) =>
            let plant := String.eqb path_type "plant" in
            let line_spacing := if plant then 45 else 55 in
            let line_step := if plant then 40 else 50 in
            let start_y := min_y + line_spacing / 2 in
            let end_y := max_y - line_spacing / 2 in
            let y_positions := py_range start_y (end_y + 1) line_spacing in
            let horizontal :=
              concat (map (horizontal_line contour min_x max_x line_step) y_positions) in
            let x_spacing := if plant then line_spacing * 2 else line_spacing * 3 in
            let x_positions := py_range (min_x + line_spacing / 2) max_x x_spacing in
            let step_size := if plant then 50 else 60 in
            let vertical :=
              concat (map (vertical_line contour min_y max_y step_size) x_positions) in
            Some ([(cx, cy)] ++ horizontal ++ vertical ++ [(cx, cy)])
        | _, _ => None
        end
    end.

  (** The points of a path strictly between its first and its last one. *)
Definition intermediate (path : list Point) : list Point :=
    removelast (tl path).
End WithCV.
End PathGenerator.

(* ===================================================================== *)
(** ** core/template_manager.py *)
(* ===================================================================== *)

(** The triple [(x, y, confidence)] every detection returns; [x] and [y]
    are [None] when nothing was found. *)
Definition Detection : Type := option Z * option Z * Q.

Definition det_x (d : Detection) : option Z := fst (fst d).
Definition det_y (d : Detection) : option Z := snd (fst d).
Definition det_conf (d : Detection) : Q := snd d.

Module TemplateManager.
Section WithCV.
Context {cv : OpenCV}.

(** [self.templates]: the reference pictures that were found on disk. *)
Record t := { templates : gmap string Image }.

(** The inner helper [_match_template(img, tmpl)] of [find_template]; it
    closes over [threshold]. *)
Definition _match_template (threshold : Q) (img tmpl : Image) : Detection :=
  let '(_, max_val, _, max_loc) := minMaxLoc (matchTemplate img tmpl) in
  if Qgeb max_val threshold then
    let '(h, w) := shape tmpl in
    let center_x := fst max_loc + w / 2 in
    let center_y := snd max_loc + h / 2 in
    (Some center_x, Some center_y, max_val)
  else (None, None, max_val).

(** [TemplateManager.find_template(screen, template_name, threshold)] *)
Definition find_template (self : t) (screen : Image) (template_name : string)
    (threshold : Q) : Detection :=
  match templates self !! template_name with
  | None => (None, None, 0%Q)
  | Some template =>
      let result := _match_template threshold screen template in
      match det_x result with
      | Some _ => result
      | None =>
          let screen_gray := cvtColor_BGR2GRAY screen in
          let template_gray := cvtColor_BGR2GRAY template in
          _match_template threshold screen_gray template_gray
      end
  end.

(** The two scores [find_template] can observe for a known template: the
    best colour score and the best grayscale score. *)
Definition color_score (screen template : Image) : Q :=
  snd (fst (fst (minMaxLoc (matchTemplate screen template)))).

Definition gray_score (screen template : Image) : Q :=
  color_score (cvtColor_BGR2GRAY screen) (cvtColor_BGR2GRAY template).

Context {fs : FileSystem}.

(** [TemplateManager.__init__]: no picture is loaded yet. *)
Definition __init__ : t := {| templates := ∅ |}.

(** [TemplateManager._get_template_directory(resolution)]; [base_dir] is
    the directory above [core/]. *)
Definition _get_template_directory (base_dir resolution : string) : string :=
  let resolution := py_lower resolution in
  let template_dir :=
    if String.eqb resolution "2k" then path_join base_dir BotConfig.TEMPLATE_2K_DIR
    else if String.eqb resolution "1k" then path_join base_dir BotConfig.TEMPLATE_1K_DIR
    else path_join base_dir BotConfig.TEMPLATE_DEFAULT_DIR in
  if negb (path_exists template_dir) then
    path_join base_dir BotConfig.TEMPLATE_DEFAULT_DIR
  else template_dir.

(** The dictionary [template_files] of [_load_templates], in the order of
    the source. *)
Definition template_files : list (string * string) :=
  [("main", "main.png"); ("market", "in_market.png"); ("in_offer", "in_offer.png");
   ("paper_page", "paper_page.png");
   ("silo", "silo.png"); ("close", "close.png"); ("collect", "collect.png");
   ("sold", "sold.png"); ("loading", "loading.png"); ("click", "click.png");
   ("market_button", "market.png"); ("offer", "offer.png");
   ("wheat_market", "wheat_market.png"); ("newspaper", "newspaper.png");
   ("new_offer", "new_offer.png"); ("insert_button", "insert_button.png");
   ("arrow_right_active", "arrow_right_active.png");
   ("arrow_right_deactive", "arrow_right_deactive.png");
   ("plus_button_active", "plus_button_active.png");
   ("plus_button_deactive", "plus_button_deactive.png");
   ("check_paper", "check_paper.png"); ("paper_cooldown", "paper_cooldown.png");
   ("paper_button", "paper_button.png"); ("paper_create", "paper_create.png")].

(** One pass through the body of the loop of [_load_templates]. *)
Definition load_one (template_dir : string) (acc : t * nat) (entry : string * string)
    : t * nat :=
  let '(self, loaded_count) := acc in
  let '(name, filename) := entry in
  let template_path := path_join template_dir filename in
  if path_exists template_path then
    match imread template_path with
    | Some template =>
        ({| templates := <[name := template]> (templates self) |}, S loaded_count)
    | None => (self, loaded_count)
    end
  else (self, loaded_count).

(** [TemplateManager._load_templates()]: the manager with the pictures
    that were found, and [loaded_count]. *)
Definition _load_templates (template_dir : string) (self : t) : t * nat :=
  fold_left (load_one template_dir) template_files (self, 0%nat).

(** [TemplateManager.initialize(resolution)]: [template_dir] and the
    manager with its pictures. *)
Definition initialize (base_dir resolution : string) (self : t) : string * t :=
  let template_dir := _get_template_directory base_dir resolution in
  (template_dir, fst (_load_templates template_dir self)).

End WithCV.
End TemplateManager.

(* ===================================================================== *)
(** ** core/soil_detector.py *)
(* ===================================================================== *)

Module SoilDetector.
Section WithCV.
Context {cv : OpenCV}.

Record t := { field_template : option Image; wheat_template : option Image }.

(** One entry of the list [find_template_matches] returns. *)
Record Match := {
  m_x : Z; m_y : Z; m_w : Z; m_h : Z;
  m_center_x : Z; m_center_y : Z; m_confidence : Q
}.

Definition find_template_matches (screen : Image) (template : option Image)
    (threshold : Q) : list Match :=
  match template with
  | None => []
  | Some template =>
      let screen_gray := cvtColor_BGR2GRAY screen in
      let template_gray := cvtColor_BGR2GRAY template in
      let result := matchTemplate screen_gray template_gray in
      let locations := where_ge result threshold in
      let '(h, w) := shape template_gray in
      map (fun pt : Point =>
             let '(x, y) := pt in
             {| m_x := x; m_y := y; m_w := w; m_h := h;
                m_center_x := x + w / 2; m_center_y := y + h / 2;
                m_confidence := result_at result (x, y) |})
          locations
  end.

Definition get_centroid (contour : Contour) : option Z * option Z :=
  let '(m00, m10, m01) := moments contour in
  if negb (Qeq_bool m00 0) then
    (Some (py_int (m10 / m00)), Some (py_int (m01 / m00)))
  else (None, None).

Definition detect_wheat (screen : Image) : Image :=
  let hsv := cvtColor_BGR2HSV screen in
  let mask := inRange hsv (15, 100, 150) (35, 255, 255) in
  let mask := morphologyEx_CLOSE mask in
  let mask := morphologyEx_OPEN mask in
  let contours := findContours mask in
  let filtered_mask := zeros (fst (shape mask)) (snd (shape mask)) in
  fold_left
    (fun filtered_mask contour =>
       if Qgtb (contourArea contour) BotConfig.WHEAT_MIN_AREA
       then fillPoly filtered_mask contour else filtered_mask)
    contours filtered_mask.

(** The mask [detect_field] searches for contours: the rectangles of the
    empty-field matches joined with the wheat mask. *)
Definition combined_mask (self : t) (screen : Image) : Image :=
  let field_matches := find_template_matches screen (field_template self) (5 # 10) in
  let wheat_mask := detect_wheat screen in
  let mask := zeros (fst (shape screen)) (snd (shape screen)) in
  let mask :=
    fold_left
      (fun mask m => rectangle mask (m_x m, m_y m) (m_x m + m_w m, m_y m + m_h m))
      field_matches mask in
  bitwise_or mask wheat_mask.

Definition min_area : Q := 1000.

Definition max_area (screen : Image) : Q :=
  inject_Z (fst (shape screen)) * inject_Z (snd (shape screen)) * (5 # 10).

(** [max(contours, key=cv2.contourArea)] for a non-empty list. *)
Definition largest (contours : list Contour) : option Contour :=
  match contours with
  | [] => None
  | c :: rest => Some (py_max_by contourArea c rest)
  end.

(** [SoilDetector.detect_field(screen)] *)
Definition detect_field (self : t) (screen : Image)
    : option Z * option Z * option Contour :=
  let contours := findContours (combined_mask self screen) in
  match largest contours with
  | None => (None, None, None)
  | Some largest_contour =>
      let area := contourArea largest_contour in
      if Qltb min_area area && Qltb area (max_area screen) then
        let '(cx, cy) := get_centroid largest_contour in
        (cx, cy, Some largest_contour)
      else (None, None, None)
  end.

Context {px : Pixels}.

(** The mask [count_wheat_coverage] fills with the field contour. *)
Definition field_mask (screen : Image) (field_contour : Contour) : Image :=
  let wheat_mask := detect_wheat screen in
  fillPoly (zeros (fst (shape wheat_mask)) (snd (shape wheat_mask))) field_contour.

(** [cv2.bitwise_and(wheat_mask, field_mask)] *)
Definition wheat_in_field (screen : Image) (field_contour : Contour) : Image :=
  bitwise_and (detect_wheat screen) (field_mask screen field_contour).

(** [SoilDetector.count_wheat_coverage(screen, field_contour)];
    [detect_wheat] never returns [None], so that test is left out. *)
Definition count_wheat_coverage (screen : Image) (field_contour : option Contour) : Q :=
  match field_contour with
  | None => 0%Q
  | Some field_contour =>
      let field_area_pixels := count_nonzero (field_mask screen field_contour) in
      let wheat_area_pixels := count_nonzero (wheat_in_field screen field_contour) in
      if (0 <? field_area_pixels)%N then
        let coverage_percent :=
          (inject_Z (Z.of_N wheat_area_pixels) / inject_Z (Z.of_N field_area_pixels)
           * 100)%Q in
        py_minQ coverage_percent 100
      else 0%Q
  end.

(** [SoilDetector.is_ready_for_harvest(screen, field_contour, threshold)] *)
Definition is_ready_for_harvest (screen : Image) (field_contour : option Contour)
    (threshold : Q) : bool :=
  let coverage := count_wheat_coverage screen field_contour in
  Qgeb coverage threshold.

End WithCV.
End SoilDetector.

(* ===================================================================== *)
(** ** core/screen_capture.py *)
(* ===================================================================== *)

Module ScreenCapture.
Section WithCV.
Context {cv : OpenCV}.

Record t := { _last_capture_time : Q; _cached_screen : option Image }.

(** [ScreenCapture.__init__] *)
Definition __init__ : t := {| _last_capture_time := 0; _cached_screen := None |}.

Definition _cache_duration : Q := 5 # 100.

(** [ScreenCapture.capture_screen(use_cache)].  [current_time] is what
    [time.time()] returns and [grab] the picture [mss] delivers when it is
    asked, [None] when it raises; the result [None] is that exception. *)
Definition capture_screen (self : t) (use_cache : bool) (current_time : Q)
    (grab : option Image) : option Image * t :=
  let cached :=
    match _cached_screen self with
    | Some cached_screen =>
        if use_cache && Qltb (current_time - _last_capture_time self) _cache_duration
        then Some cached_screen else None
    | None => None
    end in
  match cached with
  | Some cached_screen => (Some cached_screen, self)
  | None =>
      match grab with
      | None => (None, self)
      | Some screen =>
          (Some screen,
           if use_cache then
             {| _last_capture_time := current_time; _cached_screen := Some screen |}
           else self)
      end
  end.

(** [ScreenCapture.invalidate_cache()] *)
Definition invalidate_cache (self : t) : t :=
  {| _last_capture_time := 0; _cached_screen := None |}.

End WithCV.
End ScreenCapture.

(* ===================================================================== *)
(** ** core/state.py *)
(* ===================================================================== *)

Record DetectionState {cv : OpenCV} := {
  screen : option Image;
  center : option (Z * Z);
  contour : option Contour;
  wheat_coverage : Q;
  is_wheat_ready : bool;
  storage_full : bool;
  storage_keyword : option string
}.

Record BotState := {
  running : bool;
  detection_active : bool;
  path_execution_active : bool;
  silo_is_full : bool;
  wheat_sold_this_session : bool
}.

Definition set_running (b : bool) (s : BotState) : BotState :=
  {| running := b; detection_active := detection_active s;
     path_execution_active := path_execution_active s;
     silo_is_full := silo_is_full s;
     wheat_sold_this_session := wheat_sold_this_session s |}.

Definition set_path_execution_active (b : bool) (s : BotState) : BotState :=
  {| running := running s; detection_active := detection_active s;
     path_execution_active := b;
     silo_is_full := silo_is_full s;
     wheat_sold_this_session := wheat_sold_this_session s |}.

Definition set_silo_is_full (b : bool) (s : BotState) : BotState :=
  {| running := running s; detection_active := detection_active s;
     path_execution_active := path_execution_active s;
     silo_is_full := b;
     wheat_sold_this_session := wheat_sold_this_session s |}.

Definition set_wheat_sold_this_session (b : bool) (s : BotState) : BotState :=
  {| running := running s; detection_active := detection_active s;
     path_execution_active := path_execution_active s;
     silo_is_full := silo_is_full s;
     wheat_sold_this_session := b |}.

(* ===================================================================== *)
(** ** Location classification (bot/market.py, the pure part) *)
(* ===================================================================== *)

Module Location.
Section WithCV.
Context {cv : OpenCV}.
Context (template_manager : TemplateManager.t).

Definition is_on_main_page (screen : Image) : bool * Q :=
  let d := TemplateManager.find_template template_manager screen "main"
             BotConfig.MAIN_PAGE_THRESHOLD in
  (bool_decide (is_Some (det_x d)) && bool_decide (is_Some (det_y d)), det_conf d).

Definition is_in_offer (screen : Image) : bool * Q :=
  let d := TemplateManager.find_template template_manager screen "in_offer"
             BotConfig.OFFER_PAGE_THRESHOLD in
  (bool_decide (is_Some (det_x d)) && bool_decide (is_Some (det_y d)), det_conf d).

Definition is_in_market (screen : Image) : bool * Q :=
  let d := TemplateManager.find_template template_manager screen "market"
             BotConfig.MARKET_PAGE_THRESHOLD in
  (bool_decide (is_Some (det_x d)) && bool_decide (is_Some (det_y d)), det_conf d).

Definition is_in_paper_page (screen : Image) : bool * Q :=
  let d := TemplateManager.find_template template_manager screen "paper_page"
             BotConfig.PAPER_PAGE_THRESHOLD in
  (bool_decide (is_Some (det_x d)) && bool_decide (is_Some (det_y d)), det_conf d).

(** [MarketOperations.analyze_current_location(screen)]: the dictionary
    [locations] it returns.  The log lines are left out. *)
Definition analyze_current_location (screen : Image) : gmap string Q :=
  let '(is_main, main_conf) := is_on_main_page screen in
  let '(in_offer, offer_conf) := is_in_offer screen in
  let '(in_market, market_conf) := is_in_market screen in
  let '(in_paper_page, paper_page_conf) := is_in_paper_page screen in
  let '(silo_x, silo_y, silo_conf) :=
    TemplateManager.find_template template_manager screen "silo"
      BotConfig.SILO_POPUP_THRESHOLD in
  let '(close_x, close_y, close_conf) :=
    TemplateManager.find_template template_manager screen "close"
      BotConfig.CLOSE_BUTTON_THRESHOLD in
  let locations : gmap string Q := ∅ in
  if truthy silo_x && truthy silo_y && Qgeb silo_conf BotConfig.SILO_POPUP_THRESHOLD then
    <["silo_popup" := silo_conf]> locations
  else if Qgeb paper_page_conf BotConfig.PAPER_PAGE_THRESHOLD then
    <["paper_page" := paper_page_conf]> locations
  else if Qgeb offer_conf BotConfig.OFFER_PAGE_PRIORITY_THRESHOLD then
    <["offer" := offer_conf]> locations
  else if Qgeb market_conf BotConfig.MARKET_PAGE_PRIORITY_THRESHOLD
          && Qltb offer_conf BotConfig.OFFER_PAGE_PRIORITY_THRESHOLD then
    <["market" := market_conf]> locations
  else if Qgeb main_conf BotConfig.MAIN_PAGE_THRESHOLD
          && Qltb offer_conf BotConfig.OFFER_PAGE_PRIORITY_THRESHOLD
          && Qltb market_conf BotConfig.MARKET_PAGE_PRIORITY_THRESHOLD
          && Qltb paper_page_conf BotConfig.PAPER_PAGE_THRESHOLD then
    <["main" := main_conf]> locations
  else if truthy close_x && truthy close_y
          && Qgeb close_conf BotConfig.CLOSE_BUTTON_THRESHOLD then
    <["dialog_open" := close_conf]> locations
  else locations.

(** The confidence [analyze_current_location] records under
    [confidences['silo']]. *)
Definition silo_detection (screen : Image) : Detection :=
  TemplateManager.find_template template_manager screen "silo"
    BotConfig.SILO_POPUP_THRESHOLD.

End WithCV.
End Location.

(* ===================================================================== *)
(** ** The world the workflow task runs in *)
(* ===================================================================== *)

(** What the workflow task does to the outside, in the order it does it:
    pyautogui calls, [time.sleep], looks at [stop_event], and every
    assignment to a field of the shared [BotState]. *)
Inductive Event :=
| EvClick (x y : option Z)
| EvMoveTo (x y : Z) (duration : Q)
| EvMouseDown
| EvMouseUp
| EvSleep (seconds : Q)
| EvStopCheck (is_set : bool)
| EvBotState (before after : BotState).

(** The log lines the theorems refer to; the other [self.log] calls of the
    sources are not modelled. *)
Inductive LogMsg :=
| LogPlantingAttempt (attempt max_attempts : nat)
| LogNoFieldDetected
| LogFieldsNeedPlanting
| LogFieldsWellPlanted
| LogSiloFullDetected
| LogSiloStateCleared
| LogKeepingSiloFull
| LogCriticalBotError.

(** What the GUI thread may do between two steps of the workflow task. *)
Inductive GuiAction := GuiNone | GuiStopBot | GuiStartBot.

Section World.
Context {cv : OpenCV}.

(** Everything outside the workflow task, as a function of the number of
    observations the task has made so far. *)
Record Env := {
  (** the picture [ScreenCapture.capture_screen] grabs; [None]: it raises *)
  env_capture : nat -> option Image;
  (** what the GUI thread did since the last observation *)
  env_gui : nat -> GuiAction;
  (** what the detection thread stored since the last observation *)
  env_detection : nat -> option DetectionState;
  (** whether a pyautogui call raises *)
  env_fault : nat -> bool;
  (** [time.time()] *)
  env_time : nat -> Q
}.

Record World := {
  bot_state : BotState;
  detection_state : DetectionState;
  stop_event : bool;
  clock : nat;
  (** newest first *)
  events : list Event;
  (** newest first *)
  log : list LogMsg
}.

Definition with_bot_state (b : BotState) (w : World) : World :=
  {| bot_state := b; detection_state := detection_state w;
     stop_event := stop_event w; clock := clock w;
     events := EvBotState (bot_state w) b :: events w; log := log w |}.

Definition with_detection_state (d : DetectionState) (w : World) : World :=
  {| bot_state := bot_state w; detection_state := d;
     stop_event := stop_event w; clock := clock w;
     events := events w; log := log w |}.

Definition with_stop_event (b : bool) (w : World) : World :=
  {| bot_state := bot_state w; detection_state := detection_state w;
     stop_event := b; clock := clock w;
     events := events w; log := log w |}.

Definition with_event (e : Event) (w : World) : World :=
  {| bot_state := bot_state w; detection_state := detection_state w;
     stop_event := stop_event w; clock := clock w;
     events := e :: events w; log := log w |}.

Definition with_log (m : LogMsg) (w : World) : World :=
  {| bot_state := bot_state w; detection_state := detection_state w;
     stop_event := stop_event w; clock := clock w;
     events := events w; log := m :: log w |}.

Definition with_tick (w : World) : World :=
  {| bot_state := bot_state w; detection_state := detection_state w;
     stop_event := stop_event w; clock := S (clock w);
     events := events w; log := log w |}.

(** How a call ends: it returns, an exception leaves it, or the model ran
    out of fuel in a loop that has no bound of its own. *)
Inductive Outcome (A : Type) :=
| Return (a : A)
| Raise
| OutOfFuel.
#[global] Arguments Return {A} a.
#[global] Arguments Raise {A}.
#[global] Arguments OutOfFuel {A}.

Definition M (A : Type) : Type := Env -> World -> Outcome A * World.

#[global] Instance M_ret : MRet M := λ A a _ w, (Return a, w).

#[global] Instance M_bind : MBind M := λ A B f m env w,
  match m env w with
  | (Return a, w') => f a env w'
  | (Raise, w') => (Raise, w')
  | (OutOfFuel, w') => (OutOfFuel, w')
  end.

Definition raise {A : Type} : M A := λ _ w, (Raise, w).
Definition out_of_fuel {A : Type} : M A := λ _ w, (OutOfFuel, w).

(** [try: body except Exception: handler] *)
Definition try_except {A : Type} (body handler : M A) : M A := λ env w,
  match body env w with
  | (Raise, w') => handler env w'
  | r => r
  end.

Definition get_world : M World := λ _ w, (Return w, w).
Definition modify_world (f : World -> World) : M unit := λ _ w, (Return tt, f w).

(** One observation of the outside: returns its number. *)
Definition tick : M nat := λ _ w, (Return (clock w), with_tick w).

Definition ask {A : Type} (f : Env -> nat -> A) : M A := λ env w,
  (Return (f env (clock w)), with_tick w).

Definition emit (e : Event) : M unit := modify_world (with_event e).
Definition log_msg (m : LogMsg) : M unit := modify_world (with_log m).

(** [self.bot_state.<field> = ...] *)
Definition write_bot_state (f : BotState -> BotState) : M unit :=
  modify_world (λ w, with_bot_state (f (bot_state w)) w).

(** [BotController.stop_bot], as far as the shared state goes: it sets the
    stop signal and clears [running] and [path_execution_active]. *)
Definition stop_bot : M unit :=
  modify_world (with_stop_event true) ;;
  write_bot_state (set_running false) ;;
  write_bot_state (set_path_execution_active false).

(** [BotController.start_bot] when a field is detected. *)
Definition start_bot : M unit :=
  write_bot_state (set_running true) ;;
  modify_world (with_stop_event false).

(** The GUI thread shares [bot_state] and [stop_event] with the workflow
    task; what it did becomes visible when the task next looks at them. *)
Definition gui_sync : M unit :=
  a ← ask env_gui;
  match a with
  | GuiNone => mret tt
  | GuiStopBot => stop_bot
  | GuiStartBot => start_bot
  end.

(** [self.bot_state.running] *)
Definition read_running : M bool :=
  gui_sync ;; w ← get_world; mret (running (bot_state w)).

(** [self.stop_event.is_set()] *)
Definition is_set : M bool :=
  gui_sync ;; w ← get_world;
  emit (EvStopCheck (stop_event w)) ;; mret (stop_event w).

Definition read_bot_state : M BotState :=
  w ← get_world; mret (bot_state w).

(** [with self.detection_lock: ... self.detection_state ...]: the snapshot
    holds whatever the detection thread stored last. *)
Definition read_detection_state : M DetectionState :=
  d ← ask env_detection;
  match d with
  | Some d => modify_world (with_detection_state d)
  | None => mret tt
  end ;;
  w ← get_world; mret (detection_state w).

(** [self.screen_capture.capture_screen(use_cache=False)] *)
Definition capture_screen : M Image :=
  s ← ask env_capture;
  match s with
  | Some img => mret img
  | None => raise
  end.

Definition time_time : M Q := ask env_time.
Definition time_sleep (seconds : Q) : M unit := emit (EvSleep seconds).

(** [pag.click(x, y)]; pyautogui takes [None] for the current position. *)
Definition pag_click (x y : option Z) : M unit :=
  fault ← ask env_fault;
  if fault : bool then raise else emit (EvClick x y).

Definition pag_moveTo (x y : Z) (duration : Q) : M unit :=
  fault ← ask env_fault;
  if fault : bool then raise else emit (EvMoveTo x y duration).

(** [pag.mouseDown()] and [pag.mouseUp()]: pyautogui runs its fail-safe
    check in every call, and the sources never switch it off, so these
    two may raise like a click or a move. *)
Definition pag_mouseDown : M unit :=
  fault ← ask env_fault;
  if fault : bool then raise else emit EvMouseDown.

Definition pag_mouseUp : M unit :=
  fault ← ask env_fault;
  if fault : bool then raise else emit EvMouseUp.

End World.

(* ===================================================================== *)
(** ** bot/operations.py *)
(* ===================================================================== *)

Module BotOperations.
Section WithCV.
Context {cv : OpenCV}.

(** The [while] loop of [interruptible_sleep].  [fuel] bounds the number
    of chunks; [sleep_fuel] below is always enough. *)
Fixpoint sleep_loop (chunk_size total_time : Q) (fuel : nat) (elapsed : Q) : M unit :=
  if Qltb elapsed total_time then
    stop ← is_set;
    if stop : bool then mret tt
    else
      match fuel with
      | O => out_of_fuel
      | S fuel' =>
          let sleep_time := py_minQ chunk_size (total_time - elapsed) in
          time_sleep sleep_time ;;
          sleep_loop chunk_size total_time fuel' (elapsed + sleep_time)%Q
      end
  else mret tt.

Definition sleep_fuel (chunk_size total_time : Q) : nat :=
  Z.to_nat (Qceiling (total_time / chunk_size)).

(** The loop shared by [BotOperations.interruptible_sleep] and
    [DetectionManager._interruptible_sleep], which differ in [chunk_size]
    only. *)
Definition chunked_sleep (chunk_size total_time : Q) : M bool :=
  sleep_loop chunk_size total_time (sleep_fuel chunk_size total_time) 0%Q ;;
  is_set.

(** [BotOperations.interruptible_sleep(total_time)] *)
Definition interruptible_sleep (total_time : Q) : M bool :=
  let chunk_size := py_minQ BotConfig.STOP_CHECK_INTERVAL 1 in
  chunked_sleep chunk_size total_time.

(** [not self.bot_state.running or self.stop_event.is_set()] *)
Definition not_running_or_stopped : M bool :=
  r ← read_running;
  if r : bool then is_set else mret true.

(** [BotOperations.safe_click(x, y, description)] *)
Definition safe_click (x y : option Z) : M bool :=
  stopped ← not_running_or_stopped;
  if stopped : bool then mret false
  else
    pag_click x y ;;
    interrupted ← interruptible_sleep BotConfig.DEFAULT_CLICK_DELAY;
    mret (negb interrupted).

(** [BotOperations.safe_move(x, y, duration)] *)
Definition safe_move (x y : Z) (duration : Q) : M bool :=
  stopped ← not_running_or_stopped;
  if stopped : bool then mret false
  else pag_moveTo x y duration ;; mret true.

(** The [for i, (x, y) in enumerate(path)] loop of [plant_wheat] and
    [harvest_wheat]; the progress log lines are left out. *)
Fixpoint follow_path (path : list Point) : M unit :=
  match path with
  | [] => mret tt
  | (x, y) :: rest =>
      stopped ← not_running_or_stopped;
      if stopped : bool then mret tt
      else
        let move_duration := py_minQ (2 # 100) BotConfig.DEFAULT_MOVEMENT_SPEED in
        moved ← safe_move x y move_duration;
        if moved : bool then follow_path rest else mret tt
  end.

(** [PathGenerator.create_linear_path] as a step of the task: the numpy
    error becomes an exception. *)
Definition create_linear_path (cx cy : Z) (contour : option Contour)
    (path_type : string) : M (list Point) :=
  match PathGenerator.create_linear_path cx cy contour path_type with
  | Some path => mret path
  | None => raise
  end.

(** The [try] block of [plant_wheat]. *)
Definition plant_wheat_drag (cx cy : Z) (contour_arg : option Contour) : M bool :=
  match contour_arg with
  | Some contour0 =>
      _ ← capture_screen;
      d ← read_detection_state;
      let updated_contour :=
        match contour d with Some c => Some c | None => Some contour0 end in
      planting_path ← create_linear_path cx cy updated_contour "plant";
      write_bot_state (set_path_execution_active true) ;;
      follow_path planting_path
  | None => mret tt
  end ;;
  safe_move cx cy BotConfig.DEFAULT_MOVEMENT_SPEED ;;
  pag_mouseUp ;;
  write_bot_state (set_path_execution_active false) ;;
  mret true.

(** The [except Exception] block of [plant_wheat] and [harvest_wheat]. *)
Definition drag_handler : M bool :=
  pag_mouseUp ;;
  write_bot_state (set_path_execution_active false) ;;
  mret false.

(** [BotOperations.plant_wheat(cx, cy, contour)].  [capture_screen] never
    returns [None], so the [else] branches of [if screen is not None] are
    dead and are left out. *)
Definition plant_wheat (cx cy : Z) (contour : option Contour) : M bool :=
  r ← read_running;
  if negb r then mret false
  else
    clicked ← safe_click (Some cx) (Some cy);
    if negb clicked then mret false
    else
      interrupted ← interruptible_sleep BotConfig.SCREEN_CENTER_DELAY;
      if interrupted : bool then mret false
      else
        _ ← capture_screen;
        d ← read_detection_state;
        let '(cx, cy) :=
          match center d with
          | Some (updated_cx, updated_cy) => (updated_cx, updated_cy)
          | None => (cx, cy)
          end in
        let wheat_x := cx + BotConfig.WHEAT_X_OFFSET in
        let wheat_y := cy + BotConfig.WHEAT_Y_OFFSET in
        clicked ← safe_click (Some wheat_x) (Some wheat_y);
        if negb clicked then mret false
        else
          time_sleep (8 # 10) ;;
          pag_mouseDown ;;
          let initial_plant_x := cx + BotConfig.INITIAL_PLANT_X_OFFSET in
          let initial_plant_y := cy + BotConfig.INITIAL_PLANT_Y_OFFSET in
          moved ← safe_move initial_plant_x initial_plant_y (5 # 10);
          if negb moved then pag_mouseUp ;; mret false
          else
            time_sleep (2 # 10) ;;
            try_except (plant_wheat_drag cx cy contour) drag_handler.

(** The [try] block of [harvest_wheat]. *)
Definition harvest_wheat_drag (cx cy : Z) (contour_arg : option Contour) : M bool :=
  '(cx, cy) ←
    match contour_arg with
    | Some contour0 =>
        _ ← capture_screen;
        d ← read_detection_state;
        let updated_contour :=
          match contour d with Some c => Some c | None => Some contour0 end in
        let '(cx, cy) :=
          match center d with
          | Some (updated_cx, updated_cy) => (updated_cx, updated_cy)
          | None => (cx, cy)
          end in
        harvest_path ← create_linear_path cx cy updated_contour "harvest";
        write_bot_state (set_path_execution_active true) ;;
        follow_path harvest_path ;;
        mret (cx, cy)
    | None => mret (cx, cy)
    end;
  safe_move cx cy BotConfig.DEFAULT_MOVEMENT_SPEED ;;
  pag_mouseUp ;;
  write_bot_state (set_path_execution_active false) ;;
  mret true.

(** [BotOperations.harvest_wheat(cx, cy, contour)] *)
Definition harvest_wheat (cx cy : Z) (contour : option Contour) : M bool :=
  r ← read_running;
  if negb r then mret false
  else
    clicked ← safe_click (Some cx) (Some cy);
    if negb clicked then mret false
    else
      let harvest_x := cx + BotConfig.HARVEST_X_OFFSET in
      let harvest_y := cy + BotConfig.HARVEST_Y_OFFSET in
      moved ← safe_move harvest_x harvest_y BotConfig.DEFAULT_MOVEMENT_SPEED;
      if negb moved then mret false
      else
        time_sleep (8 # 10) ;;
        pag_mouseDown ;;
        let initial_harvest_x := cx + BotConfig.INITIAL_HARVEST_X_OFFSET in
        let initial_harvest_y := cy + BotConfig.INITIAL_HARVEST_Y_OFFSET in
        moved ← safe_move initial_harvest_x initial_harvest_y (5 # 10);
        if negb moved then pag_mouseUp ;; mret false
        else
          time_sleep (2 # 10) ;;
          try_except (harvest_wheat_drag cx cy contour) drag_handler.

(** [BotOperations.check_fields_need_planting_cv(screen)]; the argument
    [screen] is not used by the source. *)
Definition check_fields_need_planting_cv : M bool :=
  d ← read_detection_state;
  match center d with
  | None => log_msg LogNoFieldDetected ;; mret false
  | Some _ =>
      if Qltb (wheat_coverage d) 80 then
        log_msg LogFieldsNeedPlanting ;; mret true
      else
        log_msg LogFieldsWellPlanted ;; mret false
  end.

End WithCV.
End BotOperations.

(* ===================================================================== *)
(** ** bot/market.py *)
(* ===================================================================== *)

Module MarketOperations.
Section WithCV.
Context {cv : OpenCV}.
Context (template_manager : TemplateManager.t).

Definition find_template (screen : Image) (template_name : string)
    (threshold : Q) : Detection :=
  TemplateManager.find_template template_manager screen template_name threshold.

(** [if x and y:] on the coordinates of a detection. *)
Definition found (d : Detection) : bool := truthy (det_x d) && truthy (det_y d).

(** [MarketOperations.check_silo_full_template(screen)] *)
Definition check_silo_full_template (screen : Image) : M bool :=
  let '(silo_x, silo_y, confidence) :=
    find_template screen "silo" BotConfig.SILO_POPUP_THRESHOLD in
  if truthy silo_x && truthy silo_y then
    log_msg LogSiloFullDetected ;;
    write_bot_state (set_silo_is_full true) ;;
    write_bot_state (set_wheat_sold_this_session false) ;;
    mret true
  else mret false.

(** [MarketOperations.close_silo_with_template(screen)] *)
Definition close_silo_with_template (screen : Image) : M bool :=
  let close := find_template screen "close" BotConfig.CLOSE_BUTTON_THRESHOLD in
  if found close then
    BotOperations.safe_click (det_x close) (det_y close) ;;
    time_sleep 1 ;;
    mret true
  else mret false.

(** [MarketOperations._check_and_dismiss_loading_screen_with_click(screen)] *)
Definition _check_and_dismiss_loading_screen_with_click (screen : Image) : M bool :=
  let loading := find_template screen "loading" BotConfig.LOADING_SCREEN_THRESHOLD in
  if found loading then
    let click := find_template screen "click" BotConfig.CLICK_ESCAPE_THRESHOLD in
    if found click then
      BotOperations.safe_click (det_x click) (det_y click) ;;
      time_sleep (15 # 10) ;;
      mret true
    else
      time_sleep 2 ;;
      mret true
  else mret false.

(** The loop [for attempt in range(5)] of [go_to_market_template]. *)
Fixpoint wait_for_market (attempts : nat) : M bool :=
  match attempts with
  | O => mret false
  | S attempts' =>
      time_sleep (5 # 10) ;;
      screen ← capture_screen;
      dismissed ← _check_and_dismiss_loading_screen_with_click screen;
      screen ← (if dismissed : bool then capture_screen else mret screen);
      let '(in_market, market_conf) := Location.is_in_market template_manager screen in
      if in_market : bool then mret true else wait_for_market attempts'
  end.

(** [MarketOperations.go_to_market_template(screen)] *)
Definition go_to_market_template (screen : Image) : M bool :=
  dismissed ← _check_and_dismiss_loading_screen_with_click screen;
  screen ← (if dismissed : bool then capture_screen else mret screen);
  let market := find_template screen "market_button" BotConfig.MARKET_BUTTON_THRESHOLD in
  if found market then
    BotOperations.safe_click (det_x market) (det_y market) ;;
    wait_for_market 5
  else mret false.

(** The loop of [collect_sold_items_template]; it returns
    [total_collected]. *)
Fixpoint collect_rounds (attempts : nat) (total_collected : nat) : M nat :=
  match attempts with
  | O => mret total_collected
  | S attempts' =>
      screen ← capture_screen;
      let collect := find_template screen "collect" BotConfig.COLLECT_BUTTON_THRESHOLD in
      '(collected_this_round, total_collected) ←
        (if found collect then
           BotOperations.safe_click (det_x collect) (det_y collect) ;;
           time_sleep BotConfig.MARKET_BUTTON_WAIT ;;
           mret (true, S total_collected)
         else mret (false, total_collected));
      screen ← capture_screen;
      let sold := find_template screen "sold" BotConfig.SOLD_ITEMS_THRESHOLD in
      '(collected_this_round, total_collected) ←
        (if found sold then
           BotOperations.safe_click (det_x sold) (det_y sold) ;;
           time_sleep BotConfig.MARKET_BUTTON_WAIT ;;
           mret (true, S total_collected)
         else mret (collected_this_round, total_collected));
      if negb collected_this_round then mret total_collected
      else collect_rounds attempts' total_collected
  end.

(** [MarketOperations.collect_sold_items_template(screen)] *)
Definition collect_sold_items_template : M bool :=
  total_collected ← collect_rounds 10 0%nat;
  mret (bool_decide (0 < total_collected)%nat).

(** [MarketOperations.check_wheat_availability(screen)] *)
Definition check_wheat_availability (screen : Image) : bool :=
  let wheat := find_template screen "wheat_market" BotConfig.WHEAT_MARKET_THRESHOLD in
  found wheat && Qgeb (det_conf wheat) BotConfig.WHEAT_MARKET_THRESHOLD.

(** The polling loop shared, word for word, by [maximize_quantity_step]
    and [maximize_price_step]; only the template names and thresholds
    differ. *)
Fixpoint maximize_loop (deactive_name active_name : string)
    (deactive_threshold active_threshold : Q) (polls : nat) : M bool :=
  match polls with
  | O => mret false
  | S polls' =>
      time_sleep BotConfig.MARKET_STEP_DELAY ;;
      screen ← capture_screen;
      let deactive := find_template screen deactive_name deactive_threshold in
      let active := find_template screen active_name active_threshold in
      let deactive_conf := det_conf deactive in
      let active_conf := det_conf active in
      if Qgeb deactive_conf deactive_threshold && Qgtb deactive_conf active_conf then
        mret true
      else if Qgeb active_conf active_threshold && Qgtb active_conf deactive_conf then
        BotOperations.safe_click (det_x active) (det_y active) ;;
        maximize_loop deactive_name active_name deactive_threshold active_threshold polls'
      else if Qgtb deactive_conf (6 # 10) && Qgtb deactive_conf active_conf then
        mret true
      else if Qgtb active_conf (6 # 10) && Qgtb active_conf deactive_conf then
        BotOperations.safe_click (det_x active) (det_y active) ;;
        maximize_loop deactive_name active_name deactive_threshold active_threshold polls'
      else
        time_sleep BotConfig.MARKET_STEP_DELAY ;;
        maximize_loop deactive_name active_name deactive_threshold active_threshold polls'
  end.

(** [MarketOperations.maximize_quantity_step()] *)
Definition maximize_quantity_step : M bool :=
  maximize_loop "plus_button_deactive" "plus_button_active"
    BotConfig.PLUS_BUTTON_DEACTIVE_THRESHOLD BotConfig.PLUS_BUTTON_ACTIVE_THRESHOLD 20.

(** [MarketOperations.maximize_price_step()] *)
Definition maximize_price_step : M bool :=
  maximize_loop "arrow_right_deactive" "arrow_right_active"
    BotConfig.ARROW_BUTTON_DEACTIVE_THRESHOLD BotConfig.ARROW_BUTTON_ACTIVE_THRESHOLD 20.

(** [MarketOperations.create_wheat_advertisement_template(offer_x, offer_y)] *)
Definition create_wheat_advertisement_template (offer_x offer_y : option Z) : M bool :=
  BotOperations.safe_click offer_x offer_y ;;
  time_sleep BotConfig.MARKET_UI_WAIT ;;
  screen ← capture_screen;
  if negb (check_wheat_availability screen) then
    let close := find_template screen "close" BotConfig.CLOSE_BUTTON_THRESHOLD in
    (if found close then
       BotOperations.safe_click (det_x close) (det_y close) ;;
       time_sleep BotConfig.MARKET_UI_WAIT
     else time_sleep BotConfig.MARKET_UI_WAIT) ;;
    mret false
  else
    let wheat := find_template screen "wheat_market" BotConfig.WHEAT_MARKET_THRESHOLD in
    if negb (found wheat) then mret false
    else
      BotOperations.safe_click (det_x wheat) (det_y wheat) ;;
      time_sleep BotConfig.MARKET_STEP_DELAY ;;
      maximize_quantity_step ;;
      maximize_price_step ;;
      screen ← capture_screen;
      let newspaper := find_template screen "newspaper" BotConfig.NEWSPAPER_THRESHOLD in
      (if found newspaper then
         BotOperations.safe_click (det_x newspaper) (det_y newspaper) ;;
         time_sleep BotConfig.MARKET_STEP_DELAY
       else mret tt) ;;
      screen ← capture_screen;
      let insert := find_template screen "insert_button" BotConfig.INSERT_BUTTON_THRESHOLD in
      if found insert then
        BotOperations.safe_click (det_x insert) (det_y insert) ;;
        time_sleep BotConfig.MARKET_UI_WAIT ;;
        write_bot_state (set_wheat_sold_this_session true) ;;
        mret true
      else mret false.

(** The loop of [fill_market_with_wheat_template]; it returns
    [slots_filled]. *)
Fixpoint fill_slots (slot_attempts : nat) (slots_filled : nat) : M nat :=
  match slot_attempts with
  | O => mret slots_filled
  | S slot_attempts' =>
      screen ← capture_screen;
      let offer := find_template screen "new_offer" BotConfig.NEW_OFFER_THRESHOLD in
      if negb (found offer) then mret slots_filled
      else
        created ← create_wheat_advertisement_template (det_x offer) (det_y offer);
        if created : bool then
          time_sleep BotConfig.MARKET_STEP_DELAY ;;
          fill_slots slot_attempts' (S slots_filled)
        else mret slots_filled
  end.

(** [MarketOperations.fill_market_with_wheat_template(screen)] *)
Definition fill_market_with_wheat_template : M bool :=
  slots_filled ← fill_slots 10 0%nat;
  mret (bool_decide (0 < slots_filled)%nat).

(** [MarketOperations.close_market_template(screen)] *)
Definition close_market_template (screen : Image) : M bool :=
  let close := find_template screen "close" BotConfig.CLOSE_BUTTON_THRESHOLD in
  if found close then
    BotOperations.safe_click (det_x close) (det_y close) ;;
    time_sleep BotConfig.MARKET_UI_WAIT ;;
    new_screen ← capture_screen;
    let '(in_market, _) := Location.is_in_market template_manager new_screen in
    mret (negb in_market)
  else mret false.

(** [MarketOperations.create_advertisement_workflow(screen)] *)
Definition create_advertisement_workflow (screen : Image) : M bool :=
  let offer := find_template screen "offer" BotConfig.ADVERT_OFFER_THRESHOLD in
  let wheat_offer := find_template screen "wheat_market" BotConfig.ADVERT_WHEAT_OFFER_THRESHOLD in
  let new_offer := find_template screen "new_offer" BotConfig.ADVERT_NEW_OFFER_THRESHOLD in
  clicked ←
    (if found offer && Qgeb (det_conf offer) BotConfig.ADVERT_OFFER_THRESHOLD then
       BotOperations.safe_click (det_x offer) (det_y offer) ;; mret true
     else if found wheat_offer
             && Qgeb (det_conf wheat_offer) BotConfig.ADVERT_WHEAT_OFFER_THRESHOLD then
       BotOperations.safe_click (det_x wheat_offer) (det_y wheat_offer) ;; mret true
     else if found new_offer
             && Qgeb (det_conf new_offer) BotConfig.ADVERT_NEW_OFFER_THRESHOLD then
       BotOperations.safe_click (det_x new_offer) (det_y new_offer) ;; mret true
     else mret false);
  if negb clicked then mret false
  else
    time_sleep BotConfig.MARKET_UI_WAIT ;;
    screen ← capture_screen;
    let '(in_paper_page, paper_page_conf) :=
      Location.is_in_paper_page template_manager screen in
    if negb in_paper_page then mret false
    else
      let cooldown := find_template screen "paper_cooldown" BotConfig.PAPER_COOLDOWN_THRESHOLD in
      if found cooldown then
        let close := find_template screen "close" BotConfig.CLOSE_BUTTON_THRESHOLD in
        (if found close then
           BotOperations.safe_click (det_x close) (det_y close) ;;
           time_sleep BotConfig.MARKET_UI_WAIT
         else mret tt) ;;
        mret true
      else
        let paper_button := find_template screen "paper_button" BotConfig.PAPER_BUTTON_THRESHOLD in
        if negb (found paper_button) then mret false
        else
          BotOperations.safe_click (det_x paper_button) (det_y paper_button) ;;
          time_sleep BotConfig.MARKET_UI_WAIT ;;
          screen ← capture_screen;
          let paper_create := find_template screen "paper_create" BotConfig.PAPER_CREATE_THRESHOLD in
          if negb (found paper_create) then mret false
          else
            BotOperations.safe_click (det_x paper_create) (det_y paper_create) ;;
            time_sleep BotConfig.MARKET_UI_WAIT ;;
            mret true.

(** [MarketOperations.check_and_create_advertisement(screen)] *)
Definition check_and_create_advertisement (screen : Image) : M bool :=
  let check_paper := find_template screen "check_paper" BotConfig.CHECK_PAPER_THRESHOLD in
  if found check_paper then mret true
  else
    let cooldown := find_template screen "paper_cooldown" BotConfig.PAPER_COOLDOWN_THRESHOLD in
    if found cooldown then mret true
    else create_advertisement_workflow screen.

(** [MarketOperations.handle_market_workflow_template()] *)
Definition handle_market_workflow_template : M bool :=
  screen ← capture_screen;
  let locations := Location.analyze_current_location template_manager screen in
  entered ←
    (if bool_decide (is_Some (locations !! "offer")) then
       let close := find_template screen "close" BotConfig.CLOSE_BUTTON_THRESHOLD in
       (if found close then
          BotOperations.safe_click (det_x close) (det_y close) ;;
          time_sleep (5 # 10) ;;
          capture_screen ;; mret tt
        else mret tt) ;;
       mret true
     else if bool_decide (is_Some (locations !! "market")) then mret true
     else go_to_market_template screen);
  if negb entered then mret false
  else
    capture_screen ;;
    collect_sold_items_template ;;
    capture_screen ;;
    fill_market_with_wheat_template ;;
    screen ← capture_screen;
    check_and_create_advertisement screen ;;
    screen ← capture_screen;
    close_market_template screen ;;
    mret true.

End WithCV.
End MarketOperations.

(* ===================================================================== *)
(** ** gui/bot_controller.py *)
(* ===================================================================== *)

(** [detection_state.storage_full = False; storage_keyword = None] *)
Definition clear_storage {cv : OpenCV} (d : DetectionState) : DetectionState :=
  {| screen := screen d; center := center d; contour := contour d;
     wheat_coverage := wheat_coverage d; is_wheat_ready := is_wheat_ready d;
     storage_full := false; storage_keyword := None |}.

(** How one pass through the body of a [while] loop ends. *)
Inductive LoopCtl := Continue | Break.

Module BotController.
Section WithCV.
Context {cv : OpenCV}.
Context (template_manager : TemplateManager.t).

Definition find_template (screen : Image) (template_name : string)
    (threshold : Q) : Detection :=
  TemplateManager.find_template template_manager screen template_name threshold.

Definition found (d : Detection) : bool := truthy (det_x d) && truthy (det_y d).

(** [key in locations] *)
Definition has_key (key : string) (locations : gmap string Q) : bool :=
  bool_decide (is_Some (locations !! key)).

Definition _analyze_current_location (screen : Image) : gmap string Q :=
  Location.analyze_current_location template_manager screen.

(** [BotController._check_and_dismiss_loading_screen_with_click(screen)] *)
Definition _check_and_dismiss_loading_screen_with_click (screen : Image) : M bool :=
  let loading := find_template screen "loading" BotConfig.LOADING_SCREEN_THRESHOLD in
  if found loading then
    let click := find_template screen "click" BotConfig.CLICK_ESCAPE_THRESHOLD in
    if found click then
      BotOperations.safe_click (det_x click) (det_y click) ;;
      time_sleep (15 # 10) ;;
      mret true
    else
      time_sleep 2 ;;
      mret true
  else mret false.

(** [BotController._get_screen_with_loading_check()] *)
Definition _get_screen_with_loading_check : M Image :=
  screen ← capture_screen;
  dismissed ← _check_and_dismiss_loading_screen_with_click screen;
  if dismissed : bool then
    time_sleep (5 # 10) ;;
    capture_screen
  else mret screen.

(** The step "find the close button and click it" that
    [_smart_return_to_main] repeats for the offer page, the paper page and
    an open dialog; [true] stands for the [continue] it ends with. *)
Definition click_close (screen : Image) : M bool :=
  let close := find_template screen "close" BotConfig.CLOSE_BUTTON_THRESHOLD in
  if found close then
    BotOperations.safe_click (det_x close) (det_y close) ;;
    time_sleep (5 # 10) ;;
    mret true
  else mret false.

(** One pass through the body of the loop of [_smart_return_to_main];
    [Some b] is [return b], [None] goes on with the next attempt. *)
Definition smart_return_attempt : M (option bool) :=
  screen ← capture_screen;
  let locations := _analyze_current_location screen in
  if has_key "main" locations then mret (Some true)
  else
    handled ←
      (if has_key "silo_popup" locations then
         closed ← MarketOperations.close_silo_with_template template_manager screen;
         if closed : bool then time_sleep (5 # 10) ;; mret true else mret false
       else mret false);
    if handled : bool then mret None
    else
      handled ←
        (if has_key "offer" locations then click_close screen else mret false);
      if handled : bool then mret None
      else
        handled ←
          (if has_key "market" locations then
             closed ← MarketOperations.close_market_template template_manager screen;
             if closed : bool then time_sleep (5 # 10) ;; mret true else mret false
           else mret false);
        if handled : bool then mret None
        else
          handled ←
            (if has_key "paper_page" locations then click_close screen else mret false);
          if handled : bool then mret None
          else
            handled ←
              (if has_key "dialog_open" locations then click_close screen else mret false);
            if handled : bool then mret None
            else time_sleep 1 ;; mret None.

Fixpoint smart_return_loop (attempts : nat) : M bool :=
  match attempts with
  | O => mret false
  | S attempts' =>
      r ← smart_return_attempt;
      match r with
      | Some b => mret b
      | None => smart_return_loop attempts'
      end
  end.

(** [BotController._smart_return_to_main()] *)
Definition _smart_return_to_main : M bool := smart_return_loop 10.

Fixpoint ensure_main_loop (attempts : nat) : M bool :=
  match attempts with
  | O => mret false
  | S attempts' =>
      screen ← capture_screen;
      let locations := _analyze_current_location screen in
      if has_key "main" locations then mret true
      else
        returned ← _smart_return_to_main;
        if negb returned then
          interrupted ← BotOperations.interruptible_sleep 2;
          if interrupted : bool then mret false else ensure_main_loop attempts'
        else
          interrupted ← BotOperations.interruptible_sleep 1;
          if interrupted : bool then mret false else ensure_main_loop attempts'
  end.

(** [BotController._ensure_on_main_page()] *)
Definition _ensure_on_main_page : M bool := ensure_main_loop 5.

(** One pass through the body of the loop of
    [_comprehensive_field_planting]; [Some b] is [return b]. *)
Definition planting_attempt (attempt max_attempts : nat) : M (option bool) :=
  log_msg (LogPlantingAttempt (S attempt) max_attempts) ;;
  screen ← capture_screen;
  let locations := _analyze_current_location screen in
  on_main ←
    (if negb (has_key "main" locations) then
       returned ← _smart_return_to_main;
       if negb returned then mret false
       else capture_screen ;; mret true
     else mret true);
  if negb on_main then mret None
  else
    need ← BotOperations.check_fields_need_planting_cv;
    if negb need then mret (Some true)
    else
      d ← read_detection_state;
      let cx := fst <$> center d in
      let cy := snd <$> center d in
      match cx, cy, contour d with
      | Some x, Some y, Some c =>
          if truthy cx && truthy cy then
            planted ← BotOperations.plant_wheat x y (Some c);
            if planted : bool then
              time_sleep 2 ;;
              capture_screen ;;
              need ← BotOperations.check_fields_need_planting_cv;
              if negb need then mret (Some true)
              else read_detection_state ;; mret None
            else time_sleep 1 ;; mret None
          else time_sleep 1 ;; mret None
      | _, _, _ => time_sleep 1 ;; mret None
      end.

(** [for attempt in range(max_attempts)]; [remaining] counts down. *)
Fixpoint planting_loop (max_attempts remaining : nat) : M (option bool) :=
  match remaining with
  | O => mret None
  | S remaining' =>
      r ← planting_attempt (max_attempts - remaining)%nat max_attempts;
      match r with
      | Some b => mret (Some b)
      | None => planting_loop max_attempts remaining'
      end
  end.

(** [BotController._comprehensive_field_planting(max_attempts)] *)
Definition _comprehensive_field_planting (max_attempts : nat) : M bool :=
  r ← planting_loop max_attempts max_attempts;
  match r with
  | Some b => mret b
  | None =>
      capture_screen ;;
      need ← BotOperations.check_fields_need_planting_cv;
      if need : bool then read_detection_state ;; mret false
      else mret true
  end.

(** [BotController._handle_market_workflow()] *)
Definition _handle_market_workflow : M bool :=
  try_except
    (screen ← capture_screen;
     entered ← MarketOperations.go_to_market_template template_manager screen;
     if negb entered then mret false
     else
       capture_screen ;;
       MarketOperations.collect_sold_items_template template_manager ;;
       capture_screen ;;
       MarketOperations.fill_market_with_wheat_template template_manager ;;
       screen ← capture_screen;
       try_except
         (MarketOperations.check_and_create_advertisement template_manager screen ;; mret tt)
         (mret tt) ;;
       screen ← capture_screen;
       MarketOperations.close_market_template template_manager screen ;;
       mret true)
    (mret false).

(** The [while] loop of the branch of [_smart_wait_with_market_management]
    taken when market management is switched off. *)
Fixpoint simple_wait_loop (fuel : nat) (start_time total_wait_seconds : Q) : M unit :=
  now ← time_time;
  if Qltb (now - start_time) total_wait_seconds then
    stopped ← BotOperations.not_running_or_stopped;
    if stopped : bool then mret tt
    else
      time_time ;;
      interrupted ← BotOperations.interruptible_sleep 10;
      if interrupted : bool then mret tt
      else
        match fuel with
        | O => out_of_fuel
        | S fuel' => simple_wait_loop fuel' start_time total_wait_seconds
        end
  else mret tt.

(** The [try] block of the market check in the growth wait; [true] stands
    for the [continue] of the source. *)
Definition growth_market_check : M bool :=
  screen ← capture_screen;
  let collect := find_template screen "collect" BotConfig.COLLECT_BUTTON_THRESHOLD in
  if found collect then
    MarketOperations.handle_market_workflow_template template_manager ;;
    mret false
  else
    entered ← MarketOperations.go_to_market_template template_manager screen;
    if entered : bool then
      time_sleep (6 # 10) ;;
      screen ← capture_screen;
      let '(in_market, market_confidence) := Location.is_in_market template_manager screen in
      if negb in_market then mret true
      else
        collected_something ← MarketOperations.collect_sold_items_template template_manager;
        screen ← (if collected_something : bool then capture_screen else mret screen);
        let offer := find_template screen "new_offer" BotConfig.NEW_OFFER_THRESHOLD in
        (if found offer then
           MarketOperations.fill_market_with_wheat_template template_manager ;; mret tt
         else mret tt) ;;
        screen ← capture_screen;
        MarketOperations.check_and_create_advertisement template_manager screen ;;
        screen ← capture_screen;
        MarketOperations.close_market_template template_manager screen ;;
        mret false
    else mret false.

(** The main [while] loop of [_smart_wait_with_market_management]. *)
Fixpoint growth_wait_loop (fuel : nat) (start_time total_wait_seconds : Q)
    (last_market_check : Z) : M unit :=
  now ← time_time;
  if Qltb (now - start_time) total_wait_seconds then
    stopped ← BotOperations.not_running_or_stopped;
    if stopped : bool then mret tt
    else
      now ← time_time;
      let elapsed := py_int (now - start_time) in
      '(continue_now, last_market_check) ←
        (if BotConfig.MARKET_CHECK_INTERVAL <=? elapsed - last_market_check then
           continue_now ← try_except growth_market_check (mret false);
           if continue_now : bool then mret (true, last_market_check)
           else mret (false, elapsed)
         else mret (false, last_market_check));
      interrupted ←
        (if continue_now : bool then mret false
         else BotOperations.interruptible_sleep 5);
      if interrupted : bool then mret tt
      else
        match fuel with
        | O => out_of_fuel
        | S fuel' => growth_wait_loop fuel' start_time total_wait_seconds last_market_check
        end
  else mret tt.

(** [BotController._smart_wait_with_market_management(total_wait_seconds)] *)
Definition _smart_wait_with_market_management (fuel : nat) (total_wait_seconds : Q)
    : M unit :=
  if negb BotConfig.ENABLE_GROWTH_MARKET_MANAGEMENT then
    start_time ← time_time;
    simple_wait_loop fuel start_time total_wait_seconds
  else
    start_time ← time_time;
    growth_wait_loop fuel start_time total_wait_seconds 0.

(** [BotController._check_and_handle_unknown_popups(screen)] *)
Definition _check_and_handle_unknown_popups (screen : Image) : M bool :=
  let close := find_template screen "close" BotConfig.CLOSE_BUTTON_THRESHOLD in
  let locations := _analyze_current_location screen in
  if found close && bool_decide (locations = ∅) then
    BotOperations.safe_click (det_x close) (det_y close) ;;
    time_sleep (8 # 10) ;;
    mret true
  else mret false.

(** [if self.bot_operations.interruptible_sleep(t): break] followed by
    [continue]. *)
Definition sleep_then_continue (total_time : Q) : M LoopCtl :=
  interrupted ← BotOperations.interruptible_sleep total_time;
  if interrupted : bool then mret Break else mret Continue.

(** STEP 1 of the cycle, from the silo check to the end of the
    persistent-silo branch.  [Some ctl] leaves the cycle with [ctl];
    [None] goes on to STEP 2. *)
Definition silo_step (screen : Image) : M (option LoopCtl) :=
  silo_popup_detected ← MarketOperations.check_silo_full_template template_manager screen;
  b ← read_bot_state;
  let persistent_silo_full := silo_is_full b in
  let wheat_sold := wheat_sold_this_session b in
  early ←
    (if silo_popup_detected : bool then
       closed ← MarketOperations.close_silo_with_template template_manager screen;
       if closed : bool then
         w ← get_world;
         modify_world (with_detection_state (clear_storage (detection_state w))) ;;
         mret None
       else
         ctl ← sleep_then_continue 5;
         mret (Some ctl)
     else mret None);
  match early with
  | Some ctl => mret (Some ctl)
  | None =>
      if persistent_silo_full && negb wheat_sold then
        screen ← capture_screen;
        dismissed ← _check_and_dismiss_loading_screen_with_click screen;
        (if dismissed : bool then capture_screen ;; mret tt else mret tt) ;;
        ok ← _handle_market_workflow;
        (if ok : bool then
           b ← read_bot_state;
           if wheat_sold_this_session b then
             write_bot_state (set_silo_is_full false) ;;
             write_bot_state (set_wheat_sold_this_session false) ;;
             log_msg LogSiloStateCleared
           else log_msg LogKeepingSiloFull
         else log_msg LogKeepingSiloFull) ;;
        _smart_return_to_main ;;
        mret (Some Continue)
      else if persistent_silo_full && wheat_sold then
        write_bot_state (set_silo_is_full false) ;;
        write_bot_state (set_wheat_sold_this_session false) ;;
        mret None
      else mret None
  end.

(** STEP 5 and STEP 6 of the cycle. *)
Definition collect_step : M LoopCtl :=
  screen ← _get_screen_with_loading_check;
  let collect := find_template screen "collect" BotConfig.COLLECT_BUTTON_THRESHOLD in
  early ←
    (if found collect then
       ok ← _handle_market_workflow;
       if ok : bool then mret None
       else ctl ← sleep_then_continue 10; mret (Some ctl)
     else mret None);
  match early with
  | Some ctl => mret ctl
  | None => sleep_then_continue BotConfig.CYCLE_PAUSE
  end.

(** STEP 4 of the cycle. *)
Definition harvest_step : M LoopCtl :=
  on_main ← _ensure_on_main_page;
  if negb on_main then sleep_then_continue 5
  else
    d ← read_detection_state;
    let cx := fst <$> center d in
    let cy := snd <$> center d in
    early ←
      match cx, cy, contour d with
      | Some x, Some y, Some c =>
          if truthy cx && truthy cy && is_wheat_ready d
             && Qgtb (wheat_coverage d) 30 then
            harvested ← BotOperations.harvest_wheat x y (Some c);
            if harvested : bool then mret None
            else ctl ← sleep_then_continue 10; mret (Some ctl)
          else mret None
      | _, _, _ => mret None
      end;
    match early with
    | Some ctl => mret ctl
    | None => collect_step
    end.

(** STEP 2 and STEP 3 of the cycle. *)
Definition planting_step (fuel : nat) : M LoopCtl :=
  on_main ← _ensure_on_main_page;
  if negb on_main then sleep_then_continue 10
  else
    need ← BotOperations.check_fields_need_planting_cv;
    early ←
      (if need : bool then
         planted ← _comprehensive_field_planting 5;
         if planted : bool then
           _smart_wait_with_market_management fuel BotConfig.WHEAT_HARVEST_TIME ;;
           mret None
         else ctl ← sleep_then_continue 10; mret (Some ctl)
       else mret None);
    match early with
    | Some ctl => mret ctl
    | None => harvest_step
    end.

(** The body of the [while] loop of [bot_loop]: one cycle. *)
Definition bot_cycle (fuel : nat) : M LoopCtl :=
  screen ← _get_screen_with_loading_check;
  interrupted ← BotOperations.interruptible_sleep 1;
  if interrupted : bool then mret Break
  else
    handled ← _check_and_handle_unknown_popups screen;
    refreshed ←
      (if handled : bool then
         screen ← _get_screen_with_loading_check;
         interrupted ← BotOperations.interruptible_sleep 1;
         if interrupted : bool then mret None else mret (Some screen)
       else mret (Some screen));
    match refreshed with
    | None => mret Break
    | Some screen =>
        r ← silo_step screen;
        match r with
        | Some ctl => mret ctl
        | None => planting_step fuel
        end
    end.

(** [while self.bot_state.running and not self.stop_event.is_set()].
    The loop has no bound of its own: [fuel] bounds the number of cycles
    that are run, [wait_fuel] the passes of the growth wait. *)
Fixpoint cycles (wait_fuel fuel : nat) : M unit :=
  stopped ← BotOperations.not_running_or_stopped;
  if stopped : bool then mret tt
  else
    match fuel with
    | O => out_of_fuel
    | S fuel' =>
        ctl ← bot_cycle wait_fuel;
        match ctl with
        | Break => mret tt
        | Continue => cycles wait_fuel fuel'
        end
    end.

(** [BotController.bot_loop()] *)
Definition bot_loop (wait_fuel fuel : nat) : M unit :=
  try_except (cycles wait_fuel fuel)
             (log_msg LogCriticalBotError ;; stop_bot).

End WithCV.
End BotController.

(* ===================================================================== *)
(** ** gui/detection_manager.py *)
(* ===================================================================== *)

Module DetectionManager.
Section WithCV.
Context {cv : OpenCV}.

(** [DetectionManager._interruptible_sleep(total_time)] *)
Definition _interruptible_sleep (total_time : Q) : M bool :=
  let chunk_size := py_minQ BotConfig.STOP_CHECK_INTERVAL BotConfig.MAX_SLEEP_CHUNK in
  BotOperations.chunked_sleep chunk_size total_time.

Context {px : Pixels}.
Context (soil_detector : SoilDetector.t) (template_manager : TemplateManager.t).

(** The snapshot [_capture_and_detect] stores for the picture [frame].
    [get_centroid] gives both coordinates or none, so the pair
    [(cx, cy)] stored when [cx is not None] has two integers. *)
Definition detect (frame : Image) : DetectionState :=
  let '(cx, cy, field_contour) := SoilDetector.detect_field soil_detector frame in
  let '(coverage, is_ready) :=
    match field_contour with
    | Some c =>
        (SoilDetector.count_wheat_coverage frame (Some c),
         SoilDetector.is_ready_for_harvest frame (Some c) 20)
    | None => (0%Q, false)
    end in
  let '(silo_x, silo_y, confidence) :=
    TemplateManager.find_template template_manager frame "silo" (6 # 10) in
  let full := bool_decide (is_Some silo_x) && bool_decide (is_Some silo_y) in
  {| screen := Some frame;
     center := match cx, cy with Some x, Some y => Some (x, y) | _, _ => None end;
     contour := field_contour;
     wheat_coverage := coverage;
     is_wheat_ready := is_ready;
     storage_full := full;
     storage_keyword := if full then Some "SILO_TEMPLATE_DETECTED" else None |}.

(** [DetectionManager._capture_and_detect()]: the screen capture and the
    shared snapshot after the call.  When the capture raises, the handler
    logs and both stay as they were. *)
Definition _capture_and_detect (screen_capture : ScreenCapture.t) (current_time : Q)
    (grab : option Image) (d : DetectionState) : ScreenCapture.t * DetectionState :=
  match ScreenCapture.capture_screen screen_capture true current_time grab with
  | (Some frame, screen_capture) => (screen_capture, detect frame)
  | (None, screen_capture) => (screen_capture, d)
  end.

(** One pass through the body of the loop of [detection_loop], up to the
    sleep; [visual_display] says whether a display was passed. *)
Definition detection_pass (visual_display : bool) (b : BotState)
    (screen_capture : ScreenCapture.t) (current_time : Q) (grab : option Image)
    (d : DetectionState) : ScreenCapture.t * DetectionState :=
  if detection_active b then
    if negb (path_execution_active b) then
      _capture_and_detect screen_capture current_time grab d
    else if visual_display then
      (snd (ScreenCapture.capture_screen screen_capture true current_time grab), d)
    else (screen_capture, d)
  else (screen_capture, d).

End WithCV.
End DetectionManager.

(* ===================================================================== *)
(** ** gui/main_window.py *)
(* ===================================================================== *)

Module HayDayBotGUI.

(** [HayDayBotGUI._detect_screen_resolution()], as a function of the
    width and height Tk reports. *)
Definition _detect_screen_resolution (width height : Z) : string :=
  if (BotConfig.RESOLUTION_2K_WIDTH <=? width) && (BotConfig.RESOLUTION_2K_HEIGHT <=? height)
  then "2K" else "1K".

End HayDayBotGUI.

(* ===================================================================== *)
(** ** A small instance of the OpenCV interface, for the examples *)
(* ===================================================================== *)

(** Pictures are described by what the sources ask about them: their
    shape, the best match of each named template on them (in colour and
    in grayscale), and the regions [findContours] would report.  Regions
    are axis-parallel boxes given by two opposite corners. *)
Module Toy.

Record ToyImage := {
  toy_shape : Z * Z;
  toy_name : string;
  toy_gray : bool;
  toy_matches : list (string * bool * (Point * Q));
  toy_blobs : list Contour
}.

Fixpoint toy_lookup (name : string) (gray : bool)
    (l : list (string * bool * (Point * Q))) : Point * Q :=
  match l with
  | [] => ((0, 0), 0%Q)
  | (n, g, r) :: l' =>
      if String.eqb n name && Bool.eqb g gray then r else toy_lookup name gray l'
  end.

Definition toy_gray_of (img : ToyImage) : ToyImage :=
  {| toy_shape := toy_shape img; toy_name := toy_name img; toy_gray := true;
     toy_matches := toy_matches img; toy_blobs := toy_blobs img |}.

Definition toy_with_blobs (img : ToyImage) (blobs : list Contour) : ToyImage :=
  {| toy_shape := toy_shape img; toy_name := toy_name img; toy_gray := toy_gray img;
     toy_matches := toy_matches img; toy_blobs := blobs |}.

Definition toy_box (c : Contour) : option (Point * Point) :=
  match PathGenerator.np_min_axis0 c, PathGenerator.np_max_axis0 c with
  | Some lo, Some hi => Some (lo, hi)
  | _, _ => None
  end.

Definition toy_pointPolygonTest (c : Contour) (x y : Z) : Z :=
  match toy_box c with
  | Some ((x0, y0), (x1, y1)) =>
      if (x0 <? x) && (x <? x1) && (y0 <? y) && (y <? y1) then 1
      else if (x0 <=? x) && (x <=? x1) && (y0 <=? y) && (y <=? y1) then 0
      else -1
  | None => -1
  end.

Definition toy_contourArea (c : Contour) : Q :=
  match toy_box c with
  | Some ((x0, y0), (x1, y1)) => inject_Z ((x1 - x0) * (y1 - y0))
  | None => 0%Q
  end.

Definition toy_moments (c : Contour) : Q * Q * Q :=
  match toy_box c with
  | Some ((x0, y0), (x1, y1)) =>
      let a := inject_Z ((x1 - x0) * (y1 - y0)) in
      (a, (a * inject_Z (x0 + x1) / 2)%Q, (a * inject_Z (y0 + y1) / 2)%Q)
  | None => (0%Q, 0%Q, 0%Q)
  end.

Definition toy_blank (rows cols : Z) : ToyImage :=
  {| toy_shape := (rows, cols); toy_name := ""; toy_gray := true;
     toy_matches := []; toy_blobs := [] |}.

#[local] Instance ToyCV : OpenCV := {|
  Image := ToyImage;
  ResultMap := Point * Q;
  shape := toy_shape;
  cvtColor_BGR2GRAY := toy_gray_of;
  cvtColor_BGR2HSV := λ img, img;
  matchTemplate := λ img tmpl, toy_lookup (toy_name tmpl) (toy_gray img) (toy_matches img);
  minMaxLoc := λ r, (0%Q, snd r, (0, 0), fst r);
  where_ge := λ r threshold, if Qgeb (snd r) threshold then [fst r] else [];
  result_at := λ r _, snd r;
  pointPolygonTest := toy_pointPolygonTest;
  contourArea := toy_contourArea;
  moments := toy_moments;
  findContours := toy_blobs;
  zeros := toy_blank;
  rectangle := λ img p q, toy_with_blobs img (toy_blobs img ++ [[p; q]]);
  fillPoly := λ img c, toy_with_blobs img (toy_blobs img ++ [c]);
  bitwise_or := λ a b, toy_with_blobs a (toy_blobs a ++ toy_blobs b);
  inRange := λ img _ _, img;
  morphologyEx_CLOSE := λ img, img;
  morphologyEx_OPEN := λ img, img
|}.

(** A template picture of the given size. *)
Definition template (name : string) (rows cols : Z) : ToyImage :=
  {| toy_shape := (rows, cols); toy_name := name; toy_gray := false;
     toy_matches := []; toy_blobs := [] |}.

(** A full-HD screenshot with the given template matches. *)
Definition screenshot (matches : list (string * bool * (Point * Q))) : ToyImage :=
  {| toy_shape := (1080, 1920); toy_name := "screen"; toy_gray := false;
     toy_matches := matches; toy_blobs := [] |}.

(** A square field, 200 pixels wide. *)
Definition square_field : Contour := [(100, 100); (300, 100); (300, 300); (100, 300)].

(** A template set whose silo picture is one pixel wide. *)
Definition thin_silo_templates : TemplateManager.t :=
  {| TemplateManager.templates := {[ "silo" := template "silo" 40 1 ]} |}.

(** The silo picture matches best, with score 0.9, in the leftmost column
    of the screen. *)
Definition thin_silo_screen : ToyImage :=
  screenshot [("silo", false, ((0, 7), 9 # 10))].

(** An ordinary template set: every picture is 60 by 80 pixels. *)
Definition usual_templates : TemplateManager.t :=
  {| TemplateManager.templates :=
       list_to_map
         (map (λ n, (n, template n 60 80))
              ["main"; "market"; "in_offer"; "paper_page"; "silo"; "close";
               "collect"; "sold"; "loading"; "click"; "market_button"; "offer";
               "wheat_market"; "newspaper"; "new_offer"; "insert_button";
               "arrow_right_active"; "arrow_right_deactive";
               "plus_button_active"; "plus_button_deactive";
               "check_paper"; "paper_cooldown"; "paper_button"; "paper_create"]) |}.

(** The silo popup shows, and so do the main page and the close button. *)
Definition silo_screen : ToyImage :=
  screenshot [("silo", false, ((500, 300), 9 # 10));
              ("main", false, ((10, 10), 95 # 100));
              ("close", false, ((900, 200), 8 # 10))].

(** The farm: only the main page marker shows. *)
Definition main_screen : ToyImage :=
  screenshot [("main", false, ((10, 10), 95 # 100))].

(** The close button scores 0.6 in colour and 0.3 in grayscale. *)
Definition faint_close_screen : ToyImage :=
  screenshot [("close", false, ((900, 200), 6 # 10));
              ("close", true, ((900, 200), 3 # 10))].

(** The loading picture shows and there is nothing to click. *)
Definition loading_screen : ToyImage :=
  screenshot [("loading", false, ((400, 400), 9 # 10))].

(** A soil detector whose empty-field picture is 10 rows by 100 columns. *)
Definition small_field_detector : SoilDetector.t :=
  {| SoilDetector.field_template := Some (template "field" 10 100);
     SoilDetector.wheat_template := None |}.

(** One empty-field match, at (50, 60); no wheat. *)
Definition one_field_screen : ToyImage :=
  screenshot [("field", true, ((50, 60), 9 # 10))].

Definition idle_bot_state : BotState :=
  {| running := true; detection_active := true; path_execution_active := false;
     silo_is_full := false; wheat_sold_this_session := false |}.

Definition no_detection : DetectionState :=
  {| screen := None; center := None; contour := None; wheat_coverage := 0%Q;
     is_wheat_ready := false; storage_full := false; storage_keyword := None |}.

Definition field_detection (coverage : Q) : DetectionState :=
  {| screen := None; center := Some (200, 200); contour := Some square_field;
     wheat_coverage := coverage; is_wheat_ready := false;
     storage_full := false; storage_keyword := None |}.

Definition full_silo (wheat_sold : bool) : BotState :=
  {| running := true; detection_active := true; path_execution_active := false;
     silo_is_full := true; wheat_sold_this_session := wheat_sold |}.

Definition world (b : BotState) (d : DetectionState) : World :=
  {| bot_state := b; detection_state := d; stop_event := false; clock := 0%nat;
     events := []; log := [] |}.

(** Nothing happens outside: the GUI thread is quiet, every capture shows
    [img], the detection thread reports [d], nothing raises. *)
Definition quiet_env (img : ToyImage) (d : DetectionState) : Env :=
  {| env_capture := λ _, Some img; env_gui := λ _, GuiNone;
     env_detection := λ _, Some d; env_fault := λ _, false;
     env_time := λ t, inject_Z (Z.of_nat t) |}.

(** The set pixels of a toy mask are those of its boxes; the conjunction
    of two masks keeps the boxes of the first that lie within a box of
    the second. *)
Definition toy_area (c : Contour) : N :=
  match toy_box c with
  | Some ((x0, y0), (x1, y1)) => Z.to_N ((x1 - x0) * (y1 - y0))
  | None => 0%N
  end.

Definition toy_within (inner outer : Contour) : bool :=
  match toy_box inner, toy_box outer with
  | Some ((a0, b0), (a1, b1)), Some ((x0, y0), (x1, y1)) =>
      (x0 <=? a0) && (a1 <=? x1) && (y0 <=? b0) && (b1 <=? y1)
  | _, _ => false
  end.

#[local] Instance ToyPixels : Pixels (cv := ToyCV) := {|
  bitwise_and := λ a b,
    toy_with_blobs a (filter (λ c, existsb (toy_within c) (toy_blobs b) = true) (toy_blobs a));
  count_nonzero := λ img, fold_right N.add 0%N (map toy_area (toy_blobs img))
|}.

(** A disk that holds the full-HD template directory with two pictures. *)
Definition toy_disk : list string :=
  ["/bot/templates"; "/bot/templates/1ktemplates";
   "/bot/templates/1ktemplates/main.png"; "/bot/templates/1ktemplates/close.png"].

#[local] Instance ToyFS : FileSystem (cv := ToyCV) := {|
  path_join := λ a b, String.append a (String.append "/" b);
  path_exists := λ p, bool_decide (p ∈ toy_disk);
  imread := λ p, if bool_decide (p ∈ toy_disk) then Some (template p 60 80) else None
|}.

(** The market page shows, and the main page marker scores even higher. *)
Definition market_screen : ToyImage :=
  screenshot [("market", false, ((300, 300), 9 # 10));
              ("main", false, ((10, 10), 95 # 100))].

(** A screenshot on which the colour filter finds the given regions. *)
Definition wheat_screen (blobs : list Contour) : ToyImage :=
  toy_with_blobs (screenshot []) blobs.

(** A detector without an empty-field picture. *)
Definition bare_detector : SoilDetector.t :=
  {| SoilDetector.field_template := None; SoilDetector.wheat_template := None |}.

(** Nothing happens outside until the pointer reaches a corner of the
    screen: from the observation numbered [start] on, the fail-safe of
    pyautogui makes every call raise. *)
Definition failsafe_env (img : ToyImage) (d : DetectionState) (start : nat) : Env :=
  {| env_capture := λ _, Some img; env_gui := λ _, GuiNone;
     env_detection := λ _, Some d; env_fault := λ t, (start <=? t)%nat;
     env_time := λ t, inject_Z (Z.of_nat t) |}.

End Toy.

(* ===================================================================== *)
(** ** Vocabulary of the statements about the workflow task *)
(* ===================================================================== *)

Section Vocabulary.
Context {cv : OpenCV}.

(** A write to [BotState] respects the silo rule when it does not take
    [silo_is_full] from true to false, or does so in a state where
    [wheat_sold_this_session] is true. *)
Definition ok_write (before after : BotState) : Prop :=
  silo_is_full before = true -> silo_is_full after = false ->
  wheat_sold_this_session before = true.

Definition ok_event (e : Event) : Prop :=
  match e with
  | EvBotState before after => ok_write before after
  | _ => True
  end.

(** The [BotState] writes among [new] (newest first) lead from [start] to
    [finish]: each write starts from the state the one before it left. *)
Fixpoint linked (start : BotState) (new : list Event) (finish : BotState) : Prop :=
  match new with
  | [] => start = finish
  | EvBotState before after :: rest => after = finish /\ linked start rest before
  | _ :: rest => linked start rest finish
  end.

(** [w'] comes after [w]: its events extend those of [w] by writes that
    respect the silo rule and that account for every change of
    [bot_state]. *)
Definition silo_rule (w w' : World) : Prop :=
  exists new,
    events w' = new ++ events w /\
    Forall ok_event new /\
    linked (bot_state w) new (bot_state w').

(** The log is the same in [w'] as in [w]. *)
Definition same_log (w w' : World) : Prop := log w' = log w.

(** The events [new] (newest first) sleep in chunks: every [time.sleep]
    lasts at most [limit] seconds and comes directly after a look at the
    stop signal that found it clear. *)
Fixpoint chunked (limit : Q) (new : list Event) : Prop :=
  match new with
  | [] => True
  | EvSleep seconds :: rest =>
      (seconds <= limit)%Q /\
      (exists rest', rest = EvStopCheck false :: rest') /\
      chunked limit rest
  | _ :: rest => chunked limit rest
  end.

(** A write that switches [path_execution_active] on. *)
Definition locks_path (e : Event) : Prop :=
  match e with
  | EvBotState before after =>
      path_execution_active before = false /\ path_execution_active after = true
  | _ => False
  end.

(** A write that does not switch [path_execution_active] on. *)
Definition no_lock (before after : BotState) : Prop :=
  ~ (path_execution_active before = false /\ path_execution_active after = true).

(** [w'] comes after [w] without the path having been locked. *)
Definition path_untouched (w w' : World) : Prop :=
  exists new,
    events w' = new ++ events w /\
    Forall (fun e => ~ locks_path e) new /\
    (path_execution_active (bot_state w) = false ->
     path_execution_active (bot_state w') = false).

(** The number of [Planting attempt i/n] lines in a piece of log. *)
Fixpoint planting_attempts (l : list LogMsg) : nat :=
  match l with
  | [] => 0
  | LogPlantingAttempt _ _ :: rest => S (planting_attempts rest)
  | _ :: rest => planting_attempts rest
  end.

(** What [check_fields_need_planting_cv] answers on a snapshot. *)
Definition needs_planting (d : DetectionState) : bool :=
  match center d with
  | None => false
  | Some _ => Qltb (wheat_coverage d) 80
  end.

(** The detection thread never reports a field that is planted enough. *)
Definition never_planted (env : Env) : Prop :=
  forall t d, env_detection env t = Some d -> needs_planting d = true.

(** Nothing raises: every screen capture and every pyautogui call
    succeeds. *)
Definition calm (env : Env) : Prop :=
  (forall t, is_Some (env_capture env t)) /\ (forall t, env_fault env t = false).

(** A match of [tmpl] on [img] as OpenCV delivers it for a picture that
    is not a mere line: the best position has no negative coordinate and
    the template has at least two rows and two columns. *)
Definition proper_match (img tmpl : Image) : Prop :=
  let max_loc := snd (minMaxLoc (matchTemplate img tmpl)) in
  0 <= fst max_loc /\ 0 <= snd max_loc /\
  2 <= fst (shape tmpl) /\ 2 <= snd (shape tmpl).

(** The silo picture, when it is loaded, matches properly on [screen],
    in colour and in grayscale. *)
Definition proper_silo_template (template_manager : TemplateManager.t)
    (screen : Image) : Prop :=
  forall template,
    TemplateManager.templates template_manager !! "silo" = Some template ->
    proper_match screen template /\
    proper_match (cvtColor_BGR2GRAY screen) (cvtColor_BGR2GRAY template).

End Vocabulary.

Section DragVocabulary.
Context {cv : OpenCV}.

(** [w'] comes after [w]. *)
Definition events_grow (w w' : World) : Prop :=
  exists new, events w' = new ++ events w.

(** The events [new] (newest first) end with the clean-up of a drag: the
    button is released and then [path_execution_active] is cleared. *)
Definition ends_released (new : list Event) : Prop :=
  exists before rest,
    new = EvBotState before (set_path_execution_active false before) :: EvMouseUp :: rest.

(** The guarantee of [plant_wheat] and [harvest_wheat] for a call that
    starts in [w] and ends in [w'] with outcome [r]: the call comes to an
    end; and when it returns, a path that was not locked at the start is
    not locked at the end, and if the call locked the path, the last two
    things it did were to release the button and to clear the flag. *)
Definition released (w : World) (r : Outcome bool) (w' : World) : Prop :=
  exists new,
    events w' = new ++ events w /\
    r <> OutOfFuel /\
    (r <> Raise ->
     (path_execution_active (bot_state w) = false ->
      path_execution_active (bot_state w') = false) /\
     (Exists locks_path new ->
      ends_released new /\ path_execution_active (bot_state w') = false)).

Definition releases (m : M bool) : Prop :=
  forall env w, released w (fst (m env w)) (snd (m env w)).

(** What the [try] block of a drag guarantees: it comes to an end, and it
    either raises or returns after the clean-up. *)
Definition tail_released (w : World) (r : Outcome bool) (w' : World) : Prop :=
  exists new,
    events w' = new ++ events w /\
    r <> OutOfFuel /\
    (r = Raise \/
     ((exists b, r = Return b) /\ ends_released new /\
      path_execution_active (bot_state w') = false)).

Definition tail_releases (m : M bool) : Prop :=
  forall env w, tail_released w (fst (m env w)) (snd (m env w)).

End DragVocabulary.

Section PlantingVocabulary.
Context {cv : OpenCV}.

(** The log lines by which [check_fields_need_planting_cv] says that no
    planting is needed. *)
Definition not_needed (m : LogMsg) : Prop :=
  m = LogFieldsWellPlanted \/ m = LogNoFieldDetected.

(** No check recorded in [new] found that planting was not needed. *)
Definition always_needed (new : list LogMsg) : Prop :=
  Forall (fun m => ~ not_needed m) new.

(** The newest line of [new] records a check that found planting not
    needed, and it is the only such line. *)
Definition just_satisfied (new : list LogMsg) : Prop :=
  exists m rest, new = m :: rest /\ not_needed m /\ always_needed rest.

(** What one pass through the planting loop guarantees, [n] being the
    number of attempt lines it logs. *)
Definition attempt_post (n : nat) (w : World) (r : Outcome (option bool)) (w' : World)
    : Prop :=
  exists new,
    log w' = new ++ log w /\
    r <> OutOfFuel /\
    planting_attempts new = n /\
    r <> Return (Some false) /\
    (r = Return (Some true) -> just_satisfied new) /\
    (r <> Return (Some true) -> always_needed new).

Definition attempts_ok (n : nat) (m : M (option bool)) : Prop :=
  forall env w, attempt_post n w (fst (m env w)) (snd (m env w)).

(** What the planting loop guarantees with [remaining] passes to go. *)
Definition loop_post (remaining : nat) (w : World) (r : Outcome (option bool))
    (w' : World) : Prop :=
  exists new,
    log w' = new ++ log w /\
    r <> OutOfFuel /\
    (planting_attempts new <= remaining)%nat /\
    (r = Return None -> planting_attempts new = remaining) /\
    r <> Return (Some false) /\
    (r = Return (Some true) -> just_satisfied new) /\
    (r <> Return (Some true) -> always_needed new).

(** The guarantee of [_comprehensive_field_planting(max_attempts)]: it
    comes to an end after at most [max_attempts] attempts; it returns
    true exactly when a check has found that planting is not needed, and
    does so right after the first such check; it returns false only after
    all [max_attempts] attempts, every check having found that planting
    is needed. *)
Definition planting_post (max_attempts : nat) (w : World) (r : Outcome bool)
    (w' : World) : Prop :=
  exists new,
    log w' = new ++ log w /\
    r <> OutOfFuel /\
    (planting_attempts new <= max_attempts)%nat /\
    (r = Return true -> just_satisfied new) /\
    (r = Return false ->
       planting_attempts new = max_attempts /\
       head new = Some LogFieldsNeedPlanting /\ always_needed new) /\
    (r = Raise -> always_needed new).

(** Every screen capture succeeds and shows the main page. *)
Definition on_main_page (template_manager : TemplateManager.t) (env : Env) : Prop :=
  forall t, exists img,
    env_capture env t = Some img /\
    is_Some (Location.analyze_current_location template_manager img !! "main").

(** The detection thread never reports a field that needs planting. *)
Definition always_planted (env : Env) : Prop :=
  forall t d, env_detection env t = Some d -> needs_planting d = false.

(** The number of coverage checks recorded in a piece of log. *)
Fixpoint coverage_checks (l : list LogMsg) : nat :=
  match l with
  | [] => 0
  | LogNoFieldDetected :: rest => S (coverage_checks rest)
  | LogFieldsNeedPlanting :: rest => S (coverage_checks rest)
  | LogFieldsWellPlanted :: rest => S (coverage_checks rest)
  | _ :: rest => coverage_checks rest
  end.

(** [w'] comes after [w] without a new attempt line in the log. *)
Definition same_attempt (w w' : World) : Prop :=
  exists new, log w' = new ++ log w /\ planting_attempts new = 0%nat.

(** While the snapshot in [w] says that planting is needed, so does the
    one in [w'], and no check in between found otherwise. *)
Definition stays_unplanted (w w' : World) : Prop :=
  needs_planting (detection_state w) = true ->
  needs_planting (detection_state w') = true /\
  exists new, log w' = new ++ log w /\ always_needed new.

End PlantingVocabulary.

(* ===================================================================== *)
(** ** Vocabulary of the statements about detection and screen capture *)
(* ===================================================================== *)

Section DetectionVocabulary.
Context {cv : OpenCV}.

(** A snapshot hangs together: a centre comes with a contour, without a
    contour the coverage is zero and the wheat is not ready, the wheat is
    ready exactly from 20 percent, the coverage is a percentage, and the
    storage keyword is there exactly when the storage is full. *)
Definition consistent (d : DetectionState) : Prop :=
  (is_Some (center d) -> is_Some (contour d)) /\
  (contour d = None -> (wheat_coverage d == 0)%Q /\ is_wheat_ready d = false) /\
  (is_wheat_ready d = true <-> (20 <= wheat_coverage d)%Q) /\
  (0 <= wheat_coverage d)%Q /\ (wheat_coverage d <= 100)%Q /\
  (storage_full d = true <-> is_Some (storage_keyword d)).

(** A call on a [ScreenCapture] object. *)
Inductive Call :=
| CallCapture (use_cache : bool) (current_time : Q) (grab : option Image)
| CallInvalidate.

(** What a sequence of calls returns, one entry per call; an
    [invalidate_cache] and a capture that raises give [None]. *)
Fixpoint serve (self : ScreenCapture.t) (calls : list Call) : list (option Image) :=
  match calls with
  | [] => []
  | CallCapture use_cache current_time grab :: rest =>
      let '(result, self) := ScreenCapture.capture_screen self use_cache current_time grab in
      result :: serve self rest
  | CallInvalidate :: rest => None :: serve (ScreenCapture.invalidate_cache self) rest
  end.

End DetectionVocabulary.

(* ===================================================================== *)
(** ** Vocabulary of the statements about what the task does to the
       pointer *)
(* ===================================================================== *)

Section PointerVocabulary.

(** In the events [new] (newest first) every click and every pointer
    move comes directly after a look at the stop signal that found it
    clear. *)
Fixpoint guarded (new : list Event) : Prop :=
  match new with
  | [] => True
  | EvClick _ _ :: rest =>
      (exists rest', rest = EvStopCheck false :: rest') /\ guarded rest
  | EvMoveTo _ _ _ :: rest =>
      (exists rest', rest = EvStopCheck false :: rest') /\ guarded rest
  | _ :: rest => guarded rest
  end.

(** No single [time.sleep] lasts longer than two seconds. *)
Definition short_sleep (e : Event) : Prop :=
  match e with
  | EvSleep seconds => (seconds <= 2)%Q
  | _ => True
  end.

Definition short_sleeps (new : list Event) : Prop := Forall short_sleep new.

(** The pointer is only clicked: it is not moved and the button is
    neither pressed nor released on its own. *)
Definition click_only (e : Event) : Prop :=
  match e with
  | EvMoveTo _ _ _ | EvMouseDown | EvMouseUp => False
  | _ => True
  end.

Definition clicks_only (new : list Event) : Prop := Forall click_only new.

(** The button is left alone. *)
Definition no_button (e : Event) : Prop :=
  match e with
  | EvMouseDown | EvMouseUp => False
  | _ => True
  end.

Definition no_buttons (new : list Event) : Prop := Forall no_button new.

(** The presses and releases among [new], newest first. *)
Fixpoint buttons (new : list Event) : list Event :=
  match new with
  | [] => []
  | EvMouseDown :: rest => EvMouseDown :: buttons rest
  | EvMouseUp :: rest => EvMouseUp :: buttons rest
  | _ :: rest => buttons rest
  end.

(** The total of the sleeps among [new]. *)
Fixpoint slept (new : list Event) : Q :=
  match new with
  | [] => 0
  | EvSleep seconds :: rest => seconds + slept rest
  | _ :: rest => slept rest
  end.

End PointerVocabulary.

Section TaskVocabulary.
Context {cv : OpenCV}.

(** The GUI thread does nothing. *)
Definition quiet_gui (env : Env) : Prop := forall t, env_gui env t = GuiNone.

(** How a drag may have left the button, by the way the call ended: a
    call that returns has either not touched the button or pressed and
    released it once, and it answers [True] only in the second case; an
    exception leaves with the button untouched or pressed. *)
Definition drag_post (r : Outcome bool) (new : list Event) : Prop :=
  match r with
  | Return true => buttons new = [EvMouseUp; EvMouseDown]
  | Return false => buttons new = [] \/ buttons new = [EvMouseUp; EvMouseDown]
  | Raise => buttons new = [] \/ buttons new = [EvMouseDown]
  | OutOfFuel => False
  end.

Definition drags (m : M bool) : Prop :=
  forall env w, exists new,
    events (snd (m env w)) = new ++ events w /\ drag_post (fst (m env w)) new.

(** What the part of a drag after the press guarantees: it returns after
    one release, or raises without having released. *)
Definition held_post (r : Outcome bool) (new : list Event) : Prop :=
  match r with
  | Return _ => buttons new = [EvMouseUp]
  | Raise => buttons new = []
  | OutOfFuel => False
  end.

Definition holds_button (m : M bool) : Prop :=
  forall env w, exists new,
    events (snd (m env w)) = new ++ events w /\ held_post (fst (m env w)) new.

End TaskVocabulary.

(* ===================================================================== *)
(** ** Relations every step of the task preserves *)
(* ===================================================================== *)

Section Frames.
Context {cv : OpenCV}.

(** A relation between an earlier and a later world that is closed under
    the primitive steps of the task.  [may_write], [may_log] and
    [may_detect] say which writes to [bot_state], which log lines and
    which reports of the detection thread it allows. *)
Class Frame (R : World -> World -> Prop) := {
  may_write : BotState -> BotState -> Prop;
  may_log : LogMsg -> Prop;
  may_detect : DetectionState -> Prop;
  frame_refl : forall w, R w w;
  frame_trans : forall w1 w2 w3, R w1 w2 -> R w2 w3 -> R w1 w3;
  frame_tick : forall w, R w (with_tick w);
  frame_stop_event : forall b w, R w (with_stop_event b w);
  frame_event : forall e w,
    (forall before after, e <> EvBotState before after) -> R w (with_event e w);
  frame_detection : forall d w, may_detect d -> R w (with_detection_state d w);
  frame_write : forall b w, may_write (bot_state w) b -> R w (with_bot_state b w);
  frame_log : forall m w, may_log m -> R w (with_log m w);
  frame_gui_running : forall x b, may_write b (set_running x b);
  frame_gui_path : forall b, may_write b (set_path_execution_active false b)
}.

(** The detection thread only reports what [R] allows. *)
Definition obeys (R : World -> World -> Prop) `{!Frame R} (env : Env) : Prop :=
  forall t d, env_detection env t = Some d -> may_detect d.

(** [m] preserves [R] and never runs out of fuel; when [strict], it also
    never raises in a calm environment. *)
Definition sound (strict : bool) (R : World -> World -> Prop) `{!Frame R}
    {A : Type} (m : M A) : Prop :=
  forall env w, obeys R env ->
    R w (snd (m env w)) /\
    fst (m env w) <> OutOfFuel /\
    (strict = true -> calm env -> fst (m env w) <> Raise).

(** [m] preserves [R], however it ends. *)
Definition keeps (R : World -> World -> Prop) `{!Frame R}
    {A : Type} (m : M A) : Prop :=
  forall env w, obeys R env -> R w (snd (m env w)).

End Frames.

(* ===================================================================== *)
(** ** Properties of the event record that every step of the task keeps *)
(* ===================================================================== *)

Section Disciplines.
Context {cv : OpenCV}.

(** A property of pieces of the event record (newest first) that holds of
    the empty piece, is closed under putting pieces together, and allows
    looks at the shared flags, writes to [BotState], sleeps of up to two
    seconds, and a click that comes directly after a look at the stop
    signal that found it clear. *)
Class Discipline (G : list Event -> Prop) := {
  disc_nil : G [];
  disc_app : forall older newer, G older -> G newer -> G (newer ++ older);
  disc_look : forall b, G [EvStopCheck b];
  disc_write : forall before after, G [EvBotState before after];
  disc_sleep : forall seconds, (seconds <= 2)%Q -> G [EvSleep seconds];
  disc_click : forall x y rest,
    G (EvStopCheck false :: rest) -> G (EvClick x y :: EvStopCheck false :: rest)
}.

(** Whatever [m] adds to the event record has the property [G], however
    [m] ends. *)
Definition follows (G : list Event -> Prop) `{!Discipline G}
    {A : Type} (m : M A) : Prop :=
  forall env w, exists new, events (snd (m env w)) = new ++ events w /\ G new.

(** [m] comes to an end: it never runs out of fuel.  With [strict] it
    also never raises. *)
Definition total (strict : bool) {A : Type} (m : M A) : Prop :=
  forall env w,
    fst (m env w) <> OutOfFuel /\ (strict = true -> fst (m env w) <> Raise).

End Disciplines.

(* ===================================================================== *)
(** * Theorems *)
(* ===================================================================== *)

(** ** Boolean comparisons on [Q] *)

Lemma Qgeb_true (a b : Q) : Qgeb a b = true <-> (b <= a)%Q.
Proof. unfold Qgeb. apply Qle_bool_iff. Qed.

Lemma Qgeb_false (a b : Q) : Qgeb a b = false <-> (a < b)%Q.
Proof.
  unfold Qgeb. split; intros H.
  - apply Qnot_le_lt. intros Hle. apply Qle_bool_iff in Hle. congruence.
  - destruct (Qle_bool b a) eqn:E; [|reflexivity].
    apply Qle_bool_iff in E. exfalso. apply (Qlt_not_le _ _ H E).
Qed.

Lemma Qgtb_true (a b : Q) : Qgtb a b = true <-> (b < a)%Q.
Proof.
  unfold Qgtb. rewrite negb_true_iff. apply (Qgeb_false b a).
Qed.

Lemma Qgtb_false (a b : Q) : Qgtb a b = false <-> (a <= b)%Q.
Proof.
  unfold Qgtb. rewrite negb_false_iff. apply (Qgeb_true b a).
Qed.

Lemma Qltb_true (a b : Q) : Qltb a b = true <-> (a < b)%Q.
Proof. apply (Qgtb_true b a). Qed.

Lemma Qltb_false (a b : Q) : Qltb a b = false <-> (b <= a)%Q.
Proof. apply (Qgtb_false b a). Qed.

(** ** PathGenerator *)

Section PathGeneratorFacts.
Context {cv : OpenCV}.
Import PathGenerator.

Lemma np_min_axis0_nonempty (p : Point) (c : Contour) :
  is_Some (np_min_axis0 (p :: c)).
Proof. simpl. eauto. Qed.

Lemma np_max_axis0_nonempty (p : Point) (c : Contour) :
  is_Some (np_max_axis0 (p :: c)).
Proof. simpl. eauto. Qed.

Lemma horizontal_line_inside contour min_x max_x line_step y p :
  In p (horizontal_line contour min_x max_x line_step y) ->
  inside contour (fst p) (snd p) = true.
Proof.
  unfold horizontal_line.
  destruct (filter _ (py_range min_x (max_x + 1) 10)) as [|x0 xs]; [intros []|].
  intros Hin. apply in_map_iff in Hin as [x [<- Hx]].
  apply list_elem_of_In, list_elem_of_filter in Hx. simpl. tauto.
Qed.

Lemma vertical_line_inside contour min_y max_y step_size x p :
  In p (vertical_line contour min_y max_y step_size x) ->
  inside contour (fst p) (snd p) = true.
Proof.
  unfold vertical_line.
  destruct (filter _ (py_range min_y (max_y + 1) 10)) as [|y0 ys]; [intros []|].
  intros Hin. apply in_map_iff in Hin as [y [<- Hy]].
  apply list_elem_of_In, list_elem_of_filter in Hy. simpl. tauto.
Qed.

Lemma in_concat_map {A B : Type} (f : A -> list B) (l : list A) (b : B) :
  In b (concat (map f l)) -> exists a, In a l /\ In b (f a).
Proof.
  intros H. apply in_concat in H as [bs [Hbs Hb]].
  apply in_map_iff in Hbs as [a [<- Ha]]. eauto.
Qed.

(** The shape of every path built from a contour that has points. *)
Lemma create_linear_path_shape cx cy contour path_type path :
  create_linear_path cx cy (Some contour) path_type = Some path ->
  exists middle,
    path = (cx, cy) :: middle ++ [(cx, cy)] /\
    forall p, In p middle -> inside contour (fst p) (snd p) = true.
Proof.
  unfold create_linear_path.
  destruct (np_min_axis0 contour) as [[min_x min_y]|]; [|discriminate].
  destruct (np_max_axis0 contour) as [[max_x max_y]|]; [|discriminate].
  intros [= <-].
  eexists (_ ++ _). split.
  - simpl. rewrite <- app_assoc. reflexivity.
  - intros p Hp. apply in_app_or in Hp as [Hp|Hp];
      apply in_concat_map in Hp as [a [_ Hp]].
    + eapply horizontal_line_inside; eauto.
    + eapply vertical_line_inside; eauto.
Qed.

(** C3, as amended: for every centre and every mode, and for every
    contour that is [None] or has at least one point,
    [create_linear_path] returns a path whose first and last points are
    the centre; for [None] the path is the single point [(cx, cy)]. *)
Theorem create_linear_path_endpoints cx cy (contour : option Contour) path_type :
  contour <> Some [] ->
  exists path,
    create_linear_path cx cy contour path_type = Some path /\
    head path = Some (cx, cy) /\
    last path = Some (cx, cy) /\
    (contour = None -> path = [(cx, cy)]).
Proof.
  intros Hne. destruct contour as [[|p c]|]; [exfalso; apply Hne; reflexivity| |].
  - destruct (create_linear_path cx cy (Some (p :: c)) path_type) as [path|] eqn:E.
    + destruct (create_linear_path_shape _ _ _ _ _ E) as [middle [-> _]].
      exists ((cx, cy) :: middle ++ [(cx, cy)]).
      split; [exact E|]. split; [reflexivity|]. split; [|discriminate].
      change ((cx, cy) :: middle ++ [(cx, cy)]) with (((cx, cy) :: middle) ++ [(cx, cy)]).
      apply last_snoc.
    + exfalso. unfold create_linear_path in E.
      destruct (np_min_axis0_nonempty p c) as [[? ?] Hmin].
      destruct (np_max_axis0_nonempty p c) as [[? ?] Hmax].
      rewrite Hmin, Hmax in E. discriminate.
  - exists [(cx, cy)]. simpl. auto.
Qed.

(** C4: for every contour and mode, every point of a returned path other
    than the first and the last one passes the containment test
    [pointPolygonTest(contour, p) >= 0]. *)
Theorem create_linear_path_intermediate_inside cx cy (contour : Contour) path_type path p :
  create_linear_path cx cy (Some contour) path_type = Some path ->
  In p (intermediate path) ->
  0 <= pointPolygonTest contour (fst p) (snd p).
Proof.
  intros E Hp.
  destruct (create_linear_path_shape _ _ _ _ _ E) as [middle [-> Hin]].
  unfold intermediate in Hp. simpl in Hp. rewrite removelast_last in Hp.
  specialize (Hin p Hp). unfold inside in Hin. lia.
Qed.

End PathGeneratorFacts.

(** C3, witness: a square field, planted from its centre. *)
Lemma create_linear_path_endpoints_witness :
  exists path,
    PathGenerator.create_linear_path (cv := Toy.ToyCV) 200 200 (Some Toy.square_field) "plant"
      = Some path /\
    head path = Some (200, 200) /\
    last path = Some (200, 200) /\
    (Some Toy.square_field = None -> path = [(200, 200)]).
Proof.
  apply (create_linear_path_endpoints (cv := Toy.ToyCV) 200 200
           (Some Toy.square_field) "plant").
  discriminate.
Defined.

(** C3, counterexample: on a contour without points numpy raises, so no
    path is returned at all. *)
Lemma create_linear_path_empty_contour :
  ~ exists path,
      PathGenerator.create_linear_path (cv := Toy.ToyCV) 200 200 (Some []) "plant" = Some path /\
      head path = Some (200, 200) /\
      last path = Some (200, 200).
Proof. intros [path [E _]]. vm_compute in E. discriminate. Qed.

(** C4, witness: the point (220, 122) of the planting path over the square
    field. *)
Lemma create_linear_path_intermediate_inside_witness :
  0 <= pointPolygonTest (OpenCV := Toy.ToyCV) Toy.square_field 220 122.
Proof.
  destruct (PathGenerator.create_linear_path (cv := Toy.ToyCV) 200 200
              (Some Toy.square_field) "plant") as [path|] eqn:E;
    [|vm_compute in E; discriminate].
  apply (create_linear_path_intermediate_inside (cv := Toy.ToyCV) 200 200
           Toy.square_field "plant" path (220, 122) E).
  vm_compute in E. injection E as <-. vm_compute. tauto.
Defined.

(** ** TemplateManager *)

Section TemplateManagerFacts.
Context {cv : OpenCV}.
Import TemplateManager.

Lemma _match_template_conf threshold img tmpl :
  det_conf (_match_template threshold img tmpl) = color_score img tmpl.
Proof.
  unfold _match_template, color_score.
  destruct (minMaxLoc (matchTemplate img tmpl)) as [[[min_val max_val] min_loc] max_loc].
  simpl. destruct (Qgeb max_val threshold); [destruct (shape tmpl)|]; reflexivity.
Qed.

Lemma _match_template_hit threshold img tmpl :
  (threshold <= color_score img tmpl)%Q ->
  is_Some (det_x (_match_template threshold img tmpl)) /\
  is_Some (det_y (_match_template threshold img tmpl)).
Proof.
  unfold _match_template, color_score.
  destruct (minMaxLoc (matchTemplate img tmpl)) as [[[min_val max_val] min_loc] max_loc].
  simpl. intros H. apply Qgeb_true in H. rewrite H.
  destruct (shape tmpl). simpl. eauto.
Qed.

Lemma _match_template_miss threshold img tmpl :
  (color_score img tmpl < threshold)%Q ->
  _match_template threshold img tmpl = (None, None, color_score img tmpl).
Proof.
  unfold _match_template, color_score.
  destruct (minMaxLoc (matchTemplate img tmpl)) as [[[min_val max_val] min_loc] max_loc].
  simpl. intros H. apply Qgeb_false in H. rewrite H. reflexivity.
Qed.

Lemma _match_template_located threshold img tmpl :
  is_Some (det_x (_match_template threshold img tmpl)) ->
  Qgeb (det_conf (_match_template threshold img tmpl)) threshold = true.
Proof.
  unfold _match_template.
  destruct (minMaxLoc (matchTemplate img tmpl)) as [[[min_val max_val] min_loc] max_loc].
  destruct (Qgeb max_val threshold) eqn:E.
  - destruct (shape tmpl). simpl. auto.
  - simpl. intros [? [=]].
Qed.

(** A reported location comes with a confidence at or above the threshold. *)
Lemma find_template_located self screen name threshold :
  is_Some (det_x (find_template self screen name threshold)) ->
  Qgeb (det_conf (find_template self screen name threshold)) threshold = true.
Proof.
  unfold find_template. destruct (templates self !! name) as [template|].
  - destruct (det_x (_match_template threshold screen template)) eqn:E.
    + intros _. apply _match_template_located. rewrite E. eauto.
    + apply _match_template_located.
  - simpl. intros [? [=]].
Qed.

(** C6, as amended: for a known template, [find_template] returns the
    colour result when the colour score reaches the threshold; otherwise
    it returns the grayscale result, which carries a location when the
    grayscale score reaches the threshold and is the null location with
    the grayscale score when it does not.  An unknown name gives the null
    location with confidence 0.  No case raises. *)
Theorem find_template_fallback self screen name threshold :
  let d := find_template self screen name threshold in
  match templates self !! name with
  | None => d = (None, None, 0%Q)
  | Some template =>
      let c := color_score screen template in
      let g := gray_score screen template in
      ((threshold <= c)%Q ->
         d = _match_template threshold screen template /\
         is_Some (det_x d) /\ is_Some (det_y d) /\ det_conf d = c) /\
      ((c < threshold)%Q -> (threshold <= g)%Q ->
         is_Some (det_x d) /\ is_Some (det_y d) /\ det_conf d = g) /\
      ((c < threshold)%Q -> (g < threshold)%Q -> d = (None, None, g))
  end.
Proof.
  unfold find_template. destruct (templates self !! name) as [template|]; [|reflexivity].
  cbv zeta. split; [|split].
  - intros Hc. destruct (_match_template_hit threshold screen template Hc) as [[x Hx] Hy].
    rewrite Hx. cbv iota beta. split; [reflexivity|].
    split; [rewrite Hx; eauto|]. split; [exact Hy|]. apply _match_template_conf.
  - intros Hc Hg. rewrite (_match_template_miss _ _ _ Hc). simpl.
    destruct (_match_template_hit threshold _ _ Hg) as [Hx Hy].
    split; [exact Hx|]. split; [exact Hy|]. apply _match_template_conf.
  - intros Hc Hg. rewrite (_match_template_miss _ _ _ Hc). simpl.
    apply (_match_template_miss threshold _ _ Hg).
Qed.

End TemplateManagerFacts.

(** C6, counterexample: the close button scores 0.6 in colour and 0.3 in
    grayscale, both below the threshold 0.7.  The null result carries
    0.3, not the maximum 0.6 of the two scores. *)
Lemma find_template_not_best_confidence :
  let tmpl := Toy.template "close" 60 80 in
  let c := TemplateManager.color_score (cv := Toy.ToyCV) Toy.faint_close_screen tmpl in
  let g := TemplateManager.gray_score (cv := Toy.ToyCV) Toy.faint_close_screen tmpl in
  let d := TemplateManager.find_template (cv := Toy.ToyCV) Toy.usual_templates
             Toy.faint_close_screen "close" (7 # 10) in
  TemplateManager.templates Toy.usual_templates !! "close" = Some tmpl /\
  (c < 7 # 10)%Q /\ (g < 7 # 10)%Q /\
  det_x d = None /\ det_y d = None /\
  ~ (det_conf d == Qmax c g)%Q.
Proof.
  cbv zeta. split; [vm_compute; reflexivity|].
  split; [vm_compute; reflexivity|]. split; [vm_compute; reflexivity|].
  split; [vm_compute; reflexivity|]. split; [vm_compute; reflexivity|].
  vm_compute. discriminate.
Qed.

(** ** Location classification *)

Section LocationFacts.
Context {cv : OpenCV}.
Context (template_manager : TemplateManager.t).
Import Location.

Lemma truthy_is_Some (o : option Z) : truthy o = true -> is_Some o.
Proof. destruct o; simpl; [eauto|discriminate]. Qed.

(** The classifier returns at most one entry, and whenever the two
    coordinates [find_template] reports for the silo are both non-zero,
    that entry is [silo_popup]. *)
Lemma analyze_current_location_truthy_silo (screen : Image) :
  let d := silo_detection template_manager screen in
  (size (analyze_current_location template_manager screen) <= 1)%nat /\
  (truthy (det_x d) = true -> truthy (det_y d) = true ->
   analyze_current_location template_manager screen = {[ "silo_popup" := det_conf d ]}).
Proof.
  cbv zeta. unfold analyze_current_location, silo_detection.
  destruct (is_on_main_page template_manager screen) as [is_main main_conf].
  destruct (is_in_offer template_manager screen) as [in_offer offer_conf].
  destruct (is_in_market template_manager screen) as [in_market market_conf].
  destruct (is_in_paper_page template_manager screen) as [in_paper paper_conf].
  pose proof (find_template_located template_manager screen "silo"
                BotConfig.SILO_POPUP_THRESHOLD) as Hloc.
  destruct (TemplateManager.find_template template_manager screen "silo" _)
    as [[silo_x silo_y] silo_conf].
  destruct (TemplateManager.find_template template_manager screen "close" _)
    as [[close_x close_y] close_conf].
  unfold det_x, det_y, det_conf in *. simpl in *. split.
  - repeat match goal with
           | |- context [if ?b then _ else _] => destruct b
           end;
      rewrite ?insert_empty, ?map_size_singleton, ?map_size_empty; lia.
  - intros Hx Hy. rewrite Hx, Hy. rewrite (Hloc (truthy_is_Some _ Hx)).
    simpl. apply insert_empty.
Qed.

(** A proper match that reaches the threshold is reported at a position
    whose coordinates are both positive: the centre of the template lies
    at least one pixel right of and below its top left corner. *)
Lemma _match_template_truthy threshold img tmpl :
  proper_match img tmpl ->
  (threshold <= det_conf (TemplateManager._match_template threshold img tmpl))%Q ->
  truthy (det_x (TemplateManager._match_template threshold img tmpl)) = true /\
  truthy (det_y (TemplateManager._match_template threshold img tmpl)) = true.
Proof.
  unfold proper_match, TemplateManager._match_template.
  destruct (minMaxLoc (matchTemplate img tmpl)) as [[[min_val max_val] min_loc] max_loc].
  cbn [snd]. intros (Hx & Hy & Hh & Hw).
  destruct (Qgeb max_val threshold) eqn:E.
  - destruct (shape tmpl) as [h w]. cbn [fst snd] in *. intros _.
    assert (1 <= w / 2) by (apply Z.div_le_lower_bound; lia).
    assert (1 <= h / 2) by (apply Z.div_le_lower_bound; lia).
    unfold det_x, det_y, truthy. cbn [fst snd].
    split; apply negb_true_iff, Z.eqb_neq; lia.
  - unfold det_conf. cbn [snd]. intros Hconf. apply Qgeb_true in Hconf. congruence.
Qed.

(** C5: for every frame the classifier returns at most one entry, and
    whenever the confidence [find_template] reports for the silo picture
    is at or above [SILO_POPUP_THRESHOLD], a location is reported and
    that entry is [silo_popup], whatever the other confidences are.  The
    silo picture is taken to match properly: OpenCV reports no negative
    position, and the picture has at least two rows and two columns. *)
Theorem analyze_current_location_priority (screen : Image) :
  proper_silo_template template_manager screen ->
  let d := silo_detection template_manager screen in
  (size (analyze_current_location template_manager screen) <= 1)%nat /\
  ((BotConfig.SILO_POPUP_THRESHOLD <= det_conf d)%Q ->
   is_Some (det_x d) /\ is_Some (det_y d) /\
   analyze_current_location template_manager screen = {[ "silo_popup" := det_conf d ]}).
Proof.
  intros Hproper. cbv zeta.
  destruct (analyze_current_location_truthy_silo screen) as [Hsize Hsilo].
  split; [exact Hsize|]. intros Hconf.
  assert (truthy (det_x (silo_detection template_manager screen)) = true /\
          truthy (det_y (silo_detection template_manager screen)) = true) as [Hx Hy].
  { revert Hconf. unfold silo_detection, TemplateManager.find_template.
    specialize (Hproper). unfold proper_silo_template in Hproper.
    destruct (TemplateManager.templates template_manager !! "silo") as [template|].
    - destruct (Hproper template eq_refl) as [Hcolor Hgray].
      destruct (det_x (TemplateManager._match_template BotConfig.SILO_POPUP_THRESHOLD
                         screen template)) as [x|] eqn:Ex.
      + intros _. apply (_match_template_truthy _ _ _ Hcolor).
        apply Qgeb_true, _match_template_located. rewrite Ex. eauto.
      + apply (_match_template_truthy _ _ _ Hgray).
    - unfold det_conf. cbn [snd]. intros H. exfalso. revert H. apply Qlt_not_le.
      reflexivity. }
  split; [apply truthy_is_Some, Hx|]. split; [apply truthy_is_Some, Hy|].
  apply Hsilo; assumption.
Qed.

End LocationFacts.

(** C5, witness: the silo popup matches with 0.9, the main page marker
    with 0.95 and the close button with 0.8; the answer is [silo_popup]
    alone. *)
Lemma analyze_current_location_priority_witness :
  Location.analyze_current_location (cv := Toy.ToyCV) Toy.usual_templates Toy.silo_screen
  = {[ "silo_popup" := 9 # 10 ]}.
Proof.
  apply (analyze_current_location_priority (cv := Toy.ToyCV)
           Toy.usual_templates Toy.silo_screen).
  - intros template H. vm_compute in H. injection H as <-.
    split; vm_compute; repeat split; discriminate.
  - vm_compute. discriminate.
Defined.

(** Why the silo picture must have two columns: a picture that is one
    pixel wide and matches in the leftmost column is reported at x = 0.
    The confidence 0.9 is above the threshold 0.7 and a location is
    reported, yet the test [silo_x and silo_y] of the classifier fails. *)
Example analyze_current_location_zero_coordinate :
  let d := Location.silo_detection (cv := Toy.ToyCV) Toy.thin_silo_templates
             Toy.thin_silo_screen in
  (BotConfig.SILO_POPUP_THRESHOLD <= det_conf d)%Q /\
  det_x d = Some 0 /\ det_y d = Some 27 /\
  Location.analyze_current_location (cv := Toy.ToyCV) Toy.thin_silo_templates
    Toy.thin_silo_screen !! "silo_popup" = None.
Proof.
  cbv zeta. split; [vm_compute; discriminate|].
  split; [vm_compute; reflexivity|]. split; vm_compute; reflexivity.
Qed.

(** ** SoilDetector *)

Section SoilDetectorFacts.
Context {cv : OpenCV}.
Import SoilDetector.

(** C8, as amended: [detect_field] accepts the largest contour of the
    combined mask exactly when its area lies strictly between 1000 and
    half the frame area; it then returns the centroid and the contour.
    With no contour, or an area outside the open interval, it returns
    [(None, None, None)]. *)
Theorem detect_field_area_gate (self : t) (screen : Image) :
  match largest (findContours (combined_mask self screen)) with
  | None => detect_field self screen = (None, None, None)
  | Some c =>
      let area := contourArea c in
      ((min_area < area)%Q /\ (area < max_area screen)%Q ->
         detect_field self screen = (fst (get_centroid c), snd (get_centroid c), Some c)) /\
      (~ ((min_area < area)%Q /\ (area < max_area screen)%Q) ->
         detect_field self screen = (None, None, None))
  end.
Proof.
  unfold detect_field.
  destruct (largest (findContours (combined_mask self screen))) as [c|]; [|reflexivity].
  cbv zeta. split.
  - intros [Hlo Hhi]. apply Qltb_true in Hlo, Hhi. rewrite Hlo, Hhi. simpl.
    destruct (get_centroid c). reflexivity.
  - intros Hout.
    destruct (Qltb min_area (contourArea c)) eqn:Elo;
      destruct (Qltb (contourArea c) (max_area screen)) eqn:Ehi; simpl; try reflexivity.
    exfalso. apply Hout. split; apply Qltb_true; assumption.
Qed.

End SoilDetectorFacts.

(** C8, counterexample: one empty-field match of a 10 by 100 template
    gives a largest contour of area exactly 1000, inside the closed
    interval, and [detect_field] rejects it. *)
Lemma detect_field_rejects_min_area :
  exists c,
    SoilDetector.largest (cv := Toy.ToyCV)
      (findContours (OpenCV := Toy.ToyCV)
         (SoilDetector.combined_mask (cv := Toy.ToyCV) Toy.small_field_detector
            Toy.one_field_screen)) = Some c /\
    (SoilDetector.min_area <= contourArea (OpenCV := Toy.ToyCV) c)%Q /\
    (contourArea (OpenCV := Toy.ToyCV) c
       <= SoilDetector.max_area (cv := Toy.ToyCV) Toy.one_field_screen)%Q /\
    SoilDetector.detect_field (cv := Toy.ToyCV) Toy.small_field_detector Toy.one_field_screen
      = (None, None, None).
Proof.
  exists [(50, 60); (150, 70)].
  split; [vm_compute; reflexivity|]. split; [vm_compute; discriminate|].
  split; [vm_compute; discriminate|]. vm_compute. reflexivity.
Qed.

(** ** Rules for [sound] and [keeps] *)

Ltac unfold_monad := unfold mret, mbind, M_ret, M_bind in *.

Create HintDb sound discriminated.

Section Rules.
Context {cv : OpenCV}.
Context (R : World -> World -> Prop) `{!Frame R}.

Lemma sound_ret (s : bool) {A : Type} (a : A) : sound s R (mret a).
Proof.
  intros env w _. unfold_monad. simpl.
  split; [apply frame_refl|]. split; [discriminate|]. intros _ _. discriminate.
Qed.

Lemma sound_bind (s : bool) {A B : Type} (m : M A) (f : A -> M B) :
  sound s R m -> (forall a, sound s R (f a)) -> sound s R (m ≫= f).
Proof.
  intros Hm Hf env w He. unfold_monad.
  destruct (Hm env w He) as (HR & Ht & Hc).
  destruct (m env w) as [[a| |] w1]; simpl in *.
  - destruct (Hf a env w1 He) as (HR' & Ht' & Hc').
    split; [eapply frame_trans; eauto|]. split; [exact Ht'|exact Hc'].
  - split; [assumption|]. split; [discriminate|].
    intros Hs Hcalm. exfalso. apply (Hc Hs Hcalm). reflexivity.
  - congruence.
Qed.

Lemma sound_try_except (s : bool) {A : Type} (body handler : M A) :
  sound false R body -> sound s R handler -> sound s R (try_except body handler).
Proof.
  intros Hb Hh env w He. unfold try_except.
  destruct (Hb env w He) as (HR & Ht & _).
  destruct (body env w) as [[a| |] w1]; simpl in *.
  - split; [assumption|]. split; [discriminate|]. intros _ _. discriminate.
  - destruct (Hh env w1 He) as (HR' & Ht' & Hc').
    split; [eapply frame_trans; eauto|]. split; assumption.
  - congruence.
Qed.

Lemma sound_weaken (s : bool) {A : Type} (m : M A) : sound true R m -> sound s R m.
Proof.
  intros Hm env w He. destruct (Hm env w He) as (HR & Ht & Hc).
  split; [assumption|]. split; [assumption|]. intros _. apply Hc. reflexivity.
Qed.

Lemma sound_keeps {A : Type} (m : M A) : sound false R m -> keeps R m.
Proof. intros Hm env w He. apply (Hm env w He). Qed.

Lemma keeps_bind {A B : Type} (m : M A) (f : A -> M B) :
  keeps R m -> (forall a, keeps R (f a)) -> keeps R (m ≫= f).
Proof.
  intros Hm Hf env w He. unfold_monad.
  pose proof (Hm env w He) as HR.
  destruct (m env w) as [[a| |] w1]; simpl in *; try assumption.
  eapply frame_trans; [eassumption|]. apply (Hf a env w1 He).
Qed.

Lemma keeps_try_except {A : Type} (body handler : M A) :
  keeps R body -> keeps R handler -> keeps R (try_except body handler).
Proof.
  intros Hb Hh env w He. unfold try_except.
  pose proof (Hb env w He) as HR.
  destruct (body env w) as [[a| |] w1]; simpl in *; try assumption.
  eapply frame_trans; [eassumption|]. apply (Hh env w1 He).
Qed.

Lemma keeps_out_of_fuel {A : Type} : keeps R (out_of_fuel (A := A)).
Proof. intros env w _. apply frame_refl. Qed.

Lemma sound_raise {A : Type} : sound false R (raise (A := A)).
Proof.
  intros env w _. unfold raise. simpl.
  split; [apply frame_refl|]. split; [discriminate|]. intros [=].
Qed.

(** *** The primitive steps *)

Lemma sound_modify_world (s : bool) (f : World -> World) :
  (forall w, R w (f w)) -> sound s R (modify_world f).
Proof.
  intros Hf env w _. unfold modify_world. simpl.
  split; [apply Hf|]. split; [discriminate|]. intros _ _. discriminate.
Qed.

Lemma sound_get_world (s : bool) : sound s R get_world.
Proof.
  intros env w _. unfold get_world. simpl.
  split; [apply frame_refl|]. split; [discriminate|]. intros _ _. discriminate.
Qed.

Lemma sound_ask (s : bool) {A : Type} (f : Env -> nat -> A) : sound s R (ask f).
Proof.
  intros env w _. unfold ask. simpl.
  split; [apply frame_tick|]. split; [discriminate|]. intros _ _. discriminate.
Qed.

Lemma sound_emit (s : bool) (e : Event) :
  (forall before after, e <> EvBotState before after) -> sound s R (emit e).
Proof. intros He. apply sound_modify_world. intros w. apply frame_event, He. Qed.

Lemma sound_log_msg (s : bool) (m : LogMsg) : may_log m -> sound s R (log_msg m).
Proof. intros Hm. apply sound_modify_world. intros w. apply frame_log, Hm. Qed.

Lemma sound_write_bot_state (s : bool) (f : BotState -> BotState) :
  (forall b, may_write b (f b)) -> sound s R (write_bot_state f).
Proof. intros Hf. apply sound_modify_world. intros w. apply frame_write, Hf. Qed.

Lemma sound_stop_bot (s : bool) : sound s R stop_bot.
Proof.
  unfold stop_bot. apply sound_bind.
  - apply sound_modify_world. intros w. apply frame_stop_event.
  - intros _. apply sound_bind.
    + apply sound_write_bot_state. intros b. apply frame_gui_running.
    + intros _. apply sound_write_bot_state. intros b. apply frame_gui_path.
Qed.

Lemma sound_start_bot (s : bool) : sound s R start_bot.
Proof.
  unfold start_bot. apply sound_bind.
  - apply sound_write_bot_state. intros b. apply frame_gui_running.
  - intros _. apply sound_modify_world. intros w. apply frame_stop_event.
Qed.

Lemma sound_gui_sync (s : bool) : sound s R gui_sync.
Proof.
  unfold gui_sync. apply sound_bind; [apply sound_ask|].
  intros [| |]; [apply sound_ret|apply sound_stop_bot|apply sound_start_bot].
Qed.

Lemma sound_read_running (s : bool) : sound s R read_running.
Proof.
  unfold read_running. apply sound_bind; [apply sound_gui_sync|]. intros _.
  apply sound_bind; [apply sound_get_world|]. intros w. apply sound_ret.
Qed.

Lemma sound_is_set (s : bool) : sound s R is_set.
Proof.
  unfold is_set. apply sound_bind; [apply sound_gui_sync|]. intros _.
  apply sound_bind; [apply sound_get_world|]. intros w.
  apply sound_bind; [apply sound_emit; discriminate|]. intros _. apply sound_ret.
Qed.

Lemma sound_read_bot_state (s : bool) : sound s R read_bot_state.
Proof.
  unfold read_bot_state. apply sound_bind; [apply sound_get_world|].
  intros w. apply sound_ret.
Qed.

Lemma sound_read_detection_state (s : bool) : sound s R read_detection_state.
Proof.
  intros env w He. unfold read_detection_state, ask, modify_world, get_world.
  unfold_monad. simpl.
  destruct (env_detection env (clock w)) as [d|] eqn:E; simpl.
  - split; [|split; [discriminate|intros _ _; discriminate]].
    eapply frame_trans; [apply frame_tick|].
    apply (frame_detection d (with_tick w)). apply (He _ _ E).
  - split; [apply frame_tick|]. split; [discriminate|intros _ _; discriminate].
Qed.

Lemma sound_capture_screen (s : bool) : sound s R capture_screen.
Proof.
  intros env w He. unfold capture_screen, ask, raise. unfold_monad. simpl.
  destruct (env_capture env (clock w)) as [img|] eqn:E; simpl.
  - split; [apply frame_tick|]. split; [discriminate|intros _ _; discriminate].
  - split; [apply frame_tick|]. split; [discriminate|].
    intros _ [Hcap _]. destruct (Hcap (clock w)) as [img Himg]. congruence.
Qed.

Lemma sound_time_time (s : bool) : sound s R time_time.
Proof. apply sound_ask. Qed.

Lemma sound_time_sleep (s : bool) (seconds : Q) : sound s R (time_sleep seconds).
Proof. apply sound_emit. discriminate. Qed.

Lemma sound_pag_click (s : bool) (x y : option Z) : sound s R (pag_click x y).
Proof.
  intros env w He. unfold pag_click, ask, raise, emit, modify_world. unfold_monad. simpl.
  destruct (env_fault env (clock w)) eqn:E; simpl.
  - split; [apply frame_tick|]. split; [discriminate|].
    intros _ [_ Hfault]. rewrite Hfault in E. discriminate.
  - split; [|split; [discriminate|intros _ _; discriminate]].
    eapply frame_trans; [apply frame_tick|]. apply frame_event. discriminate.
Qed.

Lemma sound_pag_moveTo (s : bool) (x y : Z) (duration : Q) :
  sound s R (pag_moveTo x y duration).
Proof.
  intros env w He. unfold pag_moveTo, ask, raise, emit, modify_world. unfold_monad. simpl.
  destruct (env_fault env (clock w)) eqn:E; simpl.
  - split; [apply frame_tick|]. split; [discriminate|].
    intros _ [_ Hfault]. rewrite Hfault in E. discriminate.
  - split; [|split; [discriminate|intros _ _; discriminate]].
    eapply frame_trans; [apply frame_tick|]. apply frame_event. discriminate.
Qed.

Lemma sound_pag_mouseDown (s : bool) : sound s R pag_mouseDown.
Proof.
  intros env w He. unfold pag_mouseDown, ask, raise, emit, modify_world. unfold_monad. simpl.
  destruct (env_fault env (clock w)) eqn:E; simpl.
  - split; [apply frame_tick|]. split; [discriminate|].
    intros _ [_ Hfault]. rewrite Hfault in E. discriminate.
  - split; [|split; [discriminate|intros _ _; discriminate]].
    eapply frame_trans; [apply frame_tick|]. apply frame_event. discriminate.
Qed.

Lemma sound_pag_mouseUp (s : bool) : sound s R pag_mouseUp.
Proof.
  intros env w He. unfold pag_mouseUp, ask, raise, emit, modify_world. unfold_monad. simpl.
  destruct (env_fault env (clock w)) eqn:E; simpl.
  - split; [apply frame_tick|]. split; [discriminate|].
    intros _ [_ Hfault]. rewrite Hfault in E. discriminate.
  - split; [|split; [discriminate|intros _ _; discriminate]].
    eapply frame_trans; [apply frame_tick|]. apply frame_event. discriminate.
Qed.

End Rules.

Ltac sound_step :=
  match goal with
  | |- sound _ _ (mret _) => apply sound_ret
  | |- sound _ _ (_ ≫= _) => apply sound_bind; [|intros ?]
  | |- sound _ _ (try_except _ _) => apply sound_try_except
  | |- sound _ _ (match ?x with _ => _ end) => destruct x
  | |- keeps _ (_ ≫= _) => apply keeps_bind; [|intros ?]
  | |- keeps _ (try_except _ _) => apply keeps_try_except
  | |- keeps _ (match ?x with _ => _ end) => destruct x
  end.

Ltac sound_auto := repeat first [ solve [eauto 3 with sound] | sound_step ].


#[export] Hint Resolve sound_ret sound_get_world sound_ask sound_stop_bot
  sound_start_bot sound_gui_sync sound_read_running sound_is_set
  sound_read_bot_state sound_read_detection_state sound_capture_screen
  sound_time_time sound_time_sleep sound_pag_click sound_pag_moveTo
  sound_pag_mouseDown sound_pag_mouseUp sound_raise keeps_out_of_fuel : sound.
#[export] Hint Resolve sound_keeps | 10 : sound.

(** ** The sleep loop has enough fuel *)

Lemma inject_Z_S (n : nat) :
  (inject_Z (Z.of_nat (S n)) == inject_Z (Z.of_nat n) + 1)%Q.
Proof. rewrite Nat2Z.inj_succ. unfold Z.succ. rewrite inject_Z_plus. reflexivity. Qed.

Lemma inject_Z_of_nat_nonneg (n : nat) : (0 <= inject_Z (Z.of_nat n))%Q.
Proof. change 0%Q with (inject_Z 0). rewrite <- Zle_Qle. lia. Qed.

Lemma py_minQ_cases (a b : Q) :
  ((b < a)%Q /\ py_minQ a b = b) \/ ((a <= b)%Q /\ py_minQ a b = a).
Proof.
  unfold py_minQ. destruct (Qltb b a) eqn:E.
  - left. split; [apply Qltb_true, E|reflexivity].
  - right. split; [apply Qltb_false, E|reflexivity].
Qed.

Lemma sleep_fuel_enough (chunk_size total_time : Q) :
  (0 < chunk_size)%Q ->
  (total_time - 0 <=
   inject_Z (Z.of_nat (BotOperations.sleep_fuel chunk_size total_time)) * chunk_size)%Q.
Proof.
  intros Hc. unfold BotOperations.sleep_fuel.
  pose proof (Qle_ceiling (total_time / chunk_size)) as Hceil.
  destruct (Z_le_gt_dec 0 (Qceiling (total_time / chunk_size))) as [Hpos|Hneg].
  - rewrite Z2Nat.id by assumption.
    assert (total_time == total_time / chunk_size * chunk_size)%Q as Heq
      by (field; intros H0; rewrite H0 in Hc; apply (Qlt_irrefl _ Hc)).
    assert (total_time / chunk_size * chunk_size
            <= inject_Z (Qceiling (total_time / chunk_size)) * chunk_size)%Q as Hle
      by (apply Qmult_le_compat_r; [assumption|apply Qlt_le_weak, Hc]).
    lra.
  - assert (Z.to_nat (Qceiling (total_time / chunk_size)) = 0%nat) as -> by lia.
    assert (inject_Z (Qceiling (total_time / chunk_size)) <= 0)%Q as Hneg'
      by (change 0%Q with (inject_Z 0); rewrite <- Zle_Qle; lia).
    assert (total_time / chunk_size <= 0)%Q as Hq by lra.
    assert (total_time == total_time / chunk_size * chunk_size)%Q as Heq
      by (field; intros H0; rewrite H0 in Hc; apply (Qlt_irrefl _ Hc)).
    assert (total_time / chunk_size * chunk_size <= 0 * chunk_size)%Q as Hle
      by (apply Qmult_le_compat_r; [assumption|apply Qlt_le_weak, Hc]).
    change (inject_Z (Z.of_nat 0)) with 0%Q. lra.
Qed.

(** ** Soundness of the operations, for every frame *)

Section SoundOperations.
Context {cv : OpenCV}.
Context (R : World -> World -> Prop) `{!Frame R}.
Context (template_manager : TemplateManager.t).

Lemma sound_sleep_loop (s : bool) (chunk_size total_time : Q) (fuel : nat) :
  (0 < chunk_size)%Q ->
  forall elapsed,
    (total_time - elapsed <= inject_Z (Z.of_nat fuel) * chunk_size)%Q ->
    sound s R (BotOperations.sleep_loop chunk_size total_time fuel elapsed).
Proof.
  intros Hc. induction fuel as [|fuel IH]; intros elapsed Hfuel.
  - simpl. destruct (Qltb elapsed total_time) eqn:E; [|apply sound_ret].
    apply Qltb_true in E. change (inject_Z (Z.of_nat 0)) with 0%Q in Hfuel.
    exfalso. lra.
  - simpl. destruct (Qltb elapsed total_time) eqn:E; [|apply sound_ret].
    apply Qltb_true in E.
    apply sound_bind; [apply sound_is_set|]. intros [|]; [apply sound_ret|].
    apply sound_bind; [apply sound_time_sleep|]. intros _.
    apply IH. rewrite inject_Z_S in Hfuel.
    pose proof (inject_Z_of_nat_nonneg fuel) as Hn.
    assert (0 <= inject_Z (Z.of_nat fuel) * chunk_size)%Q as Hprod
      by (apply Qmult_le_0_compat; [assumption|apply Qlt_le_weak, Hc]).
    destruct (py_minQ_cases chunk_size (total_time - elapsed)) as [[Hlt ->]|[Hle ->]]; lra.
Qed.

Lemma sound_chunked_sleep (s : bool) (chunk_size total_time : Q) :
  (0 < chunk_size)%Q -> sound s R (BotOperations.chunked_sleep chunk_size total_time).
Proof.
  intros Hc. unfold BotOperations.chunked_sleep.
  apply sound_bind; [|intros _; apply sound_is_set].
  apply sound_sleep_loop; [assumption|]. apply sleep_fuel_enough, Hc.
Qed.

Lemma sound_interruptible_sleep (s : bool) (total_time : Q) :
  sound s R (BotOperations.interruptible_sleep total_time).
Proof. apply sound_chunked_sleep. reflexivity. Qed.

Lemma sound__interruptible_sleep (s : bool) (total_time : Q) :
  sound s R (DetectionManager._interruptible_sleep total_time).
Proof. apply sound_chunked_sleep. reflexivity. Qed.

Hint Resolve sound_interruptible_sleep : sound.

Lemma sound_not_running_or_stopped (s : bool) :
  sound s R BotOperations.not_running_or_stopped.
Proof. unfold BotOperations.not_running_or_stopped. sound_auto. Qed.
Hint Resolve sound_not_running_or_stopped : sound.

Lemma sound_safe_click (s : bool) (x y : option Z) :
  sound s R (BotOperations.safe_click x y).
Proof. unfold BotOperations.safe_click. sound_auto. Qed.
Hint Resolve sound_safe_click : sound.

Lemma sound_safe_move (s : bool) (x y : Z) (duration : Q) :
  sound s R (BotOperations.safe_move x y duration).
Proof. unfold BotOperations.safe_move. sound_auto. Qed.
Hint Resolve sound_safe_move : sound.

Lemma sound_follow_path (s : bool) (path : list Point) :
  sound s R (BotOperations.follow_path path).
Proof. induction path as [|[x y] rest IH]; simpl; sound_auto. Qed.
Hint Resolve sound_follow_path : sound.

Lemma sound_create_linear_path cx cy contour path_type :
  sound false R (BotOperations.create_linear_path cx cy contour path_type).
Proof. unfold BotOperations.create_linear_path. sound_auto. Qed.
Hint Resolve sound_create_linear_path : sound.

(** *** Market and controller steps that write no flag of their own *)

Lemma sound_close_silo_with_template (s : bool) screen :
  sound s R (MarketOperations.close_silo_with_template template_manager screen).
Proof. unfold MarketOperations.close_silo_with_template. sound_auto. Qed.
Hint Resolve sound_close_silo_with_template : sound.

Lemma sound_market_check_and_dismiss (s : bool) screen :
  sound s R (MarketOperations._check_and_dismiss_loading_screen_with_click
               template_manager screen).
Proof. unfold MarketOperations._check_and_dismiss_loading_screen_with_click. sound_auto. Qed.
Hint Resolve sound_market_check_and_dismiss : sound.

Lemma sound_wait_for_market (s : bool) attempts :
  sound s R (MarketOperations.wait_for_market template_manager attempts).
Proof. induction attempts as [|attempts IH]; simpl; sound_auto. Qed.
Hint Resolve sound_wait_for_market : sound.

Lemma sound_go_to_market_template (s : bool) screen :
  sound s R (MarketOperations.go_to_market_template template_manager screen).
Proof. unfold MarketOperations.go_to_market_template. sound_auto. Qed.
Hint Resolve sound_go_to_market_template : sound.

Lemma sound_collect_rounds (s : bool) attempts total :
  sound s R (MarketOperations.collect_rounds template_manager attempts total).
Proof. revert total. induction attempts as [|attempts IH]; intros total; simpl; sound_auto. Qed.
Hint Resolve sound_collect_rounds : sound.

Lemma sound_collect_sold_items_template (s : bool) :
  sound s R (MarketOperations.collect_sold_items_template template_manager).
Proof. unfold MarketOperations.collect_sold_items_template. sound_auto. Qed.
Hint Resolve sound_collect_sold_items_template : sound.

Lemma sound_maximize_loop (s : bool) dn an dt at_ polls :
  sound s R (MarketOperations.maximize_loop template_manager dn an dt at_ polls).
Proof. induction polls as [|polls IH]; simpl; sound_auto. Qed.
Hint Resolve sound_maximize_loop : sound.

Lemma sound_close_market_template (s : bool) screen :
  sound s R (MarketOperations.close_market_template template_manager screen).
Proof. unfold MarketOperations.close_market_template. sound_auto. Qed.
Hint Resolve sound_close_market_template : sound.

Lemma sound_create_advertisement_workflow (s : bool) screen :
  sound s R (MarketOperations.create_advertisement_workflow template_manager screen).
Proof. unfold MarketOperations.create_advertisement_workflow. sound_auto. Qed.
Hint Resolve sound_create_advertisement_workflow : sound.

Lemma sound_check_and_create_advertisement (s : bool) screen :
  sound s R (MarketOperations.check_and_create_advertisement template_manager screen).
Proof. unfold MarketOperations.check_and_create_advertisement. sound_auto. Qed.
Hint Resolve sound_check_and_create_advertisement : sound.

Lemma sound_controller_check_and_dismiss (s : bool) screen :
  sound s R (BotController._check_and_dismiss_loading_screen_with_click
               template_manager screen).
Proof. unfold BotController._check_and_dismiss_loading_screen_with_click. sound_auto. Qed.
Hint Resolve sound_controller_check_and_dismiss : sound.

Lemma sound__get_screen_with_loading_check (s : bool) :
  sound s R (BotController._get_screen_with_loading_check template_manager).
Proof. unfold BotController._get_screen_with_loading_check. sound_auto. Qed.
Hint Resolve sound__get_screen_with_loading_check : sound.

Lemma sound_click_close (s : bool) screen :
  sound s R (BotController.click_close template_manager screen).
Proof. unfold BotController.click_close. sound_auto. Qed.
Hint Resolve sound_click_close : sound.

Lemma sound_smart_return_attempt (s : bool) :
  sound s R (BotController.smart_return_attempt template_manager).
Proof. unfold BotController.smart_return_attempt. sound_auto. Qed.
Hint Resolve sound_smart_return_attempt : sound.

Lemma sound_smart_return_loop (s : bool) attempts :
  sound s R (BotController.smart_return_loop template_manager attempts).
Proof. induction attempts as [|attempts IH]; simpl; sound_auto. Qed.
Hint Resolve sound_smart_return_loop : sound.

Lemma sound__smart_return_to_main (s : bool) :
  sound s R (BotController._smart_return_to_main template_manager).
Proof. apply sound_smart_return_loop. Qed.
Hint Resolve sound__smart_return_to_main : sound.

Lemma sound_ensure_main_loop (s : bool) attempts :
  sound s R (BotController.ensure_main_loop template_manager attempts).
Proof. induction attempts as [|attempts IH]; simpl; sound_auto. Qed.
Hint Resolve sound_ensure_main_loop : sound.

Lemma sound__ensure_on_main_page (s : bool) :
  sound s R (BotController._ensure_on_main_page template_manager).
Proof. apply sound_ensure_main_loop. Qed.
Hint Resolve sound__ensure_on_main_page : sound.

Lemma sound__check_and_handle_unknown_popups (s : bool) screen :
  sound s R (BotController._check_and_handle_unknown_popups template_manager screen).
Proof. unfold BotController._check_and_handle_unknown_popups. sound_auto. Qed.
Hint Resolve sound__check_and_handle_unknown_popups : sound.

Lemma sound_sleep_then_continue (s : bool) total_time :
  sound s R (BotController.sleep_then_continue total_time).
Proof. unfold BotController.sleep_then_continue. sound_auto. Qed.
Hint Resolve sound_sleep_then_continue : sound.

Lemma sound_check_fields_need_planting_cv (s : bool) :
  (forall m, may_log m) -> sound s R BotOperations.check_fields_need_planting_cv.
Proof.
  intros Hlog. unfold BotOperations.check_fields_need_planting_cv.
  sound_auto; apply sound_log_msg, Hlog.
Qed.

(** *** Planting and harvesting: the frame must allow the path lock *)

Section WithPathLock.
Hypothesis may_lock_path :
  forall x b, may_write b (set_path_execution_active x b).

Lemma sound_lock_path (s : bool) x :
  sound s R (write_bot_state (set_path_execution_active x)).
Proof. apply sound_write_bot_state. intros b. apply may_lock_path. Qed.
Hint Resolve sound_lock_path : sound.

Lemma sound_drag_handler (s : bool) : sound s R BotOperations.drag_handler.
Proof. unfold BotOperations.drag_handler. sound_auto. Qed.
Hint Resolve sound_drag_handler : sound.

Lemma sound_plant_wheat_drag cx cy contour_arg :
  sound false R (BotOperations.plant_wheat_drag cx cy contour_arg).
Proof. unfold BotOperations.plant_wheat_drag. sound_auto. Qed.
Hint Resolve sound_plant_wheat_drag : sound.

Lemma sound_plant_wheat (s : bool) cx cy contour_arg :
  sound s R (BotOperations.plant_wheat cx cy contour_arg).
Proof. unfold BotOperations.plant_wheat. sound_auto. Qed.
Hint Resolve sound_plant_wheat : sound.

Lemma sound_harvest_wheat_drag cx cy contour_arg :
  sound false R (BotOperations.harvest_wheat_drag cx cy contour_arg).
Proof. unfold BotOperations.harvest_wheat_drag. sound_auto. Qed.
Hint Resolve sound_harvest_wheat_drag : sound.

Lemma sound_harvest_wheat (s : bool) cx cy contour_arg :
  sound s R (BotOperations.harvest_wheat cx cy contour_arg).
Proof. unfold BotOperations.harvest_wheat. sound_auto. Qed.
Hint Resolve sound_harvest_wheat : sound.

(** *** The rest: the frame must also allow posting wheat, the check of
    the coverage and the attempt lines of the planting procedure *)

Section WithMarket.
Hypothesis may_post_wheat :
  forall b, may_write b (set_wheat_sold_this_session true b).
Hypothesis sound_check :
  forall s, sound s R BotOperations.check_fields_need_planting_cv.
Hypothesis may_log_attempt :
  forall attempt max_attempts, may_log (LogPlantingAttempt attempt max_attempts).

Lemma sound_log_attempt (s : bool) attempt max_attempts :
  sound s R (log_msg (LogPlantingAttempt attempt max_attempts)).
Proof. apply sound_log_msg, may_log_attempt. Qed.
Hint Resolve sound_log_attempt sound_check : sound.

Lemma sound_post_wheat (s : bool) :
  sound s R (write_bot_state (set_wheat_sold_this_session true)).
Proof. apply sound_write_bot_state, may_post_wheat. Qed.
Hint Resolve sound_post_wheat : sound.

Lemma sound_create_wheat_advertisement_template (s : bool) x y :
  sound s R (MarketOperations.create_wheat_advertisement_template template_manager x y).
Proof.
  unfold MarketOperations.create_wheat_advertisement_template,
    MarketOperations.maximize_quantity_step, MarketOperations.maximize_price_step.
  sound_auto.
Qed.
Hint Resolve sound_create_wheat_advertisement_template : sound.

Lemma sound_fill_slots (s : bool) attempts filled :
  sound s R (MarketOperations.fill_slots template_manager attempts filled).
Proof. revert filled. induction attempts as [|attempts IH]; intros filled; simpl; sound_auto. Qed.
Hint Resolve sound_fill_slots : sound.

Lemma sound_fill_market_with_wheat_template (s : bool) :
  sound s R (MarketOperations.fill_market_with_wheat_template template_manager).
Proof. unfold MarketOperations.fill_market_with_wheat_template. sound_auto. Qed.
Hint Resolve sound_fill_market_with_wheat_template : sound.

Lemma sound_handle_market_workflow_template (s : bool) :
  sound s R (MarketOperations.handle_market_workflow_template template_manager).
Proof. unfold MarketOperations.handle_market_workflow_template. sound_auto. Qed.
Hint Resolve sound_handle_market_workflow_template : sound.

Lemma sound__handle_market_workflow (s : bool) :
  sound s R (BotController._handle_market_workflow template_manager).
Proof. unfold BotController._handle_market_workflow. sound_auto. Qed.
Hint Resolve sound__handle_market_workflow : sound.

Lemma sound_planting_attempt (s : bool) attempt max_attempts :
  sound s R (BotController.planting_attempt template_manager attempt max_attempts).
Proof. unfold BotController.planting_attempt. sound_auto. Qed.
Hint Resolve sound_planting_attempt : sound.

Lemma sound_planting_loop (s : bool) max_attempts remaining :
  sound s R (BotController.planting_loop template_manager max_attempts remaining).
Proof. induction remaining as [|remaining IH]; simpl; sound_auto. Qed.
Hint Resolve sound_planting_loop : sound.

Lemma sound__comprehensive_field_planting (s : bool) max_attempts :
  sound s R (BotController._comprehensive_field_planting template_manager max_attempts).
Proof. unfold BotController._comprehensive_field_planting. sound_auto. Qed.
Hint Resolve sound__comprehensive_field_planting : sound.

Lemma sound_growth_market_check :
  sound false R (BotController.growth_market_check template_manager).
Proof. unfold BotController.growth_market_check. sound_auto. Qed.
Hint Resolve sound_growth_market_check : sound.

Lemma keeps_simple_wait_loop fuel start_time total :
  keeps R (BotController.simple_wait_loop fuel start_time total).
Proof. induction fuel as [|fuel IH]; simpl; sound_auto. Qed.
Hint Resolve keeps_simple_wait_loop : sound.

Lemma keeps_growth_wait_loop fuel start_time total last :
  keeps R (BotController.growth_wait_loop template_manager fuel start_time total last).
Proof. revert last. induction fuel as [|fuel IH]; intros last; simpl; sound_auto. Qed.
Hint Resolve keeps_growth_wait_loop : sound.

Lemma keeps__smart_wait_with_market_management fuel total :
  keeps R (BotController._smart_wait_with_market_management template_manager fuel total).
Proof. unfold BotController._smart_wait_with_market_management. sound_auto. Qed.
Hint Resolve keeps__smart_wait_with_market_management : sound.

Lemma keeps_collect_step : keeps R (BotController.collect_step template_manager).
Proof. unfold BotController.collect_step. sound_auto. Qed.
Hint Resolve keeps_collect_step : sound.

Lemma keeps_harvest_step : keeps R (BotController.harvest_step template_manager).
Proof. unfold BotController.harvest_step. sound_auto. Qed.
Hint Resolve keeps_harvest_step : sound.

Lemma keeps_planting_step fuel : keeps R (BotController.planting_step template_manager fuel).
Proof. unfold BotController.planting_step. sound_auto. Qed.

End WithMarket.
End WithPathLock.
End SoundOperations.

#[export] Hint Resolve sound_interruptible_sleep sound_not_running_or_stopped
  sound_safe_click sound_safe_move sound_follow_path sound_create_linear_path
  sound_close_silo_with_template sound_market_check_and_dismiss
  sound_go_to_market_template sound_collect_sold_items_template
  sound_close_market_template sound_check_and_create_advertisement
  sound_controller_check_and_dismiss sound__get_screen_with_loading_check
  sound_click_close sound__smart_return_to_main sound__ensure_on_main_page
  sound__check_and_handle_unknown_popups sound_sleep_then_continue : sound.

(** ** Running the steps one at a time *)

Section Run.
Context {cv : OpenCV}.

Lemma run_bind {A B : Type} (m : M A) (f : A -> M B) env w :
  (m ≫= f) env w =
  match m env w with
  | (Return a, w') => f a env w'
  | (Raise, w') => (Raise, w')
  | (OutOfFuel, w') => (OutOfFuel, w')
  end.
Proof. reflexivity. Qed.

Lemma run_ret {A : Type} (a : A) env w : (mret a : M A) env w = (Return a, w).
Proof. reflexivity. Qed.

Lemma run_try_except {A : Type} (body handler : M A) env w :
  try_except body handler env w =
  match body env w with
  | (Raise, w') => handler env w'
  | r => r
  end.
Proof. reflexivity. Qed.

Lemma run_write_bot_state f env w :
  write_bot_state f env w = (Return tt, with_bot_state (f (bot_state w)) w).
Proof. reflexivity. Qed.

Lemma run_log_msg m env w : log_msg m env w = (Return tt, with_log m w).
Proof. reflexivity. Qed.

Lemma run_emit e env w : emit e env w = (Return tt, with_event e w).
Proof. reflexivity. Qed.

Lemma run_time_sleep seconds env w :
  time_sleep seconds env w = (Return tt, with_event (EvSleep seconds) w).
Proof. reflexivity. Qed.

Lemma run_pag_mouseUp env w :
  pag_mouseUp env w =
  if env_fault env (clock w) then (Raise, with_tick w)
  else (Return tt, with_event EvMouseUp (with_tick w)).
Proof.
  unfold pag_mouseUp, ask. rewrite run_bind. cbv beta iota.
  destruct (env_fault env (clock w)); reflexivity.
Qed.

Lemma run_read_bot_state env w : read_bot_state env w = (Return (bot_state w), w).
Proof. reflexivity. Qed.

Lemma run_get_world env w : get_world env w = (Return w, w).
Proof. reflexivity. Qed.

Lemma run_modify_world f env w : modify_world f env w = (Return tt, f w).
Proof. reflexivity. Qed.

(** Sequencing is associative. *)
Lemma bind_assoc {A B C : Type} (m : M A) (f : A -> M B) (g : B -> M C) env w :
  ((m ≫= f) ≫= g) env w = (m ≫= (fun a => f a ≫= g)) env w.
Proof.
  rewrite !run_bind. destruct (m env w) as [[a| |] w']; reflexivity.
Qed.

End Run.

Ltac run_simpl :=
  repeat first
    [ rewrite run_bind | rewrite run_ret | rewrite run_write_bot_state
    | rewrite run_log_msg | rewrite run_read_bot_state | rewrite run_get_world
    | rewrite run_modify_world | rewrite run_time_sleep
    | rewrite run_emit | progress cbv beta iota ].

(** ** The silo rule is a frame *)

Section SiloRule.
Context {cv : OpenCV}.

Lemma linked_app start new1 middle new2 finish :
  linked start new1 middle -> linked middle new2 finish ->
  linked start (new2 ++ new1) finish.
Proof.
  intros H1. revert finish. induction new2 as [|e new2 IH]; intros finish H2.
  - simpl in *. subst. assumption.
  - destruct e; simpl in *; try (apply IH; assumption).
    destruct H2 as [-> H2]. split; [reflexivity|]. apply IH. assumption.
Qed.

Lemma silo_rule_refl w : silo_rule w w.
Proof. exists []. simpl. split; [reflexivity|]. split; [constructor|reflexivity]. Qed.

Lemma silo_rule_trans w1 w2 w3 : silo_rule w1 w2 -> silo_rule w2 w3 -> silo_rule w1 w3.
Proof.
  intros (n1 & E1 & F1 & L1) (n2 & E2 & F2 & L2).
  exists (n2 ++ n1). split; [rewrite E2, E1, app_assoc; reflexivity|].
  split; [apply Forall_app; split; assumption|].
  eapply linked_app; eassumption.
Qed.

Lemma silo_rule_same_events w w' :
  events w' = events w -> bot_state w' = bot_state w -> silo_rule w w'.
Proof.
  intros He Hb. exists []. simpl. split; [assumption|].
  split; [constructor|]. symmetry. assumption.
Qed.

Lemma silo_rule_event e w :
  (forall before after, e <> EvBotState before after) -> silo_rule w (with_event e w).
Proof.
  intros He. exists [e]. simpl. split; [reflexivity|]. split.
  - constructor; [|constructor]. destruct e; simpl; try exact I.
    exfalso. eapply He. reflexivity.
  - destruct e; try reflexivity. exfalso. eapply He. reflexivity.
Qed.

Lemma silo_rule_write b w : ok_write (bot_state w) b -> silo_rule w (with_bot_state b w).
Proof.
  intros Hok. exists [EvBotState (bot_state w) b]. simpl.
  split; [reflexivity|]. split; [constructor; [exact Hok|constructor]|].
  split; reflexivity.
Qed.

#[export] Instance silo_rule_frame : Frame silo_rule := {|
  may_write := ok_write;
  may_log := fun _ => True;
  may_detect := fun _ => True;
  frame_refl := silo_rule_refl;
  frame_trans := silo_rule_trans;
  frame_tick := fun w => silo_rule_same_events w (with_tick w) eq_refl eq_refl;
  frame_stop_event := fun b w => silo_rule_same_events w (with_stop_event b w) eq_refl eq_refl;
  frame_event := silo_rule_event;
  frame_detection := fun d w _ =>
    silo_rule_same_events w (with_detection_state d w) eq_refl eq_refl;
  frame_write := silo_rule_write;
  frame_log := fun m w _ => silo_rule_same_events w (with_log m w) eq_refl eq_refl;
  frame_gui_running := fun x b (H1 : silo_is_full b = true)
    (H2 : silo_is_full (set_running x b) = false) =>
    False_ind _ (eq_true_false_abs _ H1 H2);
  frame_gui_path := fun b (H1 : silo_is_full b = true)
    (H2 : silo_is_full (set_path_execution_active false b) = false) =>
    False_ind _ (eq_true_false_abs _ H1 H2)
|}.

Lemma obeys_silo_rule env : obeys silo_rule env.
Proof. intros t d _. exact I. Qed.

(** Writes that leave [silo_is_full] alone, or switch it on, respect the
    rule. *)
Lemma ok_write_path x b : ok_write b (set_path_execution_active x b).
Proof. intros H1 H2. simpl in H2. congruence. Qed.

Lemma ok_write_sold x b : ok_write b (set_wheat_sold_this_session x b).
Proof. intros H1 H2. simpl in H2. congruence. Qed.

Lemma ok_write_silo_on b : ok_write b (set_silo_is_full true b).
Proof. intros H1 H2. simpl in H2. discriminate. Qed.

End SiloRule.

(** ** C1: the silo rule along the main loop *)

Section SiloRuleLoop.
Context {cv : OpenCV}.
Context (template_manager : TemplateManager.t).

Lemma silo_sound__handle_market_workflow (s : bool) :
  sound s silo_rule (BotController._handle_market_workflow template_manager).
Proof.
  apply sound__handle_market_workflow. intros b. apply (ok_write_sold true).
Qed.

Lemma silo_keeps_planting_step fuel :
  keeps silo_rule (BotController.planting_step template_manager fuel).
Proof.
  apply keeps_planting_step.
  - intros x b. apply ok_write_path.
  - intros b. apply (ok_write_sold true).
  - intros s. apply sound_check_fields_need_planting_cv. intros m. exact I.
  - intros attempt max_attempts. exact I.
Qed.

Lemma silo_sound_silo_on (s : bool) :
  sound s silo_rule (write_bot_state (set_silo_is_full true)).
Proof. apply sound_write_bot_state. intros b. apply ok_write_silo_on. Qed.

Lemma silo_sound_sold (s x : bool) :
  sound s silo_rule (write_bot_state (set_wheat_sold_this_session x)).
Proof. apply sound_write_bot_state. intros b. apply ok_write_sold. Qed.

Lemma silo_sound_log (s : bool) m : sound s silo_rule (log_msg m).
Proof. apply sound_log_msg. exact I. Qed.

Lemma silo_sound_store_detection (s : bool) d :
  sound s silo_rule (modify_world (with_detection_state d)).
Proof. apply sound_modify_world. intros w. apply silo_rule_same_events; reflexivity. Qed.

Hint Resolve silo_sound__handle_market_workflow silo_keeps_planting_step
  silo_sound_silo_on silo_sound_sold silo_sound_log silo_sound_store_detection : sound.

(** The guarded clearing after a market visit (bot_controller.py, lines
    158 to 164): the flag is cleared only when the state read just before
    says that wheat was posted. *)
Lemma silo_sound_guarded_clear (s : bool) :
  sound s silo_rule
    (b ← read_bot_state;
     if wheat_sold_this_session b then
       write_bot_state (set_silo_is_full false) ;;
       write_bot_state (set_wheat_sold_this_session false) ;;
       log_msg LogSiloStateCleared
     else log_msg LogKeepingSiloFull).
Proof.
  intros env w _. run_simpl.
  destruct (wheat_sold_this_session (bot_state w)) eqn:Esold; run_simpl.
  - split; [|split; [discriminate|intros _ _; discriminate]]. cbn [snd].
    eapply silo_rule_trans; [apply silo_rule_write|].
    { intros _ _. exact Esold. }
    eapply silo_rule_trans; [apply silo_rule_write, ok_write_sold|].
    apply silo_rule_same_events; reflexivity.
  - split; [|split; [discriminate|intros _ _; discriminate]]. cbn [snd].
    apply silo_rule_same_events; reflexivity.
Qed.
Hint Resolve silo_sound_guarded_clear : sound.

(** What is left of [silo_step] once the state has been read: the part
    that may close the popup, and the three-way branch on the snapshot. *)
Lemma silo_keeps_after_snapshot screen (detected persistent wheat_sold : bool) env w :
  (wheat_sold = true -> detected = false /\ wheat_sold_this_session (bot_state w) = true) ->
  silo_rule w
    (snd ((early ←
             (if detected then
                closed ← MarketOperations.close_silo_with_template template_manager screen;
                if closed : bool then
                  w ← get_world;
                  modify_world (with_detection_state (clear_storage (detection_state w))) ;;
                  mret None
                else
                  ctl ← BotController.sleep_then_continue 5;
                  mret (Some ctl)
              else mret None);
           match early with
           | Some ctl => mret (Some ctl)
           | None =>
               if persistent && negb wheat_sold then
                 screen ← capture_screen;
                 dismissed ← BotController._check_and_dismiss_loading_screen_with_click
                               template_manager screen;
                 (if dismissed : bool then capture_screen ;; mret tt else mret tt) ;;
                 ok ← BotController._handle_market_workflow template_manager;
                 (if ok : bool then
                    b ← read_bot_state;
                    if wheat_sold_this_session b then
                      write_bot_state (set_silo_is_full false) ;;
                      write_bot_state (set_wheat_sold_this_session false) ;;
                      log_msg LogSiloStateCleared
                    else log_msg LogKeepingSiloFull
                  else log_msg LogKeepingSiloFull) ;;
                 BotController._smart_return_to_main template_manager ;;
                 mret (Some Continue)
               else if persistent && wheat_sold then
                 write_bot_state (set_silo_is_full false) ;;
                 write_bot_state (set_wheat_sold_this_session false) ;;
                 mret None
               else mret None
           end) env w)).
Proof.
  intros Hsold. destruct wheat_sold.
  - destruct (Hsold eq_refl) as [-> Esold].
    rewrite andb_false_r. run_simpl. destruct persistent; run_simpl; cbn [snd].
    + eapply silo_rule_trans; [apply silo_rule_write|].
      { intros _ _. exact Esold. }
      apply silo_rule_write, ok_write_sold.
    + apply silo_rule_refl.
  - rewrite andb_false_r.
    match goal with
    | |- silo_rule _ (snd (?m env w)) =>
        assert (keeps silo_rule m) as Hk; [|apply (Hk env w (obeys_silo_rule env))]
    end.
    sound_auto.
Qed.

Lemma silo_keeps_silo_step screen :
  keeps silo_rule (BotController.silo_step template_manager screen).
Proof.
  intros env w _. unfold BotController.silo_step, MarketOperations.check_silo_full_template.
  destruct (MarketOperations.find_template template_manager screen "silo" _)
    as [[silo_x silo_y] confidence].
  destruct (truthy silo_x && truthy silo_y).
  - rewrite bind_assoc. rewrite (run_bind (log_msg _)), run_log_msg. cbv beta iota.
    rewrite bind_assoc. rewrite (run_bind (write_bot_state _)), run_write_bot_state.
    cbv beta iota.
    rewrite bind_assoc. rewrite (run_bind (write_bot_state _)), run_write_bot_state.
    cbv beta iota.
    rewrite (run_bind (mret true)), run_ret. cbv beta iota.
    rewrite (run_bind read_bot_state), run_read_bot_state. cbv beta iota.
    eapply silo_rule_trans; [|apply (silo_keeps_after_snapshot screen true)].
    + eapply silo_rule_trans;
        [apply (silo_rule_same_events w (with_log LogSiloFullDetected w)); reflexivity|].
      eapply silo_rule_trans; [apply silo_rule_write, ok_write_silo_on|].
      apply silo_rule_write, ok_write_sold.
    + simpl. discriminate.
  - rewrite (run_bind (mret false)), run_ret. cbv beta iota.
    rewrite (run_bind read_bot_state), run_read_bot_state. cbv beta iota.
    apply (silo_keeps_after_snapshot screen false). intros H. split; [reflexivity|exact H].
Qed.
Hint Resolve silo_keeps_silo_step : sound.

Lemma silo_keeps_bot_cycle fuel :
  keeps silo_rule (BotController.bot_cycle template_manager fuel).
Proof. unfold BotController.bot_cycle. sound_auto. Qed.
Hint Resolve silo_keeps_bot_cycle : sound.

Lemma silo_keeps_cycles wait_fuel fuel :
  keeps silo_rule (BotController.cycles template_manager wait_fuel fuel).
Proof. induction fuel as [|fuel IH]; simpl; sound_auto. Qed.
Hint Resolve silo_keeps_cycles : sound.

Lemma silo_keeps_bot_loop wait_fuel fuel :
  keeps silo_rule (BotController.bot_loop template_manager wait_fuel fuel).
Proof. unfold BotController.bot_loop. sound_auto. Qed.

(** C1: in every run of [bot_loop], with any number of cycles, against
    any GUI activity, detection results and failures, the events the run
    adds record every change of [bot_state], and each of them either
    leaves [silo_is_full] as it is, sets it, or clears it in a state where
    [wheat_sold_this_session] is true. *)
Theorem bot_loop_silo_rule (wait_fuel fuel : nat) (env : Env) (w : World) :
  let w' := snd (BotController.bot_loop template_manager wait_fuel fuel env w) in
  exists new,
    events w' = new ++ events w /\
    Forall ok_event new /\
    linked (bot_state w) new (bot_state w').
Proof. apply (silo_keeps_bot_loop wait_fuel fuel env w (obeys_silo_rule env)). Qed.

End SiloRuleLoop.

(** ** C10: what the silo check does to the state *)

Section SiloCheck.
Context {cv : OpenCV}.
Context (template_manager : TemplateManager.t).

(** C10: when the silo template is found with truthy coordinates (its
    confidence is then at or above [SILO_POPUP_THRESHOLD]),
    [check_silo_full_template] returns true, sets [silo_is_full] and
    resets [wheat_sold_this_session], whatever it was, leaving the other
    fields alone; otherwise it returns false and changes nothing. *)
Theorem check_silo_full_template_effect (screen : Image) (env : Env) (w : World) :
  let d := MarketOperations.find_template template_manager screen "silo"
             BotConfig.SILO_POPUP_THRESHOLD in
  let r := MarketOperations.check_silo_full_template template_manager screen env w in
  if MarketOperations.found d then
    (BotConfig.SILO_POPUP_THRESHOLD <= det_conf d)%Q /\
    fst r = Return true /\
    bot_state (snd r) =
      {| running := running (bot_state w);
         detection_active := detection_active (bot_state w);
         path_execution_active := path_execution_active (bot_state w);
         silo_is_full := true;
         wheat_sold_this_session := false |}
  else r = (Return false, w).
Proof.
  cbv zeta. unfold MarketOperations.check_silo_full_template, MarketOperations.found.
  pose proof (find_template_located template_manager screen "silo"
                BotConfig.SILO_POPUP_THRESHOLD) as Hloc.
  unfold MarketOperations.find_template.
  destruct (TemplateManager.find_template template_manager screen "silo" _)
    as [[silo_x silo_y] confidence].
  unfold det_x, det_y, det_conf in *. simpl in *.
  destruct (truthy silo_x) eqn:Ex; [|reflexivity].
  destruct (truthy silo_y) eqn:Ey; [|reflexivity].
  simpl. split; [|split; reflexivity].
  apply Qgeb_true, Hloc, truthy_is_Some, Ex.
Qed.

End SiloCheck.

(** ** C7: sleeping in chunks *)

Section Chunks.
Context {cv : OpenCV}.

Lemma chunked_app limit (a b : list Event) :
  chunked limit a -> chunked limit b -> chunked limit (a ++ b).
Proof.
  intros Ha Hb. induction a as [|e a IH]; [exact Hb|].
  destruct e; simpl in *; try (apply IH; assumption).
  destruct Ha as (Hle & [rest' ->] & Ha).
  split; [assumption|]. split; [eexists; reflexivity|]. apply IH. assumption.
Qed.

(** What a look at the stop signal adds to the events: the writes of a
    GUI action, if there was one, and the look itself. *)
Lemma is_set_events limit env w :
  exists g w',
    is_set env w = (Return (stop_event w'), w') /\
    events w' = EvStopCheck (stop_event w') :: g ++ events w /\
    chunked limit g.
Proof.
  unfold is_set, gui_sync, ask. rewrite !run_bind. cbv beta iota.
  destruct (env_gui env (clock w)).
  - exists [], (with_event (EvStopCheck (stop_event w)) (with_tick w)).
    repeat split; reflexivity.
  - unfold stop_bot. run_simpl. eexists [_; _].
    match goal with |- context [(Return _, ?W)] => exists W end.
    split; [reflexivity|]. split; [reflexivity|]. simpl. exact I.
  - unfold start_bot. run_simpl. eexists [_].
    match goal with |- context [(Return _, ?W)] => exists W end.
    split; [reflexivity|]. split; [reflexivity|]. simpl. exact I.
Qed.

Lemma sleep_loop_chunked limit chunk_size total_time fuel env :
  (0 < chunk_size)%Q -> (chunk_size <= limit)%Q ->
  forall elapsed w,
    (total_time - elapsed <= inject_Z (Z.of_nat fuel) * chunk_size)%Q ->
    exists new w',
      BotOperations.sleep_loop chunk_size total_time fuel elapsed env w = (Return tt, w') /\
      events w' = new ++ events w /\
      chunked limit new.
Proof.
  intros Hc Hlim. induction fuel as [|fuel IH]; intros elapsed w Hfuel.
  - simpl. destruct (Qltb elapsed total_time) eqn:E.
    + apply Qltb_true in E. change (inject_Z (Z.of_nat 0)) with 0%Q in Hfuel.
      exfalso. lra.
    + exists [], w. repeat split.
  - simpl. destruct (Qltb elapsed total_time) eqn:E; [|exists [], w; repeat split].
    apply Qltb_true in E. rewrite run_bind.
    destruct (is_set_events limit env w) as (g & w1 & -> & Ev1 & Hg).
    cbv beta iota. destruct (stop_event w1) eqn:Estop.
    + exists (EvStopCheck true :: g), w1. split; [reflexivity|].
      split; [exact Ev1|exact Hg].
    + rewrite run_bind, run_time_sleep. cbv beta iota.
      set (sleep_time := py_minQ chunk_size (total_time - elapsed)).
      assert (sleep_time <= chunk_size /\
              total_time - (elapsed + sleep_time)
                <= inject_Z (Z.of_nat fuel) * chunk_size)%Q as [Hst Hrest].
      { rewrite inject_Z_S in Hfuel.
        pose proof (inject_Z_of_nat_nonneg fuel) as Hn.
        assert (0 <= inject_Z (Z.of_nat fuel) * chunk_size)%Q as Hprod
          by (apply Qmult_le_0_compat; [assumption|apply Qlt_le_weak, Hc]).
        subst sleep_time.
        destruct (py_minQ_cases chunk_size (total_time - elapsed))
          as [[Hlt ->]|[Hle ->]]; split; lra. }
      destruct (IH (elapsed + sleep_time)%Q (with_event (EvSleep sleep_time) w1) Hrest)
        as (new & w' & -> & Ev & Hnew).
      exists (new ++ EvSleep sleep_time :: EvStopCheck false :: g), w'.
      split; [reflexivity|]. split.
      * rewrite Ev. simpl. rewrite Ev1.
        apply (app_assoc new (EvSleep sleep_time :: EvStopCheck false :: g) (events w)).
      * apply chunked_app; [assumption|]. simpl.
        split; [lra|]. split; [eexists; reflexivity|assumption].
Qed.

Lemma chunked_sleep_chunked limit chunk_size total_time env w :
  (0 < chunk_size)%Q -> (chunk_size <= limit)%Q ->
  exists new w',
    BotOperations.chunked_sleep chunk_size total_time env w
      = (Return (stop_event w'), w') /\
    events w' = new ++ events w /\
    chunked limit new.
Proof.
  intros Hc Hlim. unfold BotOperations.chunked_sleep. rewrite run_bind.
  destruct (sleep_loop_chunked limit chunk_size total_time
              (BotOperations.sleep_fuel chunk_size total_time) env Hc Hlim 0%Q w
              (sleep_fuel_enough _ _ Hc)) as (new & w1 & -> & Ev & Hnew).
  cbv beta iota.
  destruct (is_set_events limit env w1) as (g & w' & -> & Ev' & Hg).
  exists (EvStopCheck (stop_event w') :: g ++ new), w'.
  split; [reflexivity|]. split.
  - rewrite Ev', Ev. simpl. rewrite app_assoc. reflexivity.
  - simpl. apply chunked_app; assumption.
Qed.

(** C7, as amended: the two interruptible sleeps, of the workflow task
    and of the detection task, always return, with the state of the stop
    signal as their result; each [time.sleep] they perform lasts at most
    one second and comes directly after a look at the stop signal that
    found it clear, whatever the requested delay. *)
Theorem interruptible_sleep_chunked (total_time : Q) (env : Env) (w : World) :
  (exists new w',
     BotOperations.interruptible_sleep total_time env w = (Return (stop_event w'), w') /\
     events w' = new ++ events w /\
     chunked 1 new) /\
  (exists new w',
     DetectionManager._interruptible_sleep total_time env w = (Return (stop_event w'), w') /\
     events w' = new ++ events w /\
     chunked 1 new).
Proof.
  split; apply chunked_sleep_chunked; try reflexivity; vm_compute; discriminate.
Qed.

End Chunks.

(** C7, counterexample: with a loading screen showing and nothing to
    click, the market's loading check performs one [time.sleep(2)], with
    no look at the stop signal before it. *)
Lemma loading_check_sleeps_two_seconds :
  let w := Toy.world Toy.idle_bot_state Toy.no_detection in
  let r := MarketOperations._check_and_dismiss_loading_screen_with_click
             (cv := Toy.ToyCV) Toy.usual_templates Toy.loading_screen
             (Toy.quiet_env Toy.loading_screen Toy.no_detection) w in
  fst r = Return true /\
  events (snd r) = [EvSleep 2] ++ events w /\
  ~ chunked 1 [EvSleep 2].
Proof.
  cbv zeta. split; [vm_compute; reflexivity|]. split; [vm_compute; reflexivity|].
  simpl. intros [Hle _]. vm_compute in Hle. apply Hle. reflexivity.
Qed.

(** ** The clean-up of a drag *)

Section DragFrames.
Context {cv : OpenCV}.

Lemma events_grow_refl w : events_grow w w.
Proof. exists []. reflexivity. Qed.

Lemma events_grow_trans w1 w2 w3 :
  events_grow w1 w2 -> events_grow w2 w3 -> events_grow w1 w3.
Proof.
  intros [n1 E1] [n2 E2]. exists (n2 ++ n1). rewrite E2, E1. apply app_assoc.
Qed.

#[export] Instance events_grow_frame : Frame events_grow := {|
  may_write := fun _ _ => True;
  may_log := fun _ => True;
  may_detect := fun _ => True;
  frame_refl := events_grow_refl;
  frame_trans := events_grow_trans;
  frame_tick := fun w => ex_intro _ [] eq_refl;
  frame_stop_event := fun b w => ex_intro _ [] eq_refl;
  frame_event := fun e w _ => ex_intro _ [e] eq_refl;
  frame_detection := fun d w _ => ex_intro _ [] eq_refl;
  frame_write := fun b w _ => ex_intro _ [EvBotState (bot_state w) b] eq_refl;
  frame_log := fun m w _ => ex_intro _ [] eq_refl;
  frame_gui_running := fun _ _ => I;
  frame_gui_path := fun _ => I
|}.

Lemma obeys_events_grow env : obeys events_grow env.
Proof. intros t d _. exact I. Qed.

Lemma path_untouched_refl w : path_untouched w w.
Proof. exists []. split; [reflexivity|]. split; [constructor|auto]. Qed.

Lemma path_untouched_trans w1 w2 w3 :
  path_untouched w1 w2 -> path_untouched w2 w3 -> path_untouched w1 w3.
Proof.
  intros (n1 & E1 & F1 & P1) (n2 & E2 & F2 & P2). exists (n2 ++ n1).
  split; [rewrite E2, E1; apply app_assoc|].
  split; [apply Forall_app; split; assumption|auto].
Qed.

Lemma path_untouched_same w w' :
  events w' = events w -> bot_state w' = bot_state w -> path_untouched w w'.
Proof.
  intros He Hb. exists []. split; [assumption|]. split; [constructor|].
  rewrite Hb. auto.
Qed.

Lemma path_untouched_event e w :
  (forall before after, e <> EvBotState before after) ->
  path_untouched w (with_event e w).
Proof.
  intros He. exists [e]. split; [reflexivity|]. split; [|auto].
  constructor; [|constructor]. destruct e; simpl; try tauto.
  exfalso. eapply He. reflexivity.
Qed.

Lemma path_untouched_write b w :
  no_lock (bot_state w) b -> path_untouched w (with_bot_state b w).
Proof.
  intros Hno. exists [EvBotState (bot_state w) b]. split; [reflexivity|]. split.
  - constructor; [exact Hno|constructor].
  - simpl. intros Hw. destruct (path_execution_active b) eqn:E; [|reflexivity].
    exfalso. apply Hno. split; assumption.
Qed.

Lemma no_lock_running x b : no_lock b (set_running x b).
Proof. intros [H1 H2]. simpl in H2. congruence. Qed.

Lemma no_lock_path_off b : no_lock b (set_path_execution_active false b).
Proof. intros [H1 H2]. simpl in H2. discriminate. Qed.

#[export] Instance path_untouched_frame : Frame path_untouched := {|
  may_write := no_lock;
  may_log := fun _ => True;
  may_detect := fun _ => True;
  frame_refl := path_untouched_refl;
  frame_trans := path_untouched_trans;
  frame_tick := fun w => path_untouched_same w (with_tick w) eq_refl eq_refl;
  frame_stop_event := fun b w => path_untouched_same w (with_stop_event b w) eq_refl eq_refl;
  frame_event := path_untouched_event;
  frame_detection := fun d w _ =>
    path_untouched_same w (with_detection_state d w) eq_refl eq_refl;
  frame_write := path_untouched_write;
  frame_log := fun m w _ => path_untouched_same w (with_log m w) eq_refl eq_refl;
  frame_gui_running := no_lock_running;
  frame_gui_path := no_lock_path_off
|}.

Lemma obeys_path_untouched env : obeys path_untouched env.
Proof. intros t d _. exact I. Qed.

(** *** Rules for the [try] block *)

Lemma tail_releases_bind {A : Type} (m : M A) (f : A -> M bool) :
  sound false events_grow m -> (forall a, tail_releases (f a)) ->
  tail_releases (m ≫= f).
Proof.
  intros Hm Hf env w. rewrite run_bind.
  destruct (Hm env w (obeys_events_grow env)) as ([n1 E1] & Ht & _).
  destruct (m env w) as [[a| |] w1]; cbn [fst snd] in *.
  - destruct (Hf a env w1) as (n2 & E2 & Ht2 & Hcase).
    exists (n2 ++ n1). split; [rewrite E2, E1; apply app_assoc|].
    split; [assumption|]. destruct Hcase as [Hr|(Hb & (before & rest & ->) & Hp)].
    + left. assumption.
    + right. split; [assumption|]. split; [|assumption].
      exists before, (rest ++ n1). reflexivity.
  - exists n1. split; [assumption|]. split; [discriminate|]. left. reflexivity.
  - congruence.
Qed.

(** The last steps of the [try] block: the release may raise; when it
    does not, the flag is cleared next. *)
Lemma tail_releases_end :
  tail_releases
    (pag_mouseUp ;; write_bot_state (set_path_execution_active false) ;; mret true).
Proof.
  intros env w. rewrite run_bind, run_pag_mouseUp.
  destruct (env_fault env (clock w)).
  - cbn [fst snd]. exists []. split; [reflexivity|]. split; [discriminate|].
    left. reflexivity.
  - run_simpl. cbn [fst snd].
    eexists [_; _]. split; [reflexivity|]. split; [discriminate|]. right.
    split; [eexists; reflexivity|]. split; [|reflexivity].
    eexists _, []. reflexivity.
Qed.

(** *** Rules for the whole call *)

Lemma releases_ret (b : bool) : releases (mret b).
Proof.
  intros env w. rewrite run_ret. cbn [fst snd]. exists [].
  split; [reflexivity|]. split; [discriminate|]. intros _. split; [auto|].
  intros H. apply Exists_nil in H. contradiction.
Qed.

Lemma releases_bind {A : Type} (m : M A) (f : A -> M bool) :
  sound false path_untouched m -> (forall a, releases (f a)) -> releases (m ≫= f).
Proof.
  intros Hm Hf env w. rewrite run_bind.
  destruct (Hm env w (obeys_path_untouched env)) as ((n1 & E1 & F1 & P1) & Ht & _).
  destruct (m env w) as [[a| |] w1]; cbn [fst snd] in *.
  - destruct (Hf a env w1) as (n2 & E2 & Ht2 & Hret).
    exists (n2 ++ n1). split; [rewrite E2, E1; apply app_assoc|].
    split; [assumption|]. intros Hr. destruct (Hret Hr) as [P2 Hlock].
    split; [auto|].
    intros Hex. apply Exists_app in Hex as [Hex|Hex].
    + destruct (Hlock Hex) as ((before & rest & ->) & Hp).
      split; [|assumption]. exists before, (rest ++ n1). reflexivity.
    + exfalso. apply Exists_exists in Hex as (e & Hin & He).
      rewrite Forall_forall in F1. exact (F1 e Hin He).
  - exists n1. split; [assumption|]. split; [discriminate|].
    intros Hr. exfalso. apply Hr. reflexivity.
  - congruence.
Qed.

Lemma releases_try (body : M bool) :
  tail_releases body -> releases (try_except body BotOperations.drag_handler).
Proof.
  intros Hb env w. rewrite run_try_except.
  destruct (Hb env w) as (n1 & E1 & Ht & Hcase).
  destruct (body env w) as [[b| |] w1]; cbn [fst snd] in *.
  - destruct Hcase as [Hr|(_ & Hend & Hp)]; [discriminate|].
    exists n1. split; [assumption|]. split; [discriminate|]. intros _.
    split; [auto|]. intros _. split; assumption.
  - unfold BotOperations.drag_handler. rewrite run_bind, run_pag_mouseUp.
    destruct (env_fault env (clock w1)).
    + cbn [fst snd]. exists n1. split; [assumption|]. split; [discriminate|].
      intros Hr. exfalso. apply Hr. reflexivity.
    + run_simpl. cbn [fst snd].
      exists (EvBotState (bot_state (with_event EvMouseUp (with_tick w1)))
                (set_path_execution_active false
                   (bot_state (with_event EvMouseUp (with_tick w1))))
              :: EvMouseUp :: n1).
      split; [simpl; rewrite E1; reflexivity|]. split; [discriminate|]. intros _.
      split; [reflexivity|]. intros _. split; [|reflexivity].
      eexists _, n1. reflexivity.
  - congruence.
Qed.

End DragFrames.

Ltac tail_auto :=
  repeat match goal with
    | |- tail_releases (pag_mouseUp ≫= _) => apply tail_releases_end
    | |- tail_releases (_ ≫= _) => apply tail_releases_bind; [solve [sound_auto]|intros ?]
    | |- tail_releases (match ?x with _ => _ end) => destruct x
    end.

Ltac releases_auto :=
  repeat match goal with
    | |- releases (mret _) => apply releases_ret
    | |- releases (try_except _ _) => apply releases_try
    | |- releases (_ ≫= _) => apply releases_bind; [solve [sound_auto]|intros ?]
    | |- releases (match ?x with _ => _ end) => destruct x
    end.

Section Drag.
Context {cv : OpenCV}.

Lemma grow_sound_lock_path (s : bool) x :
  sound s events_grow (write_bot_state (set_path_execution_active x)).
Proof. apply sound_write_bot_state. intros b. exact I. Qed.
Hint Resolve grow_sound_lock_path : sound.

Lemma tail_releases_plant_wheat_drag cx cy contour_arg :
  tail_releases (BotOperations.plant_wheat_drag cx cy contour_arg).
Proof. unfold BotOperations.plant_wheat_drag. tail_auto. Qed.

Lemma tail_releases_harvest_wheat_drag cx cy contour_arg :
  tail_releases (BotOperations.harvest_wheat_drag cx cy contour_arg).
Proof. unfold BotOperations.harvest_wheat_drag. tail_auto. Qed.

Lemma releases_plant_wheat cx cy contour_arg :
  releases (BotOperations.plant_wheat cx cy contour_arg).
Proof.
  unfold BotOperations.plant_wheat. releases_auto.
  apply tail_releases_plant_wheat_drag.
Qed.

Lemma releases_harvest_wheat cx cy contour_arg :
  releases (BotOperations.harvest_wheat cx cy contour_arg).
Proof.
  unfold BotOperations.harvest_wheat. releases_auto.
  apply tail_releases_harvest_wheat_drag.
Qed.

(** X17.  Every call of [plant_wheat] and of [harvest_wheat] comes to an
    end, and every call that returns has cleaned up: if it switched
    [path_execution_active] on, the last two things it did were
    [pag.mouseUp()] and then the write that clears the flag, and the flag
    is false afterwards; a call that starts with the flag false and
    returns ends with the flag false.  This covers normal completion, the
    early break on the stop signal or the running flag, and an exception
    inside the drag that the handler could clean up after. *)
Theorem drag_returns_clean (cx cy : Z) (contour_arg : option Contour) (env : Env) (w : World) :
  released w (fst (BotOperations.plant_wheat cx cy contour_arg env w))
             (snd (BotOperations.plant_wheat cx cy contour_arg env w)) /\
  released w (fst (BotOperations.harvest_wheat cx cy contour_arg env w))
             (snd (BotOperations.harvest_wheat cx cy contour_arg env w)).
Proof. split; [apply releases_plant_wheat|apply releases_harvest_wheat]. Qed.

End Drag.

(** C2, the failing input: the square field is planted, and harvested,
    from its centre while the bot is running; during the drag the
    fail-safe of pyautogui starts to fire (the pointer has reached a
    corner of the screen), so the next [pag.moveTo] raises inside the
    [try] block.  The handler calls [pag.mouseUp()] first, which raises
    as well, and the assignment that clears the flag is never reached:
    the exception leaves [plant_wheat] and [harvest_wheat] with
    [path_execution_active] still true and the button still pressed,
    against the claim that both always end with the flag false. *)
Theorem drag_cleanup_fails_under_failsafe :
  let w := Toy.world Toy.idle_bot_state (Toy.field_detection 45) in
  let planted :=
    BotOperations.plant_wheat (cv := Toy.ToyCV) 200 200 (Some Toy.square_field)
      (Toy.failsafe_env Toy.main_screen (Toy.field_detection 45) 50) w in
  let harvested :=
    BotOperations.harvest_wheat (cv := Toy.ToyCV) 200 200 (Some Toy.square_field)
      (Toy.failsafe_env Toy.main_screen (Toy.field_detection 45) 30) w in
  path_execution_active (bot_state w) = false /\
  fst planted = Raise /\
  path_execution_active (bot_state (snd planted)) = true /\
  buttons (events (snd planted)) = [EvMouseDown] /\
  fst harvested = Raise /\
  path_execution_active (bot_state (snd harvested)) = true /\
  buttons (events (snd harvested)) = [EvMouseDown].
Proof. cbv zeta. repeat split; vm_compute; reflexivity. Qed.

(** ** C9: the planting procedure is bounded *)

Section PlantingFrames.
Context {cv : OpenCV}.

Lemma same_log_trans w1 w2 w3 : same_log w1 w2 -> same_log w2 w3 -> same_log w1 w3.
Proof. unfold same_log. congruence. Qed.

#[export] Instance same_log_frame : Frame same_log := {|
  may_write := fun _ _ => True;
  may_log := fun _ => False;
  may_detect := fun _ => True;
  frame_refl := fun w => eq_refl;
  frame_trans := same_log_trans;
  frame_tick := fun w => eq_refl;
  frame_stop_event := fun b w => eq_refl;
  frame_event := fun e w _ => eq_refl;
  frame_detection := fun d w _ => eq_refl;
  frame_write := fun b w _ => eq_refl;
  frame_log := fun m w (H : False) => False_ind _ H;
  frame_gui_running := fun _ _ => I;
  frame_gui_path := fun _ => I
|}.

Lemma obeys_same_log env : obeys same_log env.
Proof. intros t d _. exact I. Qed.

Lemma same_log_sound_plant_wheat (s : bool) cx cy contour_arg :
  sound s same_log (BotOperations.plant_wheat cx cy contour_arg).
Proof. apply sound_plant_wheat. intros x b. exact I. Qed.

(** What the coverage check does: it takes a snapshot, logs one line and
    answers accordingly. *)
Lemma check_fields_need_planting_cv_run env w :
  exists w1 m,
    BotOperations.check_fields_need_planting_cv env w
      = (Return (needs_planting (detection_state w1)), with_log m w1) /\
    log w1 = log w /\
    (detection_state w1 = detection_state w \/
     env_detection env (clock w) = Some (detection_state w1)) /\
    (if needs_planting (detection_state w1) then m = LogFieldsNeedPlanting
     else not_needed m).
Proof.
  unfold BotOperations.check_fields_need_planting_cv, read_detection_state, ask.
  rewrite !run_bind. cbv beta iota.
  destruct (env_detection env (clock w)) as [d|] eqn:Ed.
  - run_simpl. unfold needs_planting.
    exists (with_detection_state d (with_tick w)). cbn [detection_state with_detection_state].
    destruct (center d).
    + destruct (Qltb (wheat_coverage d) 80) eqn:Ec; run_simpl; eexists;
        (split; [reflexivity|]); (split; [reflexivity|]); (split; [right; reflexivity|]).
      * reflexivity.
      * left. reflexivity.
    + run_simpl. eexists. split; [reflexivity|]. split; [reflexivity|].
      split; [right; reflexivity|]. right. reflexivity.
  - run_simpl. unfold needs_planting.
    exists (with_tick w). cbn [detection_state with_tick].
    destruct (center (detection_state w)).
    + destruct (Qltb (wheat_coverage (detection_state w)) 80) eqn:Ec; run_simpl; eexists;
        (split; [reflexivity|]); (split; [reflexivity|]); (split; [left; reflexivity|]).
      * reflexivity.
      * left. reflexivity.
    + run_simpl. eexists. split; [reflexivity|]. split; [reflexivity|].
      split; [left; reflexivity|]. right. reflexivity.
Qed.

Lemma need_planting_not_satisfied : ~ not_needed LogFieldsNeedPlanting.
Proof. intros [H|H]; discriminate. Qed.

(** *** Rules for one pass through the loop *)

Lemma attempts_ok_none : attempts_ok 0 (mret None).
Proof.
  intros env w. rewrite run_ret. cbn [fst snd]. exists [].
  split; [reflexivity|]. split; [discriminate|]. split; [reflexivity|].
  split; [discriminate|]. split; [discriminate|]. intros _. constructor.
Qed.

Lemma attempts_ok_bind {A : Type} (m : M A) (f : A -> M (option bool)) :
  sound false same_log m -> (forall a, attempts_ok 0 (f a)) -> attempts_ok 0 (m ≫= f).
Proof.
  intros Hm Hf env w. rewrite run_bind.
  destruct (Hm env w (obeys_same_log env)) as (Hlog & Ht & _).
  destruct (m env w) as [[a| |] w1]; cbn [fst snd] in *.
  - unfold same_log in Hlog. destruct (Hf a env w1) as (new & E & H).
    exists new. rewrite <- Hlog. split; assumption.
  - exists []. split; [exact Hlog|]. split; [discriminate|].
    split; [reflexivity|]. split; [discriminate|]. split; [discriminate|].
    intros _. constructor.
  - congruence.
Qed.

Lemma attempts_ok_check (k : M (option bool)) :
  attempts_ok 0 k ->
  attempts_ok 0
    (need ← BotOperations.check_fields_need_planting_cv;
     if negb need then mret (Some true) else k).
Proof.
  intros Hk env w. rewrite run_bind.
  destruct (check_fields_need_planting_cv_run env w) as (w1 & m & -> & Hlog & _ & Hm).
  cbv beta iota. destruct (needs_planting (detection_state w1)); cbn [negb].
  - subst m. destruct (Hk env (with_log LogFieldsNeedPlanting w1))
      as (new & E & Ht & Hn & Hf & Hyes & Hno).
    exists (new ++ [LogFieldsNeedPlanting]).
    split; [rewrite E; simpl; rewrite Hlog, <- app_assoc; reflexivity|].
    split; [assumption|].
    split.
    { clear - Hn. induction new as [|x new IH]; [reflexivity|].
      destruct x; simpl in *; try (apply IH; assumption). discriminate. }
    split; [assumption|]. split.
    + intros Hr. destruct (Hyes Hr) as (m & rest & -> & Hm' & Hrest).
      exists m, (rest ++ [LogFieldsNeedPlanting]). split; [reflexivity|].
      split; [assumption|]. apply Forall_app. split; [assumption|].
      constructor; [apply need_planting_not_satisfied|constructor].
    + intros Hr. apply Forall_app. split; [apply Hno, Hr|].
      constructor; [apply need_planting_not_satisfied|constructor].
  - rewrite run_ret. cbn [fst snd]. exists [m].
    split; [simpl; rewrite Hlog; reflexivity|]. split; [discriminate|].
    split; [destruct Hm as [-> | ->]; reflexivity|]. split; [discriminate|].
    split.
    + intros _. exists m, []. split; [reflexivity|]. split; [assumption|constructor].
    + intros Hr. exfalso. apply Hr. reflexivity.
Qed.

End PlantingFrames.

Ltac attempts_auto :=
  repeat match goal with
    | |- attempts_ok 0 (mret None) => apply attempts_ok_none
    | |- attempts_ok 0 (BotOperations.check_fields_need_planting_cv ≫= _) =>
        apply attempts_ok_check
    | |- attempts_ok 0 (_ ≫= _) => apply attempts_ok_bind; [solve [sound_auto]|intros ?]
    | |- attempts_ok 0 (match ?x with _ => _ end) => destruct x
    end.

Section Planting.
Context {cv : OpenCV}.
Context (template_manager : TemplateManager.t).

Hint Resolve same_log_sound_plant_wheat : sound.

Lemma attempts_ok_planting_attempt attempt max_attempts :
  attempts_ok 1 (BotController.planting_attempt template_manager attempt max_attempts).
Proof.
  unfold BotController.planting_attempt.
  match goal with
  | |- attempts_ok 1 (_ ≫= fun _ => ?rest) => assert (attempts_ok 0 rest) as Hrest
  end.
  { attempts_auto. }
  intros env w. rewrite run_bind, run_log_msg. cbv beta iota.
  destruct (Hrest env (with_log (LogPlantingAttempt (S attempt) max_attempts) w))
    as (new & E & Ht & Hn & Hf & Hyes & Hno).
  exists (new ++ [LogPlantingAttempt (S attempt) max_attempts]).
  split; [rewrite E; simpl; rewrite <- app_assoc; reflexivity|].
  split; [assumption|]. split.
  { clear - Hn. induction new as [|x new IH]; [reflexivity|].
    destruct x; simpl in *; try (apply IH; assumption). discriminate. }
  split; [assumption|]. split.
  - intros Hr. destruct (Hyes Hr) as (m & rest & -> & Hm' & Hrest').
    exists m, (rest ++ [LogPlantingAttempt (S attempt) max_attempts]).
    split; [reflexivity|]. split; [assumption|]. apply Forall_app.
    split; [assumption|]. constructor; [|constructor]. intros [H|H]; discriminate.
  - intros Hr. apply Forall_app. split; [apply Hno, Hr|].
    constructor; [|constructor]. intros [H|H]; discriminate.
Qed.

Lemma planting_attempts_app (a b : list LogMsg) :
  planting_attempts (a ++ b) = (planting_attempts a + planting_attempts b)%nat.
Proof.
  induction a as [|x a IH]; [reflexivity|].
  destruct x; simpl; rewrite ?IH; reflexivity.
Qed.

Lemma just_satisfied_app (a b : list LogMsg) :
  just_satisfied a -> always_needed b -> just_satisfied (a ++ b).
Proof.
  intros (m & rest & -> & Hm & Hrest) Hb. exists m, (rest ++ b).
  split; [reflexivity|]. split; [assumption|]. apply Forall_app. split; assumption.
Qed.

Lemma just_satisfied_not_always (new : list LogMsg) :
  just_satisfied new -> always_needed new -> False.
Proof.
  intros (m & rest & -> & Hm & _) Hall. apply Forall_cons in Hall as [Hn _].
  exact (Hn Hm).
Qed.

Lemma planting_loop_post max_attempts remaining env w :
  loop_post remaining w
    (fst (BotController.planting_loop template_manager max_attempts remaining env w))
    (snd (BotController.planting_loop template_manager max_attempts remaining env w)).
Proof.
  revert w. induction remaining as [|remaining IH]; intros w.
  - cbn [BotController.planting_loop]. rewrite run_ret. cbn [fst snd]. exists [].
    split; [reflexivity|]. split; [discriminate|]. split; [reflexivity|].
    split; [reflexivity|]. split; [discriminate|]. split; [discriminate|].
    intros _. constructor.
  - cbn [BotController.planting_loop]. rewrite run_bind.
    destruct (attempts_ok_planting_attempt (max_attempts - S remaining) max_attempts env w)
      as (n1 & E1 & Ht1 & Hn1 & Hf1 & Hy1 & Hno1).
    destruct (BotController.planting_attempt template_manager _ _ env w)
      as [[[b|]| |] w1]; cbn [fst snd] in *.
    + rewrite run_ret. cbn [fst snd]. exists n1.
      split; [assumption|]. split; [discriminate|]. split; [lia|].
      split; [discriminate|]. destruct b; [|exfalso; apply Hf1; reflexivity].
      split; [discriminate|]. split; [intros _; apply Hy1; reflexivity|].
      intros Hr. exfalso. apply Hr. reflexivity.
    + assert (always_needed n1) as Hall1 by (apply Hno1; discriminate).
      destruct (IH w1) as (n2 & E2 & Ht2 & Hle2 & Hn2 & Hf2 & Hy2 & Hno2).
      exists (n2 ++ n1). split; [rewrite E2, E1; apply app_assoc|].
      split; [assumption|]. rewrite planting_attempts_app.
      split; [lia|]. split; [intros Hr; rewrite (Hn2 Hr); lia|].
      split; [assumption|]. split.
      * intros Hr. apply just_satisfied_app; [apply Hy2, Hr|assumption].
      * intros Hr. apply Forall_app. split; [apply Hno2, Hr|assumption].
    + exists n1. split; [assumption|]. split; [discriminate|]. split; [lia|].
      split; [discriminate|]. split; [discriminate|]. split; [discriminate|].
      intros _. apply Hno1. discriminate.
    + congruence.
Qed.

Lemma read_detection_state_run env w :
  exists w1,
    read_detection_state env w = (Return (detection_state w1), w1) /\ log w1 = log w.
Proof.
  unfold read_detection_state, ask. rewrite !run_bind. cbv beta iota.
  destruct (env_detection env (clock w)); run_simpl; eexists; split; reflexivity.
Qed.

Lemma planting_attempts_not_needed m rest :
  not_needed m -> planting_attempts (m :: rest) = planting_attempts rest.
Proof. intros [-> | ->]; reflexivity. Qed.

Lemma _comprehensive_field_planting_post max_attempts env w :
  planting_post max_attempts w
    (fst (BotController._comprehensive_field_planting template_manager max_attempts env w))
    (snd (BotController._comprehensive_field_planting template_manager max_attempts env w)).
Proof.
  unfold BotController._comprehensive_field_planting. rewrite run_bind.
  destruct (planting_loop_post max_attempts max_attempts env w)
    as (n1 & E1 & Ht1 & Hle1 & Hn1 & Hf1 & Hy1 & Hno1).
  destruct (BotController.planting_loop template_manager _ _ env w)
    as [[[b|]| |] w1]; cbn [fst snd] in *.
  - rewrite run_ret. cbn [fst snd]. exists n1.
    destruct b; [|exfalso; apply Hf1; reflexivity].
    split; [assumption|]. split; [discriminate|]. split; [assumption|].
    split; [intros _; apply Hy1; reflexivity|]. split; discriminate.
  - assert (always_needed n1) as Hall1 by (apply Hno1; discriminate).
    specialize (Hn1 eq_refl). rewrite run_bind.
    destruct (sound_capture_screen same_log false env w1 (obeys_same_log env))
      as (Hs & Htc & _).
    destruct (capture_screen env w1) as [[img| |] w2]; cbn [fst snd] in *;
      unfold same_log in Hs.
    + rewrite run_bind.
      destruct (check_fields_need_planting_cv_run env w2) as (w3 & m & -> & Hlog & _ & Hm).
      cbv beta iota. destruct (needs_planting (detection_state w3)).
      * subst m. rewrite run_bind.
        destruct (read_detection_state_run env (with_log LogFieldsNeedPlanting w3))
          as (w4 & -> & Hlog4).
        cbv beta iota. rewrite run_ret. cbn [fst snd].
        exists (LogFieldsNeedPlanting :: n1).
        split; [rewrite Hlog4; simpl; rewrite Hlog, Hs, E1; reflexivity|].
        split; [discriminate|]. split; [simpl; lia|]. split; [discriminate|].
        split; [|discriminate]. intros _. split; [simpl; assumption|].
        split; [reflexivity|].
        constructor; [apply need_planting_not_satisfied|assumption].
      * rewrite run_ret. cbn [fst snd]. exists (m :: n1).
        split; [simpl; rewrite Hlog, Hs, E1; reflexivity|].
        split; [discriminate|].
        split; [rewrite (planting_attempts_not_needed m n1 Hm); lia|].
        split; [|split; discriminate].
        intros _. exists m, n1. split; [reflexivity|]. split; assumption.
    + exists n1. split; [rewrite Hs; assumption|]. split; [discriminate|].
      split; [assumption|]. split; [discriminate|]. split; [discriminate|].
      intros _. assumption.
    + exfalso. apply Htc. reflexivity.
  - exists n1. split; [assumption|]. split; [discriminate|]. split; [assumption|].
    split; [discriminate|]. split; [discriminate|]. intros _. apply Hno1. discriminate.
  - congruence.
Qed.

(** *** When the coverage never improves *)

Lemma stays_unplanted_refl w : stays_unplanted w w.
Proof. intros H. split; [assumption|]. exists []. split; [reflexivity|constructor]. Qed.

Lemma stays_unplanted_trans w1 w2 w3 :
  stays_unplanted w1 w2 -> stays_unplanted w2 w3 -> stays_unplanted w1 w3.
Proof.
  intros H12 H23 H1. destruct (H12 H1) as (H2 & n1 & E1 & A1).
  destruct (H23 H2) as (H3 & n2 & E2 & A2). split; [assumption|].
  exists (n2 ++ n1). split; [rewrite E2, E1; apply app_assoc|].
  apply Forall_app. split; assumption.
Qed.

Lemma stays_unplanted_same w w' :
  detection_state w' = detection_state w -> log w' = log w -> stays_unplanted w w'.
Proof.
  intros Hd Hl H. rewrite Hd. split; [assumption|].
  exists []. split; [assumption|constructor].
Qed.

Lemma stays_unplanted_detection d w :
  needs_planting d = true -> stays_unplanted w (with_detection_state d w).
Proof.
  intros Hd _. split; [exact Hd|]. exists []. split; [reflexivity|constructor].
Qed.

Lemma stays_unplanted_log m w : ~ not_needed m -> stays_unplanted w (with_log m w).
Proof.
  intros Hm H. split; [exact H|]. exists [m]. split; [reflexivity|].
  constructor; [assumption|constructor].
Qed.

#[export] Instance stays_unplanted_frame : Frame stays_unplanted := {|
  may_write := fun _ _ => True;
  may_log := fun m => ~ not_needed m;
  may_detect := fun d => needs_planting d = true;
  frame_refl := stays_unplanted_refl;
  frame_trans := stays_unplanted_trans;
  frame_tick := fun w => stays_unplanted_same w (with_tick w) eq_refl eq_refl;
  frame_stop_event := fun b w => stays_unplanted_same w (with_stop_event b w) eq_refl eq_refl;
  frame_event := fun e w _ => stays_unplanted_same w (with_event e w) eq_refl eq_refl;
  frame_detection := stays_unplanted_detection;
  frame_write := fun b w _ => stays_unplanted_same w (with_bot_state b w) eq_refl eq_refl;
  frame_log := stays_unplanted_log;
  frame_gui_running := fun _ _ => I;
  frame_gui_path := fun _ => I
|}.

Lemma unplanted_sound_check (s : bool) :
  sound s stays_unplanted BotOperations.check_fields_need_planting_cv.
Proof.
  intros env w He.
  destruct (check_fields_need_planting_cv_run env w) as (w1 & m & -> & Hlog & Hd & Hm).
  cbn [fst snd]. split; [|split; [discriminate|intros _ _; discriminate]].
  intros Hneed.
  assert (needs_planting (detection_state w1) = true) as Hneed1.
  { destruct Hd as [-> | Hd]; [assumption|]. apply (He _ _ Hd). }
  rewrite Hneed1 in Hm. subst m. split; [exact Hneed1|].
  exists [LogFieldsNeedPlanting]. split; [simpl; rewrite Hlog; reflexivity|].
  constructor; [apply need_planting_not_satisfied|constructor].
Qed.

Lemma unplanted_sound__comprehensive_field_planting max_attempts :
  sound true stays_unplanted
    (BotController._comprehensive_field_planting template_manager max_attempts).
Proof.
  apply sound__comprehensive_field_planting.
  - intros x b. exact I.
  - apply unplanted_sound_check.
  - intros attempt max' [H|H]; discriminate.
Qed.

(** *** Every attempt checks the coverage *)

Lemma same_attempt_refl w : same_attempt w w.
Proof. exists []. split; reflexivity. Qed.

Lemma same_attempt_trans w1 w2 w3 :
  same_attempt w1 w2 -> same_attempt w2 w3 -> same_attempt w1 w3.
Proof.
  intros (n1 & E1 & A1) (n2 & E2 & A2). exists (n2 ++ n1).
  split; [rewrite E2, E1; apply app_assoc|].
  rewrite planting_attempts_app, A1, A2. reflexivity.
Qed.

Lemma same_attempt_same w w' : log w' = log w -> same_attempt w w'.
Proof. intros H. exists []. split; [exact H|reflexivity]. Qed.

Lemma same_attempt_log m w :
  (forall attempt max_attempts, m <> LogPlantingAttempt attempt max_attempts) ->
  same_attempt w (with_log m w).
Proof.
  intros Hm. exists [m]. split; [reflexivity|].
  destruct m; try reflexivity. exfalso. eapply Hm. reflexivity.
Qed.

#[export] Instance same_attempt_frame : Frame same_attempt := {|
  may_write := fun _ _ => True;
  may_log := fun m => forall attempt max_attempts, m <> LogPlantingAttempt attempt max_attempts;
  may_detect := fun _ => True;
  frame_refl := same_attempt_refl;
  frame_trans := same_attempt_trans;
  frame_tick := fun w => same_attempt_same w (with_tick w) eq_refl;
  frame_stop_event := fun b w => same_attempt_same w (with_stop_event b w) eq_refl;
  frame_event := fun e w _ => same_attempt_same w (with_event e w) eq_refl;
  frame_detection := fun d w _ => same_attempt_same w (with_detection_state d w) eq_refl;
  frame_write := fun b w _ => same_attempt_same w (with_bot_state b w) eq_refl;
  frame_log := same_attempt_log;
  frame_gui_running := fun _ _ => I;
  frame_gui_path := fun _ => I
|}.

Lemma obeys_same_attempt env : obeys same_attempt env.
Proof. intros t d _. exact I. Qed.

Lemma attempt_sound_check (s : bool) :
  sound s same_attempt BotOperations.check_fields_need_planting_cv.
Proof.
  unfold BotOperations.check_fields_need_planting_cv.
  sound_auto; apply sound_log_msg; discriminate.
Qed.

Lemma attempt_sound_plant_wheat (s : bool) cx cy contour_arg :
  sound s same_attempt (BotOperations.plant_wheat cx cy contour_arg).
Proof. apply sound_plant_wheat. intros x b. exact I. Qed.

Lemma coverage_checks_app (a b : list LogMsg) :
  coverage_checks (a ++ b) = (coverage_checks a + coverage_checks b)%nat.
Proof.
  induction a as [|x a IH]; [reflexivity|]. destruct x; simpl; rewrite IH; reflexivity.
Qed.

Lemma capture_screen_run env w img :
  env_capture env (clock w) = Some img -> capture_screen env w = (Return img, with_tick w).
Proof.
  intros H. unfold capture_screen, ask. rewrite run_bind. cbv beta iota.
  rewrite H. reflexivity.
Qed.

Hint Resolve attempt_sound_check attempt_sound_plant_wheat : sound.

Lemma planting_attempt_checks attempt max_attempts env w :
  on_main_page template_manager env ->
  exists new,
    log (snd (BotController.planting_attempt template_manager attempt max_attempts env w))
      = new ++ log w /\
    planting_attempts new = 1%nat /\ (1 <= coverage_checks new)%nat.
Proof.
  intros Hmain. unfold BotController.planting_attempt.
  rewrite run_bind, run_log_msg. cbv beta iota.
  destruct (Hmain (clock w)) as (img & Hcap & Hkey).
  rewrite run_bind.
  rewrite (capture_screen_run env _ img) by exact Hcap.
  cbv beta iota zeta.
  unfold BotController.has_key at 1, BotController._analyze_current_location at 1.
  rewrite (bool_decide_eq_true_2 _ Hkey). cbn [negb].
  rewrite run_bind, run_ret. cbv beta iota. cbn [negb].
  rewrite run_bind.
  destruct (check_fields_need_planting_cv_run env
              (with_tick (with_log (LogPlantingAttempt (S attempt) max_attempts) w)))
    as (w3 & m & -> & Hlog & _ & Hm).
  cbv beta iota.
  match goal with
  | |- context [snd (?k env (with_log m w3))] =>
      assert (sound false same_attempt k) as Hk
        by (destruct (needs_planting (detection_state w3)); cbn [negb]; sound_auto)
  end.
  destruct (Hk env (with_log m w3) (obeys_same_attempt env)) as ((n & E & A) & _).
  exists (n ++ [m; LogPlantingAttempt (S attempt) max_attempts]).
  split; [rewrite E; cbn [log with_log]; rewrite Hlog, <- app_assoc; reflexivity|].
  assert (planting_attempts [m] = 0%nat /\ coverage_checks [m] = 1%nat) as [Hm1 Hm2].
  { destruct (needs_planting (detection_state w3));
      [subst m|destruct Hm as [-> | ->]]; split; reflexivity. }
  change [m; LogPlantingAttempt (S attempt) max_attempts]
    with ([m] ++ [LogPlantingAttempt (S attempt) max_attempts]).
  rewrite !planting_attempts_app, !coverage_checks_app, A, Hm1, Hm2. simpl. lia.
Qed.

Lemma planting_loop_checks max_attempts remaining env w :
  on_main_page template_manager env ->
  exists new,
    log (snd (BotController.planting_loop template_manager max_attempts remaining env w))
      = new ++ log w /\
    (planting_attempts new <= coverage_checks new)%nat.
Proof.
  intros Hmain. revert w. induction remaining as [|remaining IH]; intros w.
  - exists []. split; [reflexivity|]. simpl. lia.
  - cbn [BotController.planting_loop]. rewrite run_bind.
    destruct (planting_attempt_checks (max_attempts - S remaining) max_attempts env w Hmain)
      as (n1 & E1 & A1 & C1).
    destruct (BotController.planting_attempt template_manager _ _ env w)
      as [[[b|]| |] w1]; cbn [fst snd] in *; try (exists n1; split; [assumption|lia]).
    destruct (IH w1) as (n2 & E2 & H2). exists (n2 ++ n1).
    split; [rewrite E2, E1; apply app_assoc|].
    rewrite planting_attempts_app, coverage_checks_app. lia.
Qed.

Lemma _comprehensive_field_planting_checks max_attempts env w :
  on_main_page template_manager env ->
  exists new,
    log (snd (BotController._comprehensive_field_planting template_manager
                max_attempts env w)) = new ++ log w /\
    (planting_attempts new <= coverage_checks new)%nat.
Proof.
  intros Hmain. unfold BotController._comprehensive_field_planting. rewrite run_bind.
  destruct (planting_loop_checks max_attempts max_attempts env w Hmain) as (n1 & E1 & H1).
  destruct (BotController.planting_loop template_manager _ _ env w)
    as [[[b|]| |] w1]; cbn [fst snd] in *; try (exists n1; split; [assumption|lia]).
  match goal with
  | |- context [snd (?k env w1)] =>
      assert (sound false same_attempt k) as Hk by sound_auto
  end.
  destruct (Hk env w1 (obeys_same_attempt env)) as ((n2 & E2 & A2) & _).
  exists (n2 ++ n1). split; [rewrite E2, E1; apply app_assoc|].
  rewrite planting_attempts_app, coverage_checks_app. lia.
Qed.

(** The coverage check leaves the event record alone. *)
Lemma check_fields_need_planting_cv_events env w :
  events (snd (BotOperations.check_fields_need_planting_cv env w)) = events w /\
  bot_state (snd (BotOperations.check_fields_need_planting_cv env w)) = bot_state w.
Proof.
  unfold BotOperations.check_fields_need_planting_cv, read_detection_state, ask.
  rewrite !run_bind. cbv beta iota.
  destruct (env_detection env (clock w)) as [d|]; run_simpl.
  - cbn [detection_state with_detection_state].
    destruct (center d); [destruct (Qltb (wheat_coverage d) 80)|]; run_simpl;
      split; reflexivity.
  - cbn [detection_state with_tick].
    destruct (center (detection_state w));
      [destruct (Qltb (wheat_coverage (detection_state w)) 80)|]; run_simpl;
      split; reflexivity.
Qed.

Lemma planting_attempt_early attempt max_attempts env w :
  on_main_page template_manager env -> always_planted env ->
  needs_planting (detection_state w) = false ->
  exists w' m,
    BotController.planting_attempt template_manager attempt max_attempts env w
      = (Return (Some true), w') /\
    events w' = events w /\
    bot_state w' = bot_state w /\
    log w' = m :: LogPlantingAttempt (S attempt) max_attempts :: log w /\
    not_needed m.
Proof.
  intros Hmain Hplanted Hneed. unfold BotController.planting_attempt.
  rewrite run_bind, run_log_msg. cbv beta iota.
  destruct (Hmain (clock w)) as (img & Hcap & Hkey).
  rewrite run_bind.
  rewrite (capture_screen_run env _ img) by exact Hcap.
  cbv beta iota zeta.
  unfold BotController.has_key at 1, BotController._analyze_current_location at 1.
  rewrite (bool_decide_eq_true_2 _ Hkey). cbn [negb].
  rewrite run_bind, run_ret. cbv beta iota. cbn [negb].
  rewrite run_bind.
  pose proof (check_fields_need_planting_cv_events env
                (with_tick (with_log (LogPlantingAttempt (S attempt) max_attempts) w)))
    as [Hev Hbs].
  destruct (check_fields_need_planting_cv_run env
              (with_tick (with_log (LogPlantingAttempt (S attempt) max_attempts) w)))
    as (w3 & m & E & Hlog & Hd & Hm).
  rewrite E in Hev, Hbs. rewrite E. cbv beta iota. cbn [fst snd] in Hev, Hbs.
  assert (needs_planting (detection_state w3) = false) as Hneed3.
  { destruct Hd as [-> | Hd]; [exact Hneed|]. apply (Hplanted _ _ Hd). }
  rewrite Hneed3 in *. cbn [negb]. rewrite run_ret.
  exists (with_log m w3), m. split; [reflexivity|].
  split; [exact Hev|]. split; [exact Hbs|]. split; [|exact Hm].
  cbn [log with_log]. rewrite Hlog. reflexivity.
Qed.

Lemma _comprehensive_field_planting_early max_attempts env w :
  on_main_page template_manager env -> always_planted env ->
  needs_planting (detection_state w) = false ->
  let r := BotController._comprehensive_field_planting template_manager
             (S max_attempts) env w in
  fst r = Return true /\
  events (snd r) = events w /\
  bot_state (snd r) = bot_state w /\
  exists m, log (snd r) = m :: LogPlantingAttempt 1 (S max_attempts) :: log w /\ not_needed m.
Proof.
  intros Hmain Hplanted Hneed. cbv zeta.
  unfold BotController._comprehensive_field_planting.
  cbn [BotController.planting_loop]. rewrite Nat.sub_diag.
  destruct (planting_attempt_early 0 (S max_attempts) env w Hmain Hplanted Hneed)
    as (w' & m & E & Hev & Hbs & Hlog & Hm).
  rewrite !run_bind, E. cbv beta iota. rewrite run_ret. cbv beta iota. rewrite run_ret.
  cbn [fst snd]. split; [reflexivity|]. split; [exact Hev|]. split; [exact Hbs|].
  exists m. auto.
Qed.

(** C9: the planting procedure, called with its bound of 5 attempts,
    always comes to an end, after at most 5 attempts.  It returns true
    only right after a check that found planting no longer needed, and
    false only after all 5 attempts.  When the measured coverage never
    reaches the mark and nothing raises, it returns false.  While the
    main page shows, every attempt checks the coverage, so the log holds
    at least as many checks as attempts; and when planting is not needed
    to begin with, the procedure returns true after its first attempt,
    having touched neither the pointer nor the shared flags. *)
Theorem comprehensive_field_planting_bounded (env : Env) (w : World) :
  let r := fst (BotController._comprehensive_field_planting template_manager 5 env w) in
  let w' := snd (BotController._comprehensive_field_planting template_manager 5 env w) in
  planting_post 5 w r w' /\
  (never_planted env -> calm env -> needs_planting (detection_state w) = true ->
   r = Return false) /\
  (on_main_page template_manager env ->
   forall new, log w' = new ++ log w ->
     (planting_attempts new <= coverage_checks new)%nat) /\
  (on_main_page template_manager env -> always_planted env ->
   needs_planting (detection_state w) = false ->
   r = Return true /\ events w' = events w /\ bot_state w' = bot_state w /\
   exists m, log w' = m :: LogPlantingAttempt 1 5 :: log w /\ not_needed m).
Proof.
  cbv zeta. pose proof (_comprehensive_field_planting_post 5 env w) as Hpost.
  split; [exact Hpost|]. split; [|split].
  - intros Hnever Hcalm Hneed.
    destruct (unplanted_sound__comprehensive_field_planting 5 env w Hnever)
      as (Hstay & Ht & Hraise).
    destruct (Hstay Hneed) as (_ & n2 & E2 & A2).
    destruct Hpost as (n1 & E1 & _ & _ & Hyes & _).
    assert (n1 = n2) as -> by (apply (app_inv_tail (log w)); congruence).
    destruct (fst (BotController._comprehensive_field_planting template_manager 5 env w))
      as [[|]| |].
    + exfalso. apply (just_satisfied_not_always n2); [apply Hyes; reflexivity|assumption].
    + reflexivity.
    + exfalso. apply (Hraise eq_refl Hcalm). reflexivity.
    + exfalso. apply Ht. reflexivity.
  - intros Hmain new Hnew.
    destruct (_comprehensive_field_planting_checks 5 env w Hmain) as (n & E & H).
    assert (new = n) as -> by (apply (app_inv_tail (log w)); congruence).
    exact H.
  - intros Hmain Hplanted Hneed.
    apply (_comprehensive_field_planting_early 4 env w Hmain Hplanted Hneed).
Qed.

End Planting.

(** C9, witness: the main page shows and nothing raises.  With a field
    that the detection thread keeps reporting at 45% coverage, every one
    of the 5 attempts checks the coverage and plants, and the procedure
    returns false; with a field reported at 95% it returns true at its
    first check. *)
Lemma comprehensive_field_planting_bounded_witness :
  fst (BotController._comprehensive_field_planting (cv := Toy.ToyCV) Toy.usual_templates 5
         (Toy.quiet_env Toy.main_screen (Toy.field_detection 45))
         (Toy.world Toy.idle_bot_state (Toy.field_detection 45)))
  = Return false /\
  fst (BotController._comprehensive_field_planting (cv := Toy.ToyCV) Toy.usual_templates 5
         (Toy.quiet_env Toy.main_screen (Toy.field_detection 95))
         (Toy.world Toy.idle_bot_state (Toy.field_detection 95)))
  = Return true.
Proof.
  split.
  - apply (comprehensive_field_planting_bounded (cv := Toy.ToyCV) Toy.usual_templates
             (Toy.quiet_env Toy.main_screen (Toy.field_detection 45))
             (Toy.world Toy.idle_bot_state (Toy.field_detection 45))).
    + intros t d [= <-]. vm_compute. reflexivity.
    + split; intros t; simpl; eauto.
    + vm_compute. reflexivity.
  - apply (comprehensive_field_planting_bounded (cv := Toy.ToyCV) Toy.usual_templates
             (Toy.quiet_env Toy.main_screen (Toy.field_detection 95))
             (Toy.world Toy.idle_bot_state (Toy.field_detection 95))).
    + intros t. exists Toy.main_screen. split; [reflexivity|]. vm_compute. eauto.
    + intros t d [= <-]. vm_compute. reflexivity.
    + vm_compute. reflexivity.
Defined.

(** ** Runs of the model on the small OpenCV instance *)

(** The interruptible sleep of 0.2 seconds, as after every click: two
    chunks, each after a look at the stop signal, and a last look. *)
Example interruptible_sleep_click_delay :
  let env := Toy.quiet_env Toy.main_screen Toy.no_detection in
  let w := Toy.world Toy.idle_bot_state Toy.no_detection in
  let r := BotOperations.interruptible_sleep (cv := Toy.ToyCV)
             BotConfig.DEFAULT_CLICK_DELAY env w in
  fst r = Return false /\
  rev (events (snd r)) =
    [EvStopCheck false; EvSleep (1 # 10);
     EvStopCheck false; EvSleep (1 # 10);
     EvStopCheck false].
Proof. split; vm_compute; reflexivity. Qed.

(** The silo check on a screen that shows the popup, after wheat was
    posted: the posted-wheat flag is reset. *)
Example check_silo_full_template_resets_sold :
  let env := Toy.quiet_env Toy.silo_screen Toy.no_detection in
  let w := Toy.world (Toy.full_silo true) Toy.no_detection in
  let r := MarketOperations.check_silo_full_template (cv := Toy.ToyCV)
             Toy.usual_templates Toy.silo_screen env w in
  fst r = Return true /\ bot_state (snd r) = Toy.full_silo false.
Proof. split; vm_compute; reflexivity. Qed.

(** One cycle on the farm with the silo marked full and wheat posted: the
    cycle clears both flags, and the clearing write starts from a state
    in which [wheat_sold_this_session] is true. *)
Example cycle_clears_silo_after_posting :
  let env := Toy.quiet_env Toy.main_screen (Toy.field_detection 95) in
  let w := Toy.world (Toy.full_silo true) (Toy.field_detection 95) in
  let r := BotController.bot_cycle (cv := Toy.ToyCV) Toy.usual_templates 0 env w in
  fst r = Return Continue /\
  bot_state (snd r) = Toy.idle_bot_state /\
  In (EvBotState (Toy.full_silo true) (set_silo_is_full false (Toy.full_silo true)))
     (events (snd r)).
Proof.
  cbv zeta. split; [vm_compute; reflexivity|]. split; [vm_compute; reflexivity|].
  vm_compute. tauto.
Qed.

(** One cycle on the farm with the silo marked full and no wheat posted:
    the market cannot be entered (no market button shows), and the silo
    stays marked full. *)
Example cycle_keeps_silo_when_market_fails :
  let env := Toy.quiet_env Toy.main_screen (Toy.field_detection 95) in
  let w := Toy.world (Toy.full_silo false) (Toy.field_detection 95) in
  let r := BotController.bot_cycle (cv := Toy.ToyCV) Toy.usual_templates 0 env w in
  fst r = Return Continue /\
  bot_state (snd r) = Toy.full_silo false /\
  log (snd r) = [LogKeepingSiloFull].
Proof. cbv zeta. split; [|split]; vm_compute; reflexivity. Qed.

(** Five planting attempts on a field whose coverage stays at 45%. *)
Example five_attempts_then_failure :
  let env := Toy.quiet_env Toy.main_screen (Toy.field_detection 45) in
  let w := Toy.world Toy.idle_bot_state (Toy.field_detection 45) in
  let r := BotController._comprehensive_field_planting (cv := Toy.ToyCV)
             Toy.usual_templates 5 env w in
  fst r = Return false /\ planting_attempts (log (snd r)) = 5%nat.
Proof. cbv zeta. split; vm_compute; reflexivity. Qed.

(** A field that is planted enough: success at the first attempt. *)
Example planted_field_succeeds_at_once :
  let env := Toy.quiet_env Toy.main_screen (Toy.field_detection 95) in
  let w := Toy.world Toy.idle_bot_state (Toy.field_detection 95) in
  let r := BotController._comprehensive_field_planting (cv := Toy.ToyCV)
             Toy.usual_templates 5 env w in
  fst r = Return true /\
  log (snd r) = [LogFieldsWellPlanted; LogPlantingAttempt 1 5].
Proof. cbv zeta. split; vm_compute; reflexivity. Qed.

(* ===================================================================== *)
(** * Further properties *)
(* ===================================================================== *)

(** ** Loading the reference pictures *)

Section LoadingFacts.
Context {cv : OpenCV} {fs : FileSystem}.
Import TemplateManager.

Lemma lower_ascii_idempotent (c : Ascii.ascii) :
  lower_ascii (lower_ascii c) = lower_ascii c.
Proof. destruct c as [[] [] [] [] [] [] [] []]; reflexivity. Qed.

Lemma py_lower_idempotent (s : string) : py_lower (py_lower s) = py_lower s.
Proof.
  induction s as [|c s IH]; simpl; [reflexivity|].
  rewrite lower_ascii_idempotent, IH. reflexivity.
Qed.

Lemma template_files_NoDup : NoDup (template_files.*1).
Proof.
  exact (bool_decide_unpack (NoDup (template_files.*1))
           (eq_ind true (fun b : bool => if b then True else False) I _
                   (eq_sym (eq_refl : bool_decide (NoDup (template_files.*1)) = true)))).
Qed.

(** What one pass of the loop leaves under [name]. *)
Lemma load_one_lookup template_dir (self : t) (n : nat) k fn name img :
  templates (fst (load_one template_dir (self, n) (k, fn))) !! name = Some img <->
  (name = k /\ path_exists (path_join template_dir fn) = true /\
   imread (path_join template_dir fn) = Some img) \/
  (~ (name = k /\ path_exists (path_join template_dir fn) = true /\
      is_Some (imread (path_join template_dir fn))) /\
   templates self !! name = Some img).
Proof.
  unfold load_one.
  destruct (path_exists (path_join template_dir fn)) eqn:Ex.
  - destruct (imread (path_join template_dir fn)) as [template|] eqn:Er; simpl.
    + destruct (decide (name = k)) as [->|Hne].
      * rewrite lookup_insert_eq. split.
        -- intros [= ->]. left. auto.
        -- intros [(_ & _ & [= ->])|[Hno _]]; [reflexivity|].
           exfalso. apply Hno. eauto.
      * rewrite lookup_insert_ne by congruence. split.
        -- intros H. right. split; [|exact H]. intros [? _]. contradiction.
        -- intros [[? _]|[_ H]]; [contradiction|exact H].
    + split.
      * intros H. right. split; [|exact H]. intros (_ & _ & [? [=]]).
      * intros [(_ & _ & [=])|[_ H]]. exact H.
  - simpl. split.
    + intros H. right. split; [|exact H]. intros (_ & [=] & _).
    + intros [(_ & [=] & _)|[_ H]]. exact H.
Qed.

(** What the loop of [_load_templates] leaves under [name], for any list
    of files whose names are distinct. *)
Lemma load_fold_lookup template_dir (files : list (string * string)) :
  NoDup (files.*1) ->
  forall (self : t) (n : nat) (name : string) (img : Image),
    templates (fst (fold_left (load_one template_dir) files (self, n))) !! name = Some img <->
    (exists filename,
        (name, filename) ∈ files /\
        path_exists (path_join template_dir filename) = true /\
        imread (path_join template_dir filename) = Some img) \/
    ((forall filename, (name, filename) ∈ files ->
        ~ (path_exists (path_join template_dir filename) = true /\
           is_Some (imread (path_join template_dir filename)))) /\
     templates self !! name = Some img).
Proof.
  induction files as [|[k fn] files IH]; intros Hnd self n name img.
  - simpl. split.
    + intros H. right. split; [|exact H]. intros filename Hin.
      apply elem_of_nil in Hin. contradiction.
    + intros [[filename [Hin _]]|[_ H]]; [|exact H].
      apply elem_of_nil in Hin. contradiction.
  - rewrite fmap_cons in Hnd. apply NoDup_cons in Hnd as [Hk Hnd].
    change (fold_left (load_one template_dir) ((k, fn) :: files) (self, n))
      with (fold_left (load_one template_dir) files (load_one template_dir (self, n) (k, fn))).
    pose proof (load_one_lookup template_dir self n k fn name img) as Hstep.
    destruct (load_one template_dir (self, n) (k, fn)) as [self1 n1].
    etransitivity; [apply (IH Hnd self1 n1 name img)|].
    simpl in Hstep. rewrite Hstep. clear Hstep IH.
    split.
    + intros [[filename (Hin & Hex & Hrd)]|[Hrest [(-> & Hex & Hrd)|[Hno Hself]]]].
      * left. exists filename. split; [apply list_elem_of_further, Hin|auto].
      * left. exists fn. split; [apply list_elem_of_here|auto].
      * right. split; [|exact Hself]. intros filename Hin.
        apply elem_of_cons in Hin as [[= -> ->]|Hin]; [|apply Hrest, Hin].
        intros [Hex Hrd]. apply Hno. auto.
    + intros [[filename (Hin & Hex & Hrd)]|[Hall Hself]].
      * apply elem_of_cons in Hin as [[= -> ->]|Hin].
        -- right. split; [|left; auto]. intros filename Hin. exfalso. apply Hk.
           apply list_elem_of_fmap. exists (k, filename). auto.
        -- left. exists filename. auto.
      * right. split.
        -- intros filename Hin. apply Hall. apply list_elem_of_further, Hin.
        -- right. split; [|exact Hself]. intros (-> & Hex & Hrd).
           apply (Hall fn); [apply list_elem_of_here|auto].
Qed.

(** The loop counts the pictures it stores. *)
Lemma load_fold_count template_dir (files : list (string * string)) :
  NoDup (files.*1) ->
  forall (self : t) (n : nat),
    (forall k, k ∈ files.*1 -> templates self !! k = None) ->
    let r := fold_left (load_one template_dir) files (self, n) in
    (size (templates (fst r)) + n = size (templates self) + snd r)%nat.
Proof.
  induction files as [|[k fn] files IH]; intros Hnd self n Hfresh; [reflexivity|].
  rewrite fmap_cons in Hnd, Hfresh. apply NoDup_cons in Hnd as [Hk Hnd].
  cbv zeta.
  change (fold_left (load_one template_dir) ((k, fn) :: files) (self, n))
    with (fold_left (load_one template_dir) files (load_one template_dir (self, n) (k, fn))).
  assert (templates self !! k = None) as Hself by (apply Hfresh, list_elem_of_here).
  assert (forall k', k' ∈ files.*1 -> templates self !! k' = None) as Hrest
    by (intros k' Hin; apply Hfresh, list_elem_of_further, Hin).
  remember (load_one template_dir (self, n) (k, fn)) as acc eqn:E.
  unfold load_one in E.
  destruct (path_exists (path_join template_dir fn));
    [destruct (imread (path_join template_dir fn)) as [template|]|];
    subst acc; try (apply (IH Hnd self n Hrest)).
  assert (forall k', k' ∈ files.*1 ->
            (<[k := template]> (templates self)) !! k' = None) as Hrest'.
  { intros k' Hin. rewrite lookup_insert_ne; [apply Hrest, Hin|].
    intros ->. contradiction. }
  pose proof (IH Hnd {| templates := <[k := template]> (templates self) |} (S n) Hrest')
    as H.
  cbv zeta in H. simpl in H.
  rewrite map_size_insert_None in H by exact Hself. lia.
Qed.

(** X1.  After [_load_templates] on a new manager, a name holds a picture
    exactly when the table lists a file for it that exists in the
    template directory and that [cv2.imread] can read, and it holds that
    picture; the count returned is the number of pictures held. *)
Theorem _load_templates_lookup (template_dir name : string) (img : Image) :
  let r := _load_templates template_dir __init__ in
  (templates (fst r) !! name = Some img <->
   exists filename,
     (name, filename) ∈ template_files /\
     path_exists (path_join template_dir filename) = true /\
     imread (path_join template_dir filename) = Some img) /\
  size (templates (fst r)) = snd r.
Proof.
  cbv zeta. unfold _load_templates. split.
  - rewrite (load_fold_lookup template_dir template_files template_files_NoDup).
    split; [|intros H; left; exact H].
    intros [H|[_ H]]; [exact H|]. simpl in H. rewrite lookup_empty in H. discriminate.
  - assert (forall k, k ∈ template_files.*1 -> templates __init__ !! k = None) as Hfresh
      by (intros k _; apply lookup_empty).
    pose proof (load_fold_count template_dir template_files template_files_NoDup
                  __init__ 0%nat Hfresh) as H.
    cbv zeta in H. change (templates __init__) with (∅ : gmap string Image) in H.
    rewrite map_size_empty in H. lia.
Qed.

(** X2.  A name whose picture file is missing from the directory that
    [initialize] chose is an unknown template afterwards: [find_template]
    answers the null detection with confidence 0 for it, on every screen
    and for every threshold. *)
Theorem find_template_missing_file (base_dir resolution name : string)
    (screen : Image) (threshold : Q) :
  let template_dir := fst (initialize base_dir resolution __init__) in
  let self := snd (initialize base_dir resolution __init__) in
  (forall filename, (name, filename) ∈ template_files ->
     path_exists (path_join template_dir filename) = false) ->
  find_template self screen name threshold = (None, None, 0%Q).
Proof.
  cbv zeta. unfold initialize. simpl fst. simpl snd. intros Hmissing.
  unfold find_template, _load_templates.
  destruct (templates _ !! name) as [img|] eqn:E; [|reflexivity].
  exfalso.
  apply (load_fold_lookup _ template_files template_files_NoDup) in E
    as [(filename & Hin & Hex & _)|[_ H]].
  - rewrite (Hmissing filename Hin) in Hex. discriminate.
  - simpl in H. rewrite lookup_empty in H. discriminate.
Qed.

(** X3.  The resolution label the window computes always selects one of
    the two resolution directories: the 2K one from 2560 by 1440 pixels,
    the 1K one below; the upper-case label is matched because
    [_get_template_directory] lowers it.  The directory is replaced by
    the default one exactly when it does not exist. *)
Theorem _get_template_directory_of_screen (base_dir : string) (width height : Z) :
  let wanted :=
    path_join base_dir
      (if (2560 <=? width) && (1440 <=? height) then BotConfig.TEMPLATE_2K_DIR
       else BotConfig.TEMPLATE_1K_DIR) in
  _get_template_directory base_dir (HayDayBotGUI._detect_screen_resolution width height) =
  if path_exists wanted then wanted else path_join base_dir BotConfig.TEMPLATE_DEFAULT_DIR.
Proof.
  cbv zeta. unfold _get_template_directory, HayDayBotGUI._detect_screen_resolution.
  change BotConfig.RESOLUTION_2K_WIDTH with 2560.
  change BotConfig.RESOLUTION_2K_HEIGHT with 1440.
  destruct ((2560 <=? width) && (1440 <=? height)); simpl;
    match goal with |- context [path_exists ?p] => destruct (path_exists p) end;
    reflexivity.
Qed.

End LoadingFacts.

(** X2, witness: the toy disk has no [silo.png]. *)
Lemma find_template_missing_file_witness :
  TemplateManager.find_template (cv := Toy.ToyCV)
    (snd (TemplateManager.initialize (cv := Toy.ToyCV) (fs := Toy.ToyFS) "/bot" "1K"
            (TemplateManager.__init__ (cv := Toy.ToyCV))))
    Toy.main_screen "silo" (7 # 10) = (None, None, 0%Q).
Proof.
  apply (find_template_missing_file (cv := Toy.ToyCV) (fs := Toy.ToyFS)
           "/bot" "1K" "silo" Toy.main_screen (7 # 10)).
  intros filename Hin.
  assert (filename = "silo.png") as ->.
  { unfold TemplateManager.template_files in Hin.
    repeat (apply elem_of_cons in Hin as [Hin|Hin]; [congruence|]).
    apply elem_of_nil in Hin. contradiction. }
  vm_compute. reflexivity.
Defined.

(** ** More on the location classifier *)

Section MoreLocationFacts.
Context {cv : OpenCV}.
Context (template_manager : TemplateManager.t).
Import Location.

Lemma singleton_lookup_other (k k' : string) (q : Q) :
  k <> k' -> is_Some (({[ k := q ]} : gmap string Q) !! k') -> False.
Proof. intros Hne [x Hx]. rewrite lookup_singleton_ne in Hx by exact Hne. discriminate. Qed.

(** A close button that was found makes the classifier answer something. *)
Lemma analyze_current_location_close_found (screen : Image) :
  let close := TemplateManager.find_template template_manager screen "close"
                 BotConfig.CLOSE_BUTTON_THRESHOLD in
  truthy (det_x close) = true -> truthy (det_y close) = true ->
  analyze_current_location template_manager screen <> ∅.
Proof.
  cbv zeta. unfold analyze_current_location.
  destruct (is_on_main_page template_manager screen) as [is_main main_conf].
  destruct (is_in_offer template_manager screen) as [in_offer offer_conf].
  destruct (is_in_market template_manager screen) as [in_market market_conf].
  destruct (is_in_paper_page template_manager screen) as [in_paper paper_conf].
  destruct (TemplateManager.find_template template_manager screen "silo" _)
    as [[silo_x silo_y] silo_conf].
  pose proof (find_template_located template_manager screen "close"
                BotConfig.CLOSE_BUTTON_THRESHOLD) as Hloc.
  destruct (TemplateManager.find_template template_manager screen "close" _)
    as [[close_x close_y] close_conf].
  unfold det_x, det_y, det_conf in *. simpl in *.
  intros Hx Hy. rewrite Hx, Hy, (Hloc (truthy_is_Some _ Hx)). simpl.
  repeat match goal with
         | |- context [if ?b then _ else _] => destruct b
         end; apply insert_non_empty.
Qed.

(** X4.  The classifier answers [main] only when the main page marker
    reaches its threshold and nothing else is on top of the farm: no silo
    popup was found, and the offer, market and newspaper pages all score
    below their priority thresholds.  The answer then holds [main] alone,
    with the confidence of the marker. *)
Theorem analyze_current_location_main (screen : Image) :
  let find name threshold :=
    TemplateManager.find_template template_manager screen name threshold in
  let silo := find "silo" BotConfig.SILO_POPUP_THRESHOLD in
  let main_conf := det_conf (find "main" BotConfig.MAIN_PAGE_THRESHOLD) in
  is_Some (analyze_current_location template_manager screen !! "main") ->
  analyze_current_location template_manager screen = {[ "main" := main_conf ]} /\
  (BotConfig.MAIN_PAGE_THRESHOLD <= main_conf)%Q /\
  (det_conf (find "in_offer" BotConfig.OFFER_PAGE_THRESHOLD)
     < BotConfig.OFFER_PAGE_PRIORITY_THRESHOLD)%Q /\
  (det_conf (find "market" BotConfig.MARKET_PAGE_THRESHOLD)
     < BotConfig.MARKET_PAGE_PRIORITY_THRESHOLD)%Q /\
  (det_conf (find "paper_page" BotConfig.PAPER_PAGE_THRESHOLD)
     < BotConfig.PAPER_PAGE_THRESHOLD)%Q /\
  truthy (det_x silo) && truthy (det_y silo) = false.
Proof.
  cbv zeta. unfold analyze_current_location, is_on_main_page, is_in_offer,
    is_in_market, is_in_paper_page.
  pose proof (find_template_located template_manager screen "silo"
                BotConfig.SILO_POPUP_THRESHOLD) as Hloc.
  destruct (TemplateManager.find_template template_manager screen "silo" _)
    as [[silo_x silo_y] silo_conf].
  destruct (TemplateManager.find_template template_manager screen "close" _)
    as [[close_x close_y] close_conf].
  destruct (TemplateManager.find_template template_manager screen "main" _)
    as [[main_x main_y] main_conf].
  destruct (TemplateManager.find_template template_manager screen "in_offer" _)
    as [[offer_x offer_y] offer_conf].
  destruct (TemplateManager.find_template template_manager screen "market" _)
    as [[market_x market_y] market_conf].
  destruct (TemplateManager.find_template template_manager screen "paper_page" _)
    as [[paper_x paper_y] paper_conf].
  unfold det_x, det_y, det_conf in *. simpl in *.
  destruct (truthy silo_x && truthy silo_y) eqn:Esilo.
  - simpl. apply andb_true_iff in Esilo as [Hx _].
    rewrite (Hloc (truthy_is_Some _ Hx)).
    intros H. exfalso. rewrite insert_empty in H.
    eapply singleton_lookup_other; [|exact H]; discriminate.
  - simpl.
    destruct (Qgeb paper_conf BotConfig.PAPER_PAGE_THRESHOLD) eqn:Epaper.
    { intros H. exfalso. rewrite insert_empty in H.
      eapply singleton_lookup_other; [|exact H]; discriminate. }
    destruct (Qgeb offer_conf BotConfig.OFFER_PAGE_PRIORITY_THRESHOLD) eqn:Eoffer.
    { intros H. exfalso. rewrite insert_empty in H.
      eapply singleton_lookup_other; [|exact H]; discriminate. }
    destruct (Qgeb market_conf BotConfig.MARKET_PAGE_PRIORITY_THRESHOLD
              && Qltb offer_conf BotConfig.OFFER_PAGE_PRIORITY_THRESHOLD) eqn:Emarket.
    { intros H. exfalso. rewrite insert_empty in H.
      eapply singleton_lookup_other; [|exact H]; discriminate. }
    destruct (Qgeb main_conf BotConfig.MAIN_PAGE_THRESHOLD
              && Qltb offer_conf BotConfig.OFFER_PAGE_PRIORITY_THRESHOLD
              && Qltb market_conf BotConfig.MARKET_PAGE_PRIORITY_THRESHOLD
              && Qltb paper_conf BotConfig.PAPER_PAGE_THRESHOLD) eqn:Emain.
    + intros _. apply andb_true_iff in Emain as [Emain Hpaper].
      apply andb_true_iff in Emain as [Emain Hmarket].
      apply andb_true_iff in Emain as [Hmain Hoffer].
      split; [apply insert_empty|].
      split; [apply Qgeb_true, Hmain|].
      split; [apply Qltb_true, Hoffer|].
      split; [apply Qltb_true, Hmarket|].
      split; [apply Qltb_true, Hpaper|reflexivity].
    + destruct (truthy close_x && truthy close_y
                && Qgeb close_conf BotConfig.CLOSE_BUTTON_THRESHOLD).
      * intros H. exfalso. rewrite insert_empty in H.
        eapply singleton_lookup_other; [|exact H]; discriminate.
      * intros [x Hx]. rewrite lookup_empty in Hx. discriminate.
Qed.

(** X5.  The market page outranks the main page: when no silo popup was
    found, the newspaper and offer pages score below their priority
    thresholds and the market page reaches its own, the classifier answers
    [market] alone, however well the main page marker matches. *)
Theorem analyze_current_location_market (screen : Image) :
  let find name threshold :=
    TemplateManager.find_template template_manager screen name threshold in
  let silo := find "silo" BotConfig.SILO_POPUP_THRESHOLD in
  let market_conf := det_conf (find "market" BotConfig.MARKET_PAGE_THRESHOLD) in
  truthy (det_x silo) && truthy (det_y silo) = false ->
  (det_conf (find "paper_page" BotConfig.PAPER_PAGE_THRESHOLD)
     < BotConfig.PAPER_PAGE_THRESHOLD)%Q ->
  (det_conf (find "in_offer" BotConfig.OFFER_PAGE_THRESHOLD)
     < BotConfig.OFFER_PAGE_PRIORITY_THRESHOLD)%Q ->
  (BotConfig.MARKET_PAGE_PRIORITY_THRESHOLD <= market_conf)%Q ->
  analyze_current_location template_manager screen = {[ "market" := market_conf ]}.
Proof.
  cbv zeta. unfold analyze_current_location, is_on_main_page, is_in_offer,
    is_in_market, is_in_paper_page.
  destruct (TemplateManager.find_template template_manager screen "silo" _)
    as [[silo_x silo_y] silo_conf].
  destruct (TemplateManager.find_template template_manager screen "close" _)
    as [[close_x close_y] close_conf].
  destruct (TemplateManager.find_template template_manager screen "main" _)
    as [[main_x main_y] main_conf].
  destruct (TemplateManager.find_template template_manager screen "in_offer" _)
    as [[offer_x offer_y] offer_conf].
  destruct (TemplateManager.find_template template_manager screen "market" _)
    as [[market_x market_y] market_conf].
  destruct (TemplateManager.find_template template_manager screen "paper_page" _)
    as [[paper_x paper_y] paper_conf].
  unfold det_x, det_y, det_conf in *. simpl.
  intros Hsilo Hpaper Hoffer Hmarket. rewrite Hsilo. simpl.
  apply Qgeb_false in Hpaper. rewrite Hpaper.
  pose proof Hoffer as Hoffer'. apply Qgeb_false in Hoffer. rewrite Hoffer.
  apply Qltb_true in Hoffer'. rewrite Hoffer'.
  apply Qgeb_true in Hmarket. rewrite Hmarket. simpl. apply insert_empty.
Qed.

(** X6.  The handler for unknown popups never acts.  It clicks when a
    close button is found while the classifier answers nothing; but a
    close button found at the same threshold makes the classifier answer
    [dialog_open] at least.  So the call returns [False] at once and
    leaves everything as it was, on every screen. *)
Theorem _check_and_handle_unknown_popups_idle (screen : Image) (env : Env) (w : World) :
  BotController._check_and_handle_unknown_popups template_manager screen env w
  = (Return false, w).
Proof.
  unfold BotController._check_and_handle_unknown_popups.
  destruct (BotController.found _) eqn:Efound; [|reflexivity].
  unfold BotController.found in Efound. apply andb_true_iff in Efound as [Hx Hy].
  pose proof (analyze_current_location_close_found screen Hx Hy) as Hne.
  unfold BotController._analyze_current_location.
  rewrite bool_decide_eq_false_2 by exact Hne. reflexivity.
Qed.

End MoreLocationFacts.

(** X4, witness: on the farm only the main page marker shows. *)
Lemma analyze_current_location_main_witness :
  Location.analyze_current_location (cv := Toy.ToyCV) Toy.usual_templates Toy.main_screen
  = {[ "main" := 95 # 100 ]}.
Proof.
  apply (analyze_current_location_main (cv := Toy.ToyCV) Toy.usual_templates Toy.main_screen).
  vm_compute. eauto.
Defined.

(** X5, witness: the market page matches with 0.9 and the main page
    marker with 0.95. *)
Lemma analyze_current_location_market_witness :
  Location.analyze_current_location (cv := Toy.ToyCV) Toy.usual_templates Toy.market_screen
  = {[ "market" := 9 # 10 ]}.
Proof.
  apply (analyze_current_location_market (cv := Toy.ToyCV) Toy.usual_templates
           Toy.market_screen); vm_compute; first [reflexivity | discriminate].
Defined.

(** ** More on the path generator *)

Section MorePathFacts.
Context {cv : OpenCV}.
Import PathGenerator.

Lemma py_range_bounds (start stop step x : Z) :
  0 < step -> In x (py_range start stop step) -> start <= x < stop.
Proof.
  intros Hstep Hin. unfold py_range in Hin.
  apply in_map_iff in Hin as [i [<- Hi]]. apply in_seq in Hi as [_ Hi]. simpl in Hi.
  assert (Z.of_nat i < (stop - start + step - 1) / step) as Hlt by lia.
  pose proof (Z.mul_div_le (stop - start + step - 1) step Hstep) as Hdiv.
  nia.
Qed.

Lemma fold_min_lower (lb d : Z) (l : list Z) :
  lb <= d -> (forall y, In y l -> lb <= y) -> lb <= fold_right Z.min d l.
Proof.
  intros Hd. induction l as [|y l IH]; intros Hall; simpl; [exact Hd|].
  apply Z.min_glb; [apply Hall; left; reflexivity|].
  apply IH. intros z Hz. apply Hall. right. exact Hz.
Qed.

Lemma fold_max_upper (ub d : Z) (l : list Z) :
  d <= ub -> (forall y, In y l -> y <= ub) -> fold_right Z.max d l <= ub.
Proof.
  intros Hd. induction l as [|y l IH]; intros Hall; simpl; [exact Hd|].
  apply Z.max_lub; [apply Hall; left; reflexivity|].
  apply IH. intros z Hz. apply Hall. right. exact Hz.
Qed.

Lemma py_min_lower (lb : Z) (l : list Z) :
  l <> [] -> (forall y, In y l -> lb <= y) -> lb <= py_min l.
Proof.
  intros Hne Hall. unfold py_min. apply fold_min_lower; [|exact Hall].
  destruct l as [|y l]; [contradiction|]. apply Hall. left. reflexivity.
Qed.

Lemma py_max_upper (ub : Z) (l : list Z) :
  l <> [] -> (forall y, In y l -> y <= ub) -> py_max l <= ub.
Proof.
  intros Hne Hall. unfold py_max. apply fold_max_upper; [|exact Hall].
  destruct l as [|y l]; [contradiction|]. apply Hall. left. reflexivity.
Qed.

(** The points of a scan along one axis lie between the bounds of the
    coarse scan that located the line. *)
Lemma scan_bounds (test : Z -> bool) (lo hi step x : Z) :
  0 < step ->
  let line_points := filter (fun v => test v = true) (py_range lo (hi + 1) 10) in
  line_points <> [] ->
  In x (filter (fun v => test v = true)
          (py_range (py_min line_points) (py_max line_points + 1) step)) ->
  lo <= x <= hi.
Proof.
  intros Hstep line_points Hne Hin.
  apply list_elem_of_In, list_elem_of_filter in Hin as [_ Hin].
  apply list_elem_of_In, (py_range_bounds _ _ _ _ Hstep) in Hin.
  assert (forall v, In v line_points -> lo <= v <= hi) as Hall.
  { intros v Hv. apply list_elem_of_In, list_elem_of_filter in Hv as [_ Hv].
    apply list_elem_of_In, py_range_bounds in Hv; lia. }
  assert (lo <= py_min line_points)
    by (apply py_min_lower; [exact Hne|]; intros v Hv; apply Hall, Hv).
  assert (py_max line_points <= hi)
    by (apply py_max_upper; [exact Hne|]; intros v Hv; apply Hall, Hv).
  lia.
Qed.

Lemma horizontal_line_box contour min_x max_x line_step y p :
  0 < line_step ->
  In p (horizontal_line contour min_x max_x line_step y) ->
  min_x <= fst p <= max_x /\ snd p = y.
Proof.
  intros Hstep. unfold horizontal_line.
  destruct (filter _ (py_range min_x (max_x + 1) 10)) as [|x0 xs] eqn:E; [intros []|].
  intros Hin. apply in_map_iff in Hin as [x [<- Hx]]. simpl. split; [|reflexivity].
  rewrite <- E in Hx.
  apply (scan_bounds (fun v => inside contour v y) min_x max_x line_step x Hstep);
    [rewrite E; discriminate|exact Hx].
Qed.

Lemma vertical_line_box contour min_y max_y step_size x p :
  0 < step_size ->
  In p (vertical_line contour min_y max_y step_size x) ->
  fst p = x /\ min_y <= snd p <= max_y.
Proof.
  intros Hstep. unfold vertical_line.
  destruct (filter _ (py_range min_y (max_y + 1) 10)) as [|y0 ys] eqn:E; [intros []|].
  intros Hin. apply in_map_iff in Hin as [y [<- Hy]]. simpl. split; [reflexivity|].
  rewrite <- E in Hy.
  apply (scan_bounds (fun v => inside contour x v) min_y max_y step_size y Hstep);
    [rewrite E; discriminate|exact Hy].
Qed.

(** X7.  Every point of a path other than its first and its last one
    lies in the bounding box of the contour, whatever the containment
    test answers: the scan lines are laid out between the extreme
    coordinates of the contour. *)
Theorem create_linear_path_bounding_box cx cy (contour : Contour) path_type path
    (min_x min_y max_x max_y : Z) (p : Point) :
  create_linear_path cx cy (Some contour) path_type = Some path ->
  np_min_axis0 contour = Some (min_x, min_y) ->
  np_max_axis0 contour = Some (max_x, max_y) ->
  In p (intermediate path) ->
  min_x <= fst p <= max_x /\ min_y <= snd p <= max_y.
Proof.
  unfold create_linear_path. intros E Hmin Hmax. rewrite Hmin, Hmax in E.
  injection E as <-. unfold intermediate. simpl.
  rewrite app_assoc, removelast_last. intros Hp.
  apply in_app_or in Hp as [Hp|Hp]; apply in_concat_map in Hp as [a [Ha Hp]].
  - apply horizontal_line_box in Hp as [Hx ->];
      [|destruct (String.eqb path_type "plant"); reflexivity].
    split; [exact Hx|].
    apply py_range_bounds in Ha;
      [|destruct (String.eqb path_type "plant"); reflexivity].
    destruct (String.eqb path_type "plant");
      [change (45 / 2) with 22 in Ha|change (55 / 2) with 27 in Ha]; lia.
  - apply vertical_line_box in Hp as [-> Hy];
      [|destruct (String.eqb path_type "plant"); reflexivity].
    split; [|exact Hy].
    apply py_range_bounds in Ha;
      [|destruct (String.eqb path_type "plant"); reflexivity].
    destruct (String.eqb path_type "plant");
      [change (45 / 2) with 22 in Ha|change (55 / 2) with 27 in Ha]; lia.
Qed.

End MorePathFacts.

(** X7, witness: the point (220, 122) of the planting path over the square
    field, whose corners are (100, 100) and (300, 300). *)
Lemma create_linear_path_bounding_box_witness :
  100 <= 220 <= 300 /\ 100 <= 122 <= 300.
Proof.
  destruct (PathGenerator.create_linear_path (cv := Toy.ToyCV) 200 200
              (Some Toy.square_field) "plant") as [path|] eqn:E;
    [|vm_compute in E; discriminate].
  apply (create_linear_path_bounding_box (cv := Toy.ToyCV) 200 200
           Toy.square_field "plant" path 100 100 300 300 (220, 122) E);
    [reflexivity|reflexivity|].
  vm_compute in E. injection E as <-. vm_compute. tauto.
Defined.

(** ** More on the soil detector *)

Section MoreSoilFacts.
Context {cv : OpenCV}.
Import SoilDetector.

Lemma py_max_by_spec {A : Type} (key : A -> Q) (l : list A) :
  forall best,
    In (py_max_by key best l) (best :: l) /\
    forall y, In y (best :: l) -> (key y <= key (py_max_by key best l))%Q.
Proof.
  induction l as [|x l IH]; intros best.
  - simpl. split; [left; reflexivity|]. intros y [<-|[]]. apply Qle_refl.
  - simpl py_max_by. destruct (IH (if Qgtb (key x) (key best) then x else best)) as [Hin Hmax].
    split.
    + destruct Hin as [Hin|Hin]; [|right; right; exact Hin].
      rewrite <- Hin. destruct (Qgtb (key x) (key best)); [right; left|left]; reflexivity.
    + intros y Hy.
      destruct (Qgtb (key x) (key best)) eqn:E.
      * apply Qgtb_true in E. destruct Hy as [<-|[<-|Hy]].
        -- eapply Qle_trans; [apply Qlt_le_weak, E|]. apply Hmax. left. reflexivity.
        -- apply Hmax. left. reflexivity.
        -- apply Hmax. right. exact Hy.
      * apply Qgtb_false in E. destruct Hy as [<-|[<-|Hy]].
        -- apply Hmax. left. reflexivity.
        -- eapply Qle_trans; [exact E|]. apply Hmax. left. reflexivity.
        -- apply Hmax. right. exact Hy.
Qed.

Lemma get_centroid_both (c : Contour) :
  is_Some (fst (get_centroid c)) <-> is_Some (snd (get_centroid c)).
Proof.
  unfold get_centroid. destruct (moments c) as [[m00 m10] m01].
  destruct (negb (Qeq_bool m00 0)); simpl; split; intros H; eauto;
    destruct H as [? [=]].
Qed.

(** X8.  What [detect_field] returns hangs together: a contour it
    returns is one of the contours of the combined mask and none of them
    has a larger area; the two coordinates of the centre come together
    or not at all; and without a contour there is no centre. *)
Theorem detect_field_result (self : t) (screen : Image) :
  let contours := findContours (combined_mask self screen) in
  match detect_field self screen with
  | (cx, cy, Some c) =>
      In c contours /\
      (forall c', In c' contours -> (contourArea c' <= contourArea c)%Q) /\
      (is_Some cx <-> is_Some cy)
  | (cx, cy, None) => cx = None /\ cy = None
  end.
Proof.
  cbv zeta. unfold detect_field, largest.
  destruct (findContours (combined_mask self screen)) as [|c0 rest]; [auto|].
  destruct (py_max_by_spec contourArea rest c0) as [Hin Hmax].
  destruct (Qltb min_area (contourArea (py_max_by contourArea c0 rest))
            && Qltb (contourArea (py_max_by contourArea c0 rest)) (max_area screen));
    [|auto].
  pose proof (get_centroid_both (py_max_by contourArea c0 rest)) as Hboth.
  destruct (get_centroid (py_max_by contourArea c0 rest)) as [cx cy].
  auto.
Qed.

Context {px : Pixels}.

Lemma inject_N_nonneg (n : N) : (0 <= inject_Z (Z.of_N n))%Q.
Proof. change 0%Q with (inject_Z 0). rewrite <- Zle_Qle. lia. Qed.

Lemma inject_N_pos (n : N) : (0 < n)%N -> (0 < inject_Z (Z.of_N n))%Q.
Proof. intros H. change 0%Q with (inject_Z 0). rewrite <- Zlt_Qlt. lia. Qed.

Lemma percent_nonneg (wheat field : N) :
  (0 < field)%N -> (0 <= inject_Z (Z.of_N wheat) / inject_Z (Z.of_N field) * 100)%Q.
Proof.
  intros Hf. apply Qmult_le_0_compat; [|discriminate].
  unfold Qdiv. apply Qmult_le_0_compat; [apply inject_N_nonneg|].
  apply Qlt_le_weak, Qinv_lt_0_compat, inject_N_pos, Hf.
Qed.

Lemma percent_monotone (wheat1 wheat2 field : N) :
  (0 < field)%N -> (wheat1 <= wheat2)%N ->
  (inject_Z (Z.of_N wheat1) / inject_Z (Z.of_N field) * 100 <=
   inject_Z (Z.of_N wheat2) / inject_Z (Z.of_N field) * 100)%Q.
Proof.
  intros Hf Hw. apply Qmult_le_compat_r; [|discriminate].
  unfold Qdiv. apply Qmult_le_compat_r.
  - rewrite <- Zle_Qle. lia.
  - apply Qlt_le_weak, Qinv_lt_0_compat, inject_N_pos, Hf.
Qed.

Lemma py_minQ_le_r (a b : Q) : (py_minQ a b <= b)%Q.
Proof.
  destruct (py_minQ_cases a b) as [[_ ->]|[H ->]]; [apply Qle_refl|exact H].
Qed.

Lemma py_minQ_glb (a b c : Q) : (c <= a)%Q -> (c <= b)%Q -> (c <= py_minQ a b)%Q.
Proof. intros Ha Hb. destruct (py_minQ_cases a b) as [[_ ->]|[_ ->]]; assumption. Qed.

Lemma py_minQ_monotone (a a' b : Q) : (a <= a')%Q -> (py_minQ a b <= py_minQ a' b)%Q.
Proof.
  intros H.
  destruct (py_minQ_cases a b) as [[H1 ->]|[H1 ->]];
    destruct (py_minQ_cases a' b) as [[H2 ->]|[H2 ->]]; lra.
Qed.

(** X9.  The coverage [count_wheat_coverage] reports is a percentage: it
    lies between 0 and 100 for every screen and every contour.  So a
    field is never ready for harvest at a threshold above 100, and always
    ready at a threshold of 0 or below. *)
Theorem count_wheat_coverage_range (screen : Image) (field_contour : option Contour) :
  (0 <= count_wheat_coverage screen field_contour)%Q /\
  (count_wheat_coverage screen field_contour <= 100)%Q /\
  (forall threshold, (100 < threshold)%Q ->
     is_ready_for_harvest screen field_contour threshold = false) /\
  (forall threshold, (threshold <= 0)%Q ->
     is_ready_for_harvest screen field_contour threshold = true).
Proof.
  assert ((0 <= count_wheat_coverage screen field_contour)%Q /\
          (count_wheat_coverage screen field_contour <= 100)%Q) as [Hlo Hhi].
  { unfold count_wheat_coverage. destruct field_contour as [c|]; [|split; discriminate].
    destruct (0 <? count_nonzero (field_mask screen c))%N eqn:E; [|split; discriminate].
    apply N.ltb_lt in E. split.
    - apply py_minQ_glb; [apply percent_nonneg, E|discriminate].
    - apply py_minQ_le_r. }
  split; [exact Hlo|]. split; [exact Hhi|]. split.
  - intros threshold Ht. unfold is_ready_for_harvest. apply Qgeb_false. lra.
  - intros threshold Ht. unfold is_ready_for_harvest. apply Qgeb_true. lra.
Qed.

(** X10.  For fields of the same size in pixels, the coverage does not
    go down when the number of wheat pixels inside the field goes up. *)
Theorem count_wheat_coverage_monotone (screen1 screen2 : Image) (c1 c2 : Contour) :
  count_nonzero (field_mask screen1 c1) = count_nonzero (field_mask screen2 c2) ->
  (count_nonzero (wheat_in_field screen1 c1) <= count_nonzero (wheat_in_field screen2 c2))%N ->
  (count_wheat_coverage screen1 (Some c1) <= count_wheat_coverage screen2 (Some c2))%Q.
Proof.
  intros Hfield Hwheat. unfold count_wheat_coverage. rewrite <- Hfield.
  destruct (0 <? count_nonzero (field_mask screen1 c1))%N eqn:E; [|apply Qle_refl].
  apply N.ltb_lt in E. apply py_minQ_monotone, percent_monotone; assumption.
Qed.

End MoreSoilFacts.

(** X10, witness: a quarter of the square field carries wheat on the
    first screen, all of it on the second. *)
Lemma count_wheat_coverage_monotone_witness :
  Qle (SoilDetector.count_wheat_coverage (cv := Toy.ToyCV) (px := Toy.ToyPixels)
         (Toy.wheat_screen [[(100, 100); (200, 200)]]) (Some Toy.square_field))
      (SoilDetector.count_wheat_coverage (cv := Toy.ToyCV) (px := Toy.ToyPixels)
         (Toy.wheat_screen [Toy.square_field]) (Some Toy.square_field)).
Proof.
  apply (count_wheat_coverage_monotone (cv := Toy.ToyCV) (px := Toy.ToyPixels)
           (Toy.wheat_screen [[(100, 100); (200, 200)]])
           (Toy.wheat_screen [Toy.square_field]) Toy.square_field Toy.square_field).
  - vm_compute. reflexivity.
  - vm_compute. discriminate.
Defined.

(** ** The detection task *)

Section DetectionFacts.
Context {cv : OpenCV} {px : Pixels}.
Context (soil_detector : SoilDetector.t) (template_manager : TemplateManager.t).
Import DetectionManager.

(** Every snapshot computed from a picture hangs together. *)
Lemma detect_consistent (frame : Image) :
  consistent (detect soil_detector template_manager frame).
Proof.
  unfold detect.
  pose proof (detect_field_result soil_detector frame) as Hfield. cbv zeta in Hfield.
  destruct (SoilDetector.detect_field soil_detector frame) as [[cx cy] [c|]].
  - pose proof (count_wheat_coverage_range frame (Some c)) as (Hlo & Hhi & _).
    destruct (TemplateManager.find_template template_manager frame "silo" (6 # 10))
      as [[silo_x silo_y] confidence].
    unfold consistent. simpl.
    split; [eauto|]. split; [discriminate|].
    split; [unfold SoilDetector.is_ready_for_harvest; apply Qgeb_true|].
    split; [exact Hlo|]. split; [exact Hhi|].
    destruct (bool_decide (is_Some silo_x) && bool_decide (is_Some silo_y)); simpl.
    + split; eauto.
    + split; [discriminate|intros [? [=]]].
  - destruct Hfield as [-> ->].
    destruct (TemplateManager.find_template template_manager frame "silo" (6 # 10))
      as [[silo_x silo_y] confidence].
    unfold consistent. simpl.
    split; [intros [? [=]]|]. split; [intros _; split; reflexivity|].
    split; [split; [discriminate|intros H; exfalso; revert H; apply Qlt_not_le; reflexivity]|].
    split; [discriminate|]. split; [discriminate|].
    destruct (bool_decide (is_Some silo_x) && bool_decide (is_Some silo_y)); simpl.
    + split; eauto.
    + split; [discriminate|intros [? [=]]].
Qed.

(** X11.  Both writers of the shared snapshot keep it consistent: a pass
    of the detection loop, whether it detects, only refreshes the
    display, is switched off or fails to capture the screen; and the
    bot's own reset of the storage fields after it closed the silo
    popup. *)
Theorem detection_pass_consistent (visual_display : bool) (b : BotState)
    (screen_capture : ScreenCapture.t) (current_time : Q) (grab : option Image)
    (d : DetectionState) :
  consistent d ->
  consistent (snd (detection_pass soil_detector template_manager visual_display b
                     screen_capture current_time grab d)) /\
  consistent (clear_storage d).
Proof.
  intros Hd. split.
  - unfold detection_pass, _capture_and_detect.
    destruct (detection_active b); [|exact Hd].
    destruct (negb (path_execution_active b)).
    + destruct (ScreenCapture.capture_screen screen_capture true current_time grab)
        as [[frame|] sc]; simpl; [apply detect_consistent|exact Hd].
    + destruct visual_display; exact Hd.
  - destruct Hd as (H1 & H2 & H3 & H4 & H5 & H6).
    unfold consistent, clear_storage. simpl.
    split; [exact H1|]. split; [exact H2|]. split; [exact H3|].
    split; [exact H4|]. split; [exact H5|].
    split; [discriminate|intros [? [=]]].
Qed.

(** X12.  While the bot follows a locked path the detection loop stores
    nothing: a pass made with [path_execution_active] set leaves the
    snapshot exactly as it was, and so does a pass with detection
    switched off.  For every snapshot a pass does store, the two tests of
    the harvest trigger, [is_wheat_ready] and a coverage above 30,
    amount to the second alone. *)
Theorem detection_pass_skips (visual_display : bool) (b : BotState)
    (screen_capture : ScreenCapture.t) (current_time : Q) (grab : option Image)
    (d : DetectionState) (frame : Image) :
  let stored := detect soil_detector template_manager frame in
  (path_execution_active b || negb (detection_active b) = true ->
   snd (detection_pass soil_detector template_manager visual_display b
          screen_capture current_time grab d) = d) /\
  is_wheat_ready stored && Qgtb (wheat_coverage stored) 30 = Qgtb (wheat_coverage stored) 30.
Proof.
  cbv zeta. split.
  - unfold detection_pass. intros H.
    destruct (detection_active b); [|reflexivity].
    destruct (path_execution_active b); [|discriminate]. simpl.
    destruct visual_display; reflexivity.
  - destruct (detect_consistent frame) as (_ & _ & Hready & _).
    destruct (Qgtb (wheat_coverage (detect soil_detector template_manager frame)) 30) eqn:E;
      [|apply andb_false_r].
    apply Qgtb_true in E. rewrite andb_true_r. apply Hready. lra.
Qed.

End DetectionFacts.

(** ** The screen cache *)

Section CacheFacts.
Context {cv : OpenCV}.
Import ScreenCapture.

(** What [capture_screen] returns and leaves behind. *)
Lemma capture_screen_cases (self : t) use_cache current_time grab :
  (exists cached,
      _cached_screen self = Some cached /\ use_cache = true /\
      (current_time - _last_capture_time self < _cache_duration)%Q /\
      capture_screen self use_cache current_time grab = (Some cached, self)) \/
  (capture_screen self use_cache current_time grab =
   (grab,
    match grab with
    | Some screen =>
        if use_cache
        then {| _last_capture_time := current_time; _cached_screen := Some screen |}
        else self
    | None => self
    end)).
Proof.
  unfold capture_screen.
  destruct (_cached_screen self) as [cached|] eqn:Ec.
  - destruct (use_cache && Qltb (current_time - _last_capture_time self) _cache_duration)
      eqn:E.
    + left. apply andb_true_iff in E as [-> E]. apply Qltb_true in E.
      exists cached. auto.
    + right. destruct grab; reflexivity.
  - right. destruct grab; reflexivity.
Qed.

Lemma serve_fresh_or_recent (calls : list Call) :
  forall (prefix : list Call) (self : t),
    (forall img, _cached_screen self = Some img ->
       exists j, prefix !! j = Some (CallCapture true (_last_capture_time self) (Some img))) ->
    forall (i : nat) use_cache current_time grab img,
      calls !! i = Some (CallCapture use_cache current_time grab) ->
      serve self calls !! i = Some (Some img) ->
      grab = Some img \/
      (use_cache = true /\
       exists j earlier,
         (j < length prefix + i)%nat /\
         (prefix ++ calls) !! j = Some (CallCapture true earlier (Some img)) /\
         (current_time - earlier < _cache_duration)%Q).
Proof.
  induction calls as [|call calls IH]; intros prefix self Hinv i uc t g img Hcall Hserve.
  - rewrite lookup_nil in Hcall. discriminate.
  - destruct i as [|i].
    + simpl in Hcall. injection Hcall as ->. simpl in Hserve.
      destruct (capture_screen_cases self uc t g) as [(cached & Hc & -> & Hlt & E)|E];
        rewrite E in Hserve; simpl in Hserve; injection Hserve as Himg.
      * subst cached. right. split; [reflexivity|].
        destruct (Hinv img Hc) as [j Hj]. exists j, (_last_capture_time self).
        split; [apply lookup_lt_Some in Hj; lia|].
        split; [rewrite lookup_app_l by (apply lookup_lt_Some in Hj; exact Hj); exact Hj|].
        exact Hlt.
      * left. exact Himg.
    + simpl in Hcall.
      assert (exists self',
                 serve self (call :: calls) = hd None (serve self (call :: calls)) :: serve self' calls /\
                 forall img', _cached_screen self' = Some img' ->
                   exists j, (prefix ++ [call]) !! j
                             = Some (CallCapture true (_last_capture_time self') (Some img')))
        as (self' & Hs & Hinv').
      { destruct call as [uc0 t0 g0|].
        - simpl.
          destruct (capture_screen_cases self uc0 t0 g0) as [(cached & Hc & -> & Hlt & E)|E];
            rewrite E.
          + exists self. split; [reflexivity|]. intros img' Himg'.
            destruct (Hinv img' Himg') as [j Hj]. exists j.
            rewrite lookup_app_l by (apply lookup_lt_Some in Hj; exact Hj). exact Hj.
          + eexists. split; [reflexivity|]. intros img' Himg'.
            destruct g0 as [s|]; [destruct uc0|].
            * simpl in Himg'. injection Himg' as <-. exists (length prefix). simpl.
              rewrite lookup_app_r by lia. rewrite Nat.sub_diag. reflexivity.
            * destruct (Hinv img' Himg') as [j Hj]. exists j.
              rewrite lookup_app_l by (apply lookup_lt_Some in Hj; exact Hj). exact Hj.
            * destruct (Hinv img' Himg') as [j Hj]. exists j.
              rewrite lookup_app_l by (apply lookup_lt_Some in Hj; exact Hj). exact Hj.
        - simpl. exists (invalidate_cache self). split; [reflexivity|].
          intros img' Himg'. simpl in Himg'. discriminate. }
      rewrite Hs in Hserve. simpl in Hserve.
      destruct (IH (prefix ++ [call]) self' Hinv' i uc t g img Hcall Hserve)
        as [H|[-> (j & earlier & Hj & Hlook & Hlt)]]; [left; exact H|].
      right. split; [reflexivity|]. exists j, earlier.
      rewrite length_app in Hj. simpl in Hj.
      split; [lia|]. split; [|exact Hlt].
      rewrite <- app_assoc in Hlook. exact Hlook.
Qed.

(** X13.  The cache never serves an old picture.  In any sequence of
    calls on a new [ScreenCapture], a picture returned by
    [capture_screen] is the one grabbed by that very call, or, for a
    caching call only, one grabbed by an earlier caching call whose clock
    reading lies less than 50 ms before.  A call with [use_cache=False]
    always returns its own grab. *)
Theorem capture_screen_fresh_or_recent (calls : list Call) (i : nat)
    (use_cache : bool) (current_time : Q) (grab : option Image) (img : Image) :
  calls !! i = Some (CallCapture use_cache current_time grab) ->
  serve __init__ calls !! i = Some (Some img) ->
  grab = Some img \/
  (use_cache = true /\
   exists j earlier,
     (j < i)%nat /\
     calls !! j = Some (CallCapture true earlier (Some img)) /\
     (current_time - earlier < _cache_duration)%Q).
Proof.
  intros Hcall Hserve.
  apply (serve_fresh_or_recent calls [] __init__) with (i := i) (img := img) in Hcall;
    [exact Hcall| |exact Hserve].
  intros img' H. simpl in H. discriminate.
Qed.

End CacheFacts.

(** X11, witness: the snapshot with which the program starts, and a pass
    of the detection loop over a screen full of wheat. *)
Lemma detection_pass_consistent_witness :
  consistent (cv := Toy.ToyCV)
    (snd (DetectionManager.detection_pass (cv := Toy.ToyCV) (px := Toy.ToyPixels)
            Toy.bare_detector Toy.usual_templates true Toy.idle_bot_state
            (ScreenCapture.__init__ (cv := Toy.ToyCV)) 0
            (Some (Toy.wheat_screen [Toy.square_field])) Toy.no_detection)) /\
  consistent (cv := Toy.ToyCV) (clear_storage Toy.no_detection).
Proof.
  apply (detection_pass_consistent (cv := Toy.ToyCV) (px := Toy.ToyPixels)
           Toy.bare_detector Toy.usual_templates true Toy.idle_bot_state
           (ScreenCapture.__init__ (cv := Toy.ToyCV)) 0
           (Some (Toy.wheat_screen [Toy.square_field])) Toy.no_detection).
  unfold consistent. simpl.
  split; [intros [? [=]]|]. split; [intros _; split; reflexivity|].
  split; [split; [discriminate|intros H; vm_compute in H; exfalso; apply H; reflexivity]|].
  split; [discriminate|]. split; [discriminate|].
  split; [discriminate|intros [? [=]]].
Defined.

(** X13, witness: a caching call 30 ms after another one is served the
    picture of the first. *)
Lemma capture_screen_fresh_or_recent_witness :
  Some Toy.market_screen = Some Toy.main_screen \/
  (true = true /\
   exists j earlier,
     (j < 1)%nat /\
     [CallCapture (cv := Toy.ToyCV) true 0 (Some Toy.main_screen);
      CallCapture (cv := Toy.ToyCV) true (3 # 100) (Some Toy.market_screen)] !! j
       = Some (CallCapture (cv := Toy.ToyCV) true earlier (Some Toy.main_screen)) /\
     ((3 # 100) - earlier < ScreenCapture._cache_duration)%Q).
Proof.
  apply (capture_screen_fresh_or_recent (cv := Toy.ToyCV)
           [CallCapture (cv := Toy.ToyCV) true 0 (Some Toy.main_screen);
            CallCapture (cv := Toy.ToyCV) true (3 # 100) (Some Toy.market_screen)] 1 true (3 # 100)
           (Some Toy.market_screen) Toy.main_screen).
  - reflexivity.
  - vm_compute. reflexivity.
Defined.

(** ** Rules for [follows] *)

Create HintDb follows discriminated.

Section FollowsRules.
Context {cv : OpenCV}.
Context (G : list Event -> Prop) `{!Discipline G}.

Lemma follows_ret {A : Type} (a : A) : follows G (mret a).
Proof. intros env w. exists []. split; [reflexivity|apply disc_nil]. Qed.

Lemma follows_bind {A B : Type} (m : M A) (f : A -> M B) :
  follows G m -> (forall a, follows G (f a)) -> follows G (m ≫= f).
Proof.
  intros Hm Hf env w. rewrite run_bind.
  destruct (Hm env w) as (n1 & E1 & G1).
  destruct (m env w) as [[a| |] w1]; simpl in *; [|exists n1; auto..].
  destruct (Hf a env w1) as (n2 & E2 & G2). exists (n2 ++ n1).
  split; [rewrite E2, E1, app_assoc; reflexivity|apply disc_app; assumption].
Qed.

Lemma follows_try_except {A : Type} (body handler : M A) :
  follows G body -> follows G handler -> follows G (try_except body handler).
Proof.
  intros Hb Hh env w. rewrite run_try_except.
  destruct (Hb env w) as (n1 & E1 & G1).
  destruct (body env w) as [[a| |] w1]; simpl in *; [exists n1; auto| |exists n1; auto].
  destruct (Hh env w1) as (n2 & E2 & G2). exists (n2 ++ n1).
  split; [rewrite E2, E1, app_assoc; reflexivity|apply disc_app; assumption].
Qed.

Lemma follows_modify_world (f : World -> World) :
  (forall w, events (f w) = events w) -> follows G (modify_world f).
Proof.
  intros Hf env w. exists []. split; [apply Hf|apply disc_nil].
Qed.

Lemma follows_emit (e : Event) : G [e] -> follows G (emit e).
Proof. intros He env w. exists [e]. split; [reflexivity|exact He]. Qed.

Lemma follows_get_world : follows G get_world.
Proof. intros env w. exists []. split; [reflexivity|apply disc_nil]. Qed.

Lemma follows_ask {A : Type} (f : Env -> nat -> A) : follows G (ask f).
Proof. intros env w. exists []. split; [reflexivity|apply disc_nil]. Qed.

Lemma follows_raise {A : Type} : follows G (raise (A := A)).
Proof. intros env w. exists []. split; [reflexivity|apply disc_nil]. Qed.

Lemma follows_out_of_fuel {A : Type} : follows G (out_of_fuel (A := A)).
Proof. intros env w. exists []. split; [reflexivity|apply disc_nil]. Qed.

Lemma follows_log_msg (m : LogMsg) : follows G (log_msg m).
Proof. apply follows_modify_world. reflexivity. Qed.

Lemma follows_write_bot_state (f : BotState -> BotState) : follows G (write_bot_state f).
Proof.
  intros env w. exists [EvBotState (bot_state w) (f (bot_state w))].
  split; [reflexivity|apply disc_write].
Qed.

Lemma follows_time_sleep (seconds : Q) :
  (seconds <= 2)%Q -> follows G (time_sleep seconds).
Proof. intros H. apply follows_emit, disc_sleep, H. Qed.

Lemma follows_time_time : follows G time_time.
Proof. apply follows_ask. Qed.

Lemma follows_capture_screen : follows G capture_screen.
Proof.
  unfold capture_screen. apply follows_bind; [apply follows_ask|].
  intros [img|]; [apply follows_ret|apply follows_raise].
Qed.

Lemma follows_read_bot_state : follows G read_bot_state.
Proof.
  unfold read_bot_state. apply follows_bind; [apply follows_get_world|].
  intros w. apply follows_ret.
Qed.

Lemma follows_read_detection_state : follows G read_detection_state.
Proof.
  unfold read_detection_state. apply follows_bind; [apply follows_ask|].
  intros [d|];
    (apply follows_bind;
     [|intros _; apply follows_bind; [apply follows_get_world|intros w; apply follows_ret]]);
    [apply follows_modify_world; reflexivity|apply follows_ret].
Qed.

Lemma follows_stop_bot : follows G stop_bot.
Proof.
  unfold stop_bot. apply follows_bind; [apply follows_modify_world; reflexivity|].
  intros _. apply follows_bind; intros; apply follows_write_bot_state.
Qed.

Lemma follows_start_bot : follows G start_bot.
Proof.
  unfold start_bot. apply follows_bind; [apply follows_write_bot_state|].
  intros _. apply follows_modify_world. reflexivity.
Qed.

Lemma follows_gui_sync : follows G gui_sync.
Proof.
  unfold gui_sync. apply follows_bind; [apply follows_ask|].
  intros [| |]; [apply follows_ret|apply follows_stop_bot|apply follows_start_bot].
Qed.

(** *** The looks at the shared flags, step by step *)

Lemma gui_sync_returns env w : exists w1, gui_sync env w = (Return tt, w1).
Proof.
  unfold gui_sync, ask. rewrite run_bind. simpl.
  destruct (env_gui env (clock w)); eexists; reflexivity.
Qed.

Lemma read_running_run env w :
  exists w1 new,
    read_running env w = (Return (running (bot_state w1)), w1) /\
    events w1 = new ++ events w /\ G new.
Proof.
  destruct (follows_gui_sync env w) as (new & E & HG).
  destruct (gui_sync_returns env w) as [w1 Hs].
  exists w1, new. unfold read_running. rewrite run_bind, Hs.
  rewrite Hs in E. simpl in E. split; [reflexivity|auto].
Qed.

Lemma is_set_run env w :
  exists w1 new,
    is_set env w = (Return (stop_event w1), with_event (EvStopCheck (stop_event w1)) w1) /\
    events w1 = new ++ events w /\ G new.
Proof.
  destruct (follows_gui_sync env w) as (new & E & HG).
  destruct (gui_sync_returns env w) as [w1 Hs].
  exists w1, new. unfold is_set. rewrite run_bind, Hs.
  rewrite Hs in E. simpl in E. split; [reflexivity|auto].
Qed.

Lemma follows_read_running : follows G read_running.
Proof.
  intros env w. destruct (read_running_run env w) as (w1 & new & E & He & HG).
  rewrite E. exists new. auto.
Qed.

Lemma follows_is_set : follows G is_set.
Proof.
  intros env w. destruct (is_set_run env w) as (w1 & new & E & He & HG).
  rewrite E. exists (EvStopCheck (stop_event w1) :: new). simpl.
  split; [rewrite He; reflexivity|].
  apply (disc_app new [EvStopCheck (stop_event w1)]); [exact HG|apply disc_look].
Qed.

(** [not self.bot_state.running or self.stop_event.is_set()] returns, and
    when it answers [False] the last thing it did was to find the stop
    signal clear. *)
Lemma not_running_or_stopped_run env w :
  exists b w1 new,
    BotOperations.not_running_or_stopped env w = (Return b, w1) /\
    events w1 = new ++ events w /\ G new /\
    (b = false -> exists rest, new = EvStopCheck false :: rest).
Proof.
  unfold BotOperations.not_running_or_stopped. rewrite run_bind.
  destruct (read_running_run env w) as (w1 & n1 & E1 & He1 & G1). rewrite E1.
  destruct (running (bot_state w1)).
  - destruct (is_set_run env w1) as (w2 & n2 & E2 & He2 & G2). rewrite E2.
    exists (stop_event w2), (with_event (EvStopCheck (stop_event w2)) w2),
      (EvStopCheck (stop_event w2) :: n2 ++ n1).
    split; [reflexivity|]. split; [simpl; rewrite He2, He1, app_assoc; reflexivity|].
    split.
    + apply (disc_app (n2 ++ n1) [EvStopCheck (stop_event w2)]); [|apply disc_look].
      apply disc_app; assumption.
    + intros ->. eauto.
  - exists true, w1, n1. split; [reflexivity|]. split; [exact He1|].
    split; [exact G1|discriminate].
Qed.

Lemma follows_not_running_or_stopped : follows G BotOperations.not_running_or_stopped.
Proof.
  intros env w. destruct (not_running_or_stopped_run env w) as (b & w1 & new & E & He & HG & _).
  rewrite E. exists new. auto.
Qed.

End FollowsRules.

Ltac follows_step :=
  match goal with
  | |- follows _ (mret _) => apply follows_ret
  | |- follows _ (_ ≫= _) => apply follows_bind; [|intros ?]
  | |- follows _ (try_except _ _) => apply follows_try_except
  | |- follows _ (match ?x with _ => _ end) => destruct x
  end.

Ltac follows_auto := repeat first [ solve [eauto 3 with follows] | follows_step ].

#[export] Hint Resolve follows_ret follows_get_world follows_ask follows_raise
  follows_out_of_fuel follows_log_msg follows_write_bot_state follows_time_time
  follows_capture_screen follows_read_bot_state follows_read_detection_state
  follows_stop_bot follows_start_bot follows_gui_sync follows_read_running
  follows_is_set follows_not_running_or_stopped : follows.

#[export] Hint Extern 1 (follows _ (time_sleep _)) =>
  apply follows_time_sleep; vm_compute; discriminate : follows.

#[export] Hint Extern 1 (follows _ (modify_world _)) =>
  apply follows_modify_world; intros; reflexivity : follows.

(** ** Every operation follows every discipline *)

Section FollowsOperations.
Context {cv : OpenCV}.
Context (G : list Event -> Prop) `{!Discipline G}.
Context (template_manager : TemplateManager.t).

Lemma py_minQ_le_l (a b : Q) : (py_minQ a b <= a)%Q.
Proof.
  destruct (py_minQ_cases a b) as [[H ->]|[_ ->]]; [apply Qlt_le_weak, H|apply Qle_refl].
Qed.

Lemma follows_sleep_loop (chunk_size total_time : Q) (fuel : nat) :
  (chunk_size <= 2)%Q ->
  forall elapsed, follows G (BotOperations.sleep_loop chunk_size total_time fuel elapsed).
Proof.
  intros Hc. induction fuel as [|fuel IH]; intros elapsed; simpl;
    destruct (Qltb elapsed total_time); follows_auto.
  apply follows_time_sleep. eapply Qle_trans; [apply py_minQ_le_l|exact Hc].
Qed.

Lemma follows_chunked_sleep (chunk_size total_time : Q) :
  (chunk_size <= 2)%Q -> follows G (BotOperations.chunked_sleep chunk_size total_time).
Proof.
  intros Hc. unfold BotOperations.chunked_sleep.
  apply follows_bind; [apply follows_sleep_loop, Hc|intros _; apply follows_is_set].
Qed.

Lemma follows_interruptible_sleep (total_time : Q) :
  follows G (BotOperations.interruptible_sleep total_time).
Proof. apply follows_chunked_sleep. vm_compute. discriminate. Qed.
Hint Resolve follows_interruptible_sleep : follows.

Lemma follows__interruptible_sleep (total_time : Q) :
  follows G (DetectionManager._interruptible_sleep total_time).
Proof. apply follows_chunked_sleep. vm_compute. discriminate. Qed.

(** A click is made only right after the stop signal was found clear. *)
Lemma follows_safe_click (x y : option Z) : follows G (BotOperations.safe_click x y).
Proof.
  intros env w. unfold BotOperations.safe_click. rewrite run_bind.
  destruct (not_running_or_stopped_run G env w) as (b & w1 & new & E & He & HG & Hb).
  rewrite E. destruct b; [exists new; auto|].
  destruct (Hb eq_refl) as [rest ->].
  rewrite run_bind. unfold pag_click at 1. rewrite run_bind. unfold ask at 1. simpl.
  destruct (env_fault env (clock w1)); simpl; [exists (EvStopCheck false :: rest); auto|].
  assert (follows G (BotOperations.interruptible_sleep BotConfig.DEFAULT_CLICK_DELAY
                       ≫= fun interrupted : bool => mret (negb interrupted))) as Hk
    by follows_auto.
  destruct (Hk env (with_event (EvClick x y) (with_tick w1))) as (n2 & E2 & G2).
  exists (n2 ++ EvClick x y :: EvStopCheck false :: rest).
  split; [rewrite E2; simpl; rewrite He, <- app_assoc; reflexivity|].
  apply disc_app; [apply disc_click, HG|exact G2].
Qed.
Hint Resolve follows_safe_click : follows.

(** *** Market and controller steps: they only click *)

Lemma follows_close_silo_with_template screen :
  follows G (MarketOperations.close_silo_with_template template_manager screen).
Proof. unfold MarketOperations.close_silo_with_template. follows_auto. Qed.
Hint Resolve follows_close_silo_with_template : follows.

Lemma follows_check_silo_full_template screen :
  follows G (MarketOperations.check_silo_full_template template_manager screen).
Proof. unfold MarketOperations.check_silo_full_template. follows_auto. Qed.
Hint Resolve follows_check_silo_full_template : follows.

Lemma follows_market_check_and_dismiss screen :
  follows G (MarketOperations._check_and_dismiss_loading_screen_with_click
               template_manager screen).
Proof. unfold MarketOperations._check_and_dismiss_loading_screen_with_click. follows_auto. Qed.
Hint Resolve follows_market_check_and_dismiss : follows.

Lemma follows_wait_for_market attempts :
  follows G (MarketOperations.wait_for_market template_manager attempts).
Proof. induction attempts as [|attempts IH]; simpl; follows_auto. Qed.
Hint Resolve follows_wait_for_market : follows.

Lemma follows_go_to_market_template screen :
  follows G (MarketOperations.go_to_market_template template_manager screen).
Proof. unfold MarketOperations.go_to_market_template. follows_auto. Qed.
Hint Resolve follows_go_to_market_template : follows.

Lemma follows_collect_rounds attempts total_collected :
  follows G (MarketOperations.collect_rounds template_manager attempts total_collected).
Proof.
  revert total_collected.
  induction attempts as [|attempts IH]; intros total_collected; simpl; follows_auto.
Qed.
Hint Resolve follows_collect_rounds : follows.

Lemma follows_collect_sold_items_template :
  follows G (MarketOperations.collect_sold_items_template template_manager).
Proof. unfold MarketOperations.collect_sold_items_template. follows_auto. Qed.
Hint Resolve follows_collect_sold_items_template : follows.

Lemma follows_maximize_loop dn an dt at_ polls :
  follows G (MarketOperations.maximize_loop template_manager dn an dt at_ polls).
Proof. induction polls as [|polls IH]; simpl; follows_auto. Qed.
Hint Resolve follows_maximize_loop : follows.

Lemma follows_create_wheat_advertisement_template x y :
  follows G (MarketOperations.create_wheat_advertisement_template template_manager x y).
Proof.
  unfold MarketOperations.create_wheat_advertisement_template,
    MarketOperations.maximize_quantity_step, MarketOperations.maximize_price_step.
  follows_auto.
Qed.
Hint Resolve follows_create_wheat_advertisement_template : follows.

Lemma follows_fill_slots attempts filled :
  follows G (MarketOperations.fill_slots template_manager attempts filled).
Proof.
  revert filled. induction attempts as [|attempts IH]; intros filled; simpl; follows_auto.
Qed.
Hint Resolve follows_fill_slots : follows.

Lemma follows_fill_market_with_wheat_template :
  follows G (MarketOperations.fill_market_with_wheat_template template_manager).
Proof. unfold MarketOperations.fill_market_with_wheat_template. follows_auto. Qed.
Hint Resolve follows_fill_market_with_wheat_template : follows.

Lemma follows_close_market_template screen :
  follows G (MarketOperations.close_market_template template_manager screen).
Proof. unfold MarketOperations.close_market_template. follows_auto. Qed.
Hint Resolve follows_close_market_template : follows.

Lemma follows_create_advertisement_workflow screen :
  follows G (MarketOperations.create_advertisement_workflow template_manager screen).
Proof. unfold MarketOperations.create_advertisement_workflow. follows_auto. Qed.
Hint Resolve follows_create_advertisement_workflow : follows.

Lemma follows_check_and_create_advertisement screen :
  follows G (MarketOperations.check_and_create_advertisement template_manager screen).
Proof. unfold MarketOperations.check_and_create_advertisement. follows_auto. Qed.
Hint Resolve follows_check_and_create_advertisement : follows.

Lemma follows_handle_market_workflow_template :
  follows G (MarketOperations.handle_market_workflow_template template_manager).
Proof. unfold MarketOperations.handle_market_workflow_template. follows_auto. Qed.
Hint Resolve follows_handle_market_workflow_template : follows.

Lemma follows__handle_market_workflow :
  follows G (BotController._handle_market_workflow template_manager).
Proof. unfold BotController._handle_market_workflow. follows_auto. Qed.
Hint Resolve follows__handle_market_workflow : follows.

Lemma follows_controller_check_and_dismiss screen :
  follows G (BotController._check_and_dismiss_loading_screen_with_click
               template_manager screen).
Proof. unfold BotController._check_and_dismiss_loading_screen_with_click. follows_auto. Qed.
Hint Resolve follows_controller_check_and_dismiss : follows.

Lemma follows__get_screen_with_loading_check :
  follows G (BotController._get_screen_with_loading_check template_manager).
Proof. unfold BotController._get_screen_with_loading_check. follows_auto. Qed.
Hint Resolve follows__get_screen_with_loading_check : follows.

Lemma follows_click_close screen :
  follows G (BotController.click_close template_manager screen).
Proof. unfold BotController.click_close. follows_auto. Qed.
Hint Resolve follows_click_close : follows.

Lemma follows_smart_return_attempt :
  follows G (BotController.smart_return_attempt template_manager).
Proof. unfold BotController.smart_return_attempt. follows_auto. Qed.
Hint Resolve follows_smart_return_attempt : follows.

Lemma follows_smart_return_loop attempts :
  follows G (BotController.smart_return_loop template_manager attempts).
Proof. induction attempts as [|attempts IH]; simpl; follows_auto. Qed.
Hint Resolve follows_smart_return_loop : follows.

Lemma follows__smart_return_to_main :
  follows G (BotController._smart_return_to_main template_manager).
Proof. apply follows_smart_return_loop. Qed.
Hint Resolve follows__smart_return_to_main : follows.

Lemma follows_ensure_main_loop attempts :
  follows G (BotController.ensure_main_loop template_manager attempts).
Proof. induction attempts as [|attempts IH]; simpl; follows_auto. Qed.
Hint Resolve follows_ensure_main_loop : follows.

Lemma follows__ensure_on_main_page :
  follows G (BotController._ensure_on_main_page template_manager).
Proof. apply follows_ensure_main_loop. Qed.
Hint Resolve follows__ensure_on_main_page : follows.

Lemma follows__check_and_handle_unknown_popups screen :
  follows G (BotController._check_and_handle_unknown_popups template_manager screen).
Proof. unfold BotController._check_and_handle_unknown_popups. follows_auto. Qed.
Hint Resolve follows__check_and_handle_unknown_popups : follows.

Lemma follows_sleep_then_continue total_time :
  follows G (BotController.sleep_then_continue total_time).
Proof. unfold BotController.sleep_then_continue. follows_auto. Qed.
Hint Resolve follows_sleep_then_continue : follows.

Lemma follows_check_fields_need_planting_cv :
  follows G BotOperations.check_fields_need_planting_cv.
Proof. unfold BotOperations.check_fields_need_planting_cv. follows_auto. Qed.
Hint Resolve follows_check_fields_need_planting_cv : follows.

Lemma follows_growth_market_check :
  follows G (BotController.growth_market_check template_manager).
Proof. unfold BotController.growth_market_check. follows_auto. Qed.
Hint Resolve follows_growth_market_check : follows.

Lemma follows_simple_wait_loop fuel start_time total :
  follows G (BotController.simple_wait_loop fuel start_time total).
Proof. induction fuel as [|fuel IH]; simpl; follows_auto. Qed.
Hint Resolve follows_simple_wait_loop : follows.

Lemma follows_growth_wait_loop fuel start_time total last :
  follows G (BotController.growth_wait_loop template_manager fuel start_time total last).
Proof. revert last. induction fuel as [|fuel IH]; intros last; simpl; follows_auto. Qed.
Hint Resolve follows_growth_wait_loop : follows.

Lemma follows__smart_wait_with_market_management fuel total :
  follows G (BotController._smart_wait_with_market_management template_manager fuel total).
Proof. unfold BotController._smart_wait_with_market_management. follows_auto. Qed.
Hint Resolve follows__smart_wait_with_market_management : follows.

Lemma follows_collect_step : follows G (BotController.collect_step template_manager).
Proof. unfold BotController.collect_step. follows_auto. Qed.
Hint Resolve follows_collect_step : follows.

Lemma follows_silo_step screen :
  follows G (BotController.silo_step template_manager screen).
Proof. unfold BotController.silo_step. follows_auto. Qed.
Hint Resolve follows_silo_step : follows.

(** *** Planting and harvesting: the discipline must allow a move right
    after a clear look at the stop signal, and the two button events *)

Section WithDrag.
Hypothesis disc_move : forall x y duration rest,
  G (EvStopCheck false :: rest) -> G (EvMoveTo x y duration :: EvStopCheck false :: rest).

Lemma follows_safe_move (x y : Z) (duration : Q) :
  follows G (BotOperations.safe_move x y duration).
Proof.
  intros env w. unfold BotOperations.safe_move. rewrite run_bind.
  destruct (not_running_or_stopped_run G env w) as (b & w1 & new & E & He & HG & Hb).
  rewrite E. destruct b; [exists new; auto|].
  destruct (Hb eq_refl) as [rest ->].
  rewrite run_bind. unfold pag_moveTo. rewrite run_bind. unfold ask at 1. simpl.
  destruct (env_fault env (clock w1)); simpl; [exists (EvStopCheck false :: rest); auto|].
  exists (EvMoveTo x y duration :: EvStopCheck false :: rest).
  split; [rewrite He; reflexivity|apply disc_move, HG].
Qed.
Hint Resolve follows_safe_move : follows.

Lemma follows_follow_path (path : list Point) : follows G (BotOperations.follow_path path).
Proof. induction path as [|[x y] rest IH]; simpl; follows_auto. Qed.
Hint Resolve follows_follow_path : follows.

Lemma follows_create_linear_path cx cy contour_arg path_type :
  follows G (BotOperations.create_linear_path cx cy contour_arg path_type).
Proof. unfold BotOperations.create_linear_path. follows_auto. Qed.
Hint Resolve follows_create_linear_path : follows.

(** The steps of [plant_wheat] before the button is pressed. *)
Lemma follows_drag_path cx cy contour0 path_type :
  follows G (_ ← capture_screen;
             d ← read_detection_state;
             planting_path ←
               BotOperations.create_linear_path cx cy
                 (match contour d with Some c => Some c | None => Some contour0 end)
                 path_type;
             write_bot_state (set_path_execution_active true) ;;
             BotOperations.follow_path planting_path).
Proof. follows_auto. Qed.

Section WithButton.
Hypothesis disc_down : G [EvMouseDown].
Hypothesis disc_up : G [EvMouseUp].

Lemma follows_pag_mouseDown : follows G pag_mouseDown.
Proof.
  unfold pag_mouseDown. apply follows_bind; [apply follows_ask|].
  intros [|]; [apply follows_raise|apply follows_emit, disc_down].
Qed.

Lemma follows_pag_mouseUp : follows G pag_mouseUp.
Proof.
  unfold pag_mouseUp. apply follows_bind; [apply follows_ask|].
  intros [|]; [apply follows_raise|apply follows_emit, disc_up].
Qed.
Hint Resolve follows_pag_mouseDown follows_pag_mouseUp : follows.

Lemma follows_drag_handler : follows G BotOperations.drag_handler.
Proof. unfold BotOperations.drag_handler. follows_auto. Qed.
Hint Resolve follows_drag_handler : follows.

Lemma follows_plant_wheat_drag cx cy contour_arg :
  follows G (BotOperations.plant_wheat_drag cx cy contour_arg).
Proof. unfold BotOperations.plant_wheat_drag. follows_auto. Qed.
Hint Resolve follows_plant_wheat_drag : follows.

Lemma follows_plant_wheat cx cy contour_arg :
  follows G (BotOperations.plant_wheat cx cy contour_arg).
Proof. unfold BotOperations.plant_wheat. follows_auto. Qed.
Hint Resolve follows_plant_wheat : follows.

Lemma follows_harvest_wheat_drag cx cy contour_arg :
  follows G (BotOperations.harvest_wheat_drag cx cy contour_arg).
Proof. unfold BotOperations.harvest_wheat_drag. follows_auto. Qed.
Hint Resolve follows_harvest_wheat_drag : follows.

Lemma follows_harvest_wheat cx cy contour_arg :
  follows G (BotOperations.harvest_wheat cx cy contour_arg).
Proof. unfold BotOperations.harvest_wheat. follows_auto. Qed.
Hint Resolve follows_harvest_wheat : follows.

Lemma follows_planting_attempt attempt max_attempts :
  follows G (BotController.planting_attempt template_manager attempt max_attempts).
Proof. unfold BotController.planting_attempt. follows_auto. Qed.
Hint Resolve follows_planting_attempt : follows.

Lemma follows_planting_loop max_attempts remaining :
  follows G (BotController.planting_loop template_manager max_attempts remaining).
Proof. induction remaining as [|remaining IH]; simpl; follows_auto. Qed.
Hint Resolve follows_planting_loop : follows.

Lemma follows__comprehensive_field_planting max_attempts :
  follows G (BotController._comprehensive_field_planting template_manager max_attempts).
Proof. unfold BotController._comprehensive_field_planting. follows_auto. Qed.
Hint Resolve follows__comprehensive_field_planting : follows.

Lemma follows_harvest_step : follows G (BotController.harvest_step template_manager).
Proof. unfold BotController.harvest_step. follows_auto. Qed.
Hint Resolve follows_harvest_step : follows.

Lemma follows_planting_step fuel :
  follows G (BotController.planting_step template_manager fuel).
Proof. unfold BotController.planting_step. follows_auto. Qed.
Hint Resolve follows_planting_step : follows.

Lemma follows_bot_cycle fuel : follows G (BotController.bot_cycle template_manager fuel).
Proof. unfold BotController.bot_cycle. follows_auto. Qed.
Hint Resolve follows_bot_cycle : follows.

Lemma follows_cycles wait_fuel fuel :
  follows G (BotController.cycles template_manager wait_fuel fuel).
Proof. induction fuel as [|fuel IH]; simpl; follows_auto. Qed.
Hint Resolve follows_cycles : follows.

Lemma follows_bot_loop wait_fuel fuel :
  follows G (BotController.bot_loop template_manager wait_fuel fuel).
Proof. unfold BotController.bot_loop. follows_auto. Qed.

End WithButton.
End WithDrag.
End FollowsOperations.

#[export] Hint Resolve follows_interruptible_sleep follows_safe_click
  follows_close_silo_with_template follows_check_silo_full_template
  follows_market_check_and_dismiss follows_go_to_market_template
  follows_collect_sold_items_template follows_fill_market_with_wheat_template
  follows_close_market_template follows_check_and_create_advertisement
  follows_handle_market_workflow_template follows__handle_market_workflow
  follows_controller_check_and_dismiss follows__get_screen_with_loading_check
  follows_click_close follows__smart_return_to_main follows__ensure_on_main_page
  follows__check_and_handle_unknown_popups follows_sleep_then_continue
  follows_check_fields_need_planting_cv follows__smart_wait_with_market_management
  follows_collect_step follows_silo_step : follows.

(** ** The disciplines of the pointer *)

Section PointerDisciplines.
Context {cv : OpenCV}.

(** A property that holds of every event separately is a discipline as
    soon as it allows looks, writes, short sleeps and clicks. *)
Lemma forall_discipline (P : Event -> Prop) :
  (forall b, P (EvStopCheck b)) ->
  (forall before after, P (EvBotState before after)) ->
  (forall seconds, (seconds <= 2)%Q -> P (EvSleep seconds)) ->
  (forall x y, P (EvClick x y)) ->
  Discipline (Forall P).
Proof.
  intros Hlook Hwrite Hsleep Hclick. constructor.
  - constructor.
  - intros older newer Ho Hn. apply Forall_app. split; assumption.
  - intros b. constructor; [apply Hlook|constructor].
  - intros before after. constructor; [apply Hwrite|constructor].
  - intros seconds Hs. constructor; [apply Hsleep, Hs|constructor].
  - intros x y rest Hrest. constructor; [apply Hclick|exact Hrest].
Qed.

Lemma guarded_app (older newer : list Event) :
  guarded older -> guarded newer -> guarded (newer ++ older).
Proof.
  intros Ho. induction newer as [|e newer IH]; intros Hn; [exact Ho|].
  destruct e; simpl in *; try (apply IH, Hn);
    destruct Hn as [[rest' ->] Hn]; (split; [eexists; reflexivity|apply IH, Hn]).
Qed.

#[export] Instance guarded_discipline : Discipline guarded.
Proof.
  constructor.
  - exact I.
  - apply guarded_app.
  - intros b. exact I.
  - intros before after. exact I.
  - intros seconds _. exact I.
  - intros x y rest Hrest. split; [eexists; reflexivity|exact Hrest].
Qed.

#[export] Instance short_sleeps_discipline : Discipline short_sleeps.
Proof.
  apply forall_discipline; intros; simpl; auto.
Qed.

#[export] Instance clicks_only_discipline : Discipline clicks_only.
Proof.
  apply forall_discipline; intros; exact I.
Qed.

#[export] Instance no_buttons_discipline : Discipline no_buttons.
Proof.
  apply forall_discipline; intros; exact I.
Qed.

Context (template_manager : TemplateManager.t).

(** X14.  The bot never clicks or moves the pointer blindly: in every
    run of [bot_loop], whatever the GUI, the detection task and the
    screen do, each [pag.click] and each [pag.moveTo] comes directly
    after a look at the stop signal that found it clear. *)
Theorem bot_loop_pointer_guarded (wait_fuel fuel : nat) (env : Env) (w : World) :
  exists new,
    events (snd (BotController.bot_loop template_manager wait_fuel fuel env w))
      = new ++ events w /\
    guarded new.
Proof.
  apply (follows_bot_loop guarded template_manager).
  - intros x y duration rest Hrest. split; [eexists; reflexivity|exact Hrest].
  - exact I.
  - exact I.
Qed.

(** X15.  No single [time.sleep] in any run of [bot_loop] lasts longer
    than two seconds: the waits of ten, five and three seconds and the
    growth wait are all cut into chunks, and the longest sleeps that are
    not are the two-second pauses of the loading check and after a
    planting. *)
Theorem bot_loop_sleeps_short (wait_fuel fuel : nat) (env : Env) (w : World) :
  exists new,
    events (snd (BotController.bot_loop template_manager wait_fuel fuel env w))
      = new ++ events w /\
    short_sleeps new.
Proof.
  apply (follows_bot_loop short_sleeps template_manager).
  - intros x y duration rest Hrest. constructor; [exact I|exact Hrest].
  - constructor; [exact I|constructor].
  - constructor; [exact I|constructor].
Qed.

(** X16.  The market visit, the growth wait and the return to the main
    page only ever click: they never move the pointer on its own and
    never press or release the button, so they cannot drag anything. *)
Theorem market_and_navigation_click_only (fuel : nat) (total_wait_seconds : Q)
    (env : Env) (w : World) :
  (exists new,
      events (snd (BotController._handle_market_workflow template_manager env w))
        = new ++ events w /\ clicks_only new) /\
  (exists new,
      events (snd (BotController._smart_wait_with_market_management template_manager
                     fuel total_wait_seconds env w))
        = new ++ events w /\ clicks_only new) /\
  (exists new,
      events (snd (BotController._ensure_on_main_page template_manager env w))
        = new ++ events w /\ clicks_only new).
Proof.
  split; [|split].
  - apply (follows__handle_market_workflow clicks_only template_manager).
  - apply (follows__smart_wait_with_market_management clicks_only template_manager).
  - apply (follows__ensure_on_main_page clicks_only template_manager).
Qed.

End PointerDisciplines.
